(** * manuals-cli: API client and output renderer

    A shallow embedding of [internal/client/client.go],
    [internal/output/output.go] and the command bodies under
    [cmd/manuals/cmd], together with the parts of the Go runtime and
    standard library they call (string slicing, [fmt] verbs, [net/url]
    query encoding, [encoding/json] stream decoding, [text/tabwriter]).

    Conventions.
    - A Go [string] is a sequence of bytes: [string] of 8-bit [ascii].
    - Go [int] and [int64] are [Z]; where the source can leave the 64-bit
      range the wrap-around is written out with [wrap64].
    - A run-time panic is the [Panic] constructor of [outcome].
    - Errors ([error] values) are carried as their message text. *)

From Stdlib Require Import ZArith List String Ascii Bool Lia Arith.
From Stdlib Require Import DecimalString.
Import ListNotations.

Local Open Scope string_scope.
Local Open Scope Z_scope.

(* ================================================================== *)
(** * Go runtime: panics, strings, slices, integers                    *)
(* ================================================================== *)

Module Go.

(** The result of evaluating a Go expression that may panic. *)
Inductive outcome (A : Type) : Type :=
| Done (a : A)
| Panic.
Arguments Done {A} a.
Arguments Panic {A}.

Definition bind {A B : Type} (x : outcome A) (f : A -> outcome B) : outcome B :=
  match x with
  | Done a => f a
  | Panic => Panic
  end.

(** A Go result pair [(value, error)]: the value, or the message of the
    error. *)
Inductive result (A : Type) : Type :=
| Ok (a : A)
| Err (msg : string).
Arguments Ok {A} a.
Arguments Err {A} msg.

(** [len(s)] *)
Definition len (s : string) : Z := Z.of_nat (String.length s).

(** [s[lo:hi]]: panics unless [0 <= lo <= hi <= len(s)]. *)
Definition slice (s : string) (lo hi : Z) : outcome string :=
  if (0 <=? lo) && (lo <=? hi) && (hi <=? len s)
  then Done (substring (Z.to_nat lo) (Z.to_nat (hi - lo)) s)
  else Panic.

(** [s[lo:]] is [s[lo:len(s)]]. *)
Definition slice_from (s : string) (lo : Z) : outcome string :=
  slice s lo (len s).

(** [s[:hi]] is [s[0:hi]]. *)
Definition slice_to (s : string) (hi : Z) : outcome string :=
  slice s 0 hi.

(** [s[i]] *)
Definition index (s : string) (i : Z) : outcome ascii :=
  if (0 <=? i) && (i <? len s)
  then match String.get (Z.to_nat i) s with
       | Some c => Done c
       | None => Panic
       end
  else Panic.

(** Two's-complement wrap-around of 64-bit signed arithmetic. *)
Definition wrap64 (z : Z) : Z :=
  (z + 2 ^ 63) mod 2 ^ 64 - 2 ^ 63.

Definition int64_range (z : Z) : Prop := - 2 ^ 63 <= z < 2 ^ 63.

(** The numeric value of a byte. *)
Definition code (c : ascii) : Z := Z.of_N (N_of_ascii c).

Definition byte_of (z : Z) : ascii := ascii_of_N (Z.to_N z).

Fixpoint bytes (s : string) : list ascii :=
  match s with
  | EmptyString => []
  | String c r => c :: bytes r
  end.

Fixpoint of_bytes (l : list ascii) : string :=
  match l with
  | [] => EmptyString
  | c :: r => String c (of_bytes r)
  end.

(** [fmt.Sprintf("%d", n)]: decimal digits, with a leading minus sign for
    negative numbers. *)
Definition itoa (n : Z) : string :=
  NilZero.string_of_int (Z.to_int n).

(** The line feed and the double quote, as strings. *)
Definition nl : string := String (byte_of 10) "".
Definition dquote : string := String (byte_of 34) "".

(** [strings.Join(elems, sep)] *)
Fixpoint Join (elems : list string) (sep : string) : string :=
  match elems with
  | [] => ""
  | [e] => e
  | e :: r => e ++ sep ++ Join r sep
  end.

(** [strings.Repeat(s, count)] for a count that is a length, hence not
    negative. *)
Fixpoint repeat_nat (s : string) (n : nat) : string :=
  match n with
  | O => ""
  | S k => s ++ repeat_nat s k
  end.

Notation "x <- e1 ;; e2" := (bind e1 (fun x => e2))
  (at level 100, e1 at next level, right associativity).

(** A loop that builds a slice element by element and stops at the first
    panic. *)
Fixpoint mapM {A B : Type} (f : A -> outcome B) (l : list A) : outcome (list B) :=
  match l with
  | [] => Done []
  | a :: r => b <- f a ;; bs <- mapM f r ;; Done (b :: bs)
  end.

End Go.

Notation "x <- e1 ;; e2" := (Go.bind e1 (fun x => e2))
  (at level 100, e1 at next level, right associativity).


(* ================================================================== *)
(** * Writing to standard output                                       *)
(* ================================================================== *)

Module IO.
Import Go.

(** A computation that writes to standard output: from the text written
    so far to the text written when it stops, with the value it returns
    or the panic that stopped it. *)
Definition IO (A : Type) : Type := string -> string * outcome A.

Definition ret {A : Type} (a : A) : IO A := fun o => (o, Done a).

Definition bindIO {A B : Type} (m : IO A) (f : A -> IO B) : IO B :=
  fun o =>
    match m o with
    | (o1, Done a) => f a o1
    | (o1, Panic) => (o1, Panic)
    end.

(** Evaluating an expression that may panic. *)
Definition eval {A : Type} (x : outcome A) : IO A := fun o => (o, x).

Definition print (s : string) : IO unit := fun o => (o ++ s, Done tt).

Notation "x <~ m ;; k" := (bindIO m (fun x => k))
  (at level 100, m at next level, right associativity).
Notation "m ;;; k" := (bindIO m (fun _ => k))
  (at level 100, right associativity).

(** A [for ... range] loop whose body only writes. *)
Fixpoint forM_ {A : Type} (f : A -> IO unit) (l : list A) : IO unit :=
  match l with
  | [] => ret tt
  | a :: r => f a ;;; forM_ f r
  end.

End IO.

(* ================================================================== *)
(** * IEEE-754 binary64 values, as far as the program uses them        *)
(* ================================================================== *)

Module F64.
Import Go.

(** A binary64 value. [Finite s m e] denotes [(-1)^s * m * 2^e] with
    [0 <= m]; every finite double has this form. *)
Inductive float64 : Type :=
| Finite (sign : bool) (mant : Z) (expo : Z)
| Inf (sign : bool)
| NaN.

(** The integer nearest to [num / den] ([0 <= num], [0 < den]), ties to
    the even neighbour. *)
Definition rne (num den : Z) : Z :=
  let q := num / den in
  let r := num mod den in
  if 2 * r <? den then q
  else if den <? 2 * r then q + 1
  else if Z.even q then q else q + 1.

(** Correct rounding of the rational [num / den] ([0 <= num], [0 < den]) to
    binary64: 53 significant bits, exponent not below -1074 (gradual
    underflow), infinity above the largest finite double. *)
Definition round (neg : bool) (num den : Z) : float64 :=
  if num =? 0 then Finite neg 0 0
  else
    let l := Z.log2 num - Z.log2 den in
    let scaled (e : Z) : Z * Z :=
      if 0 <=? e then (num, den * 2 ^ e) else (num * 2 ^ (- e), den) in
    let e1 := l - 52 in
    let e2 := if fst (scaled e1) <? 2 ^ 52 * snd (scaled e1) then e1 - 1 else e1 in
    let e := Z.max e2 (-1074) in
    let m := rne (fst (scaled e)) (snd (scaled e)) in
    if (0 <=? e) && (2 ^ 1024 <=? m * 2 ^ e) then Inf neg else Finite neg m e.

(** [float64(n)] for an integer [n]. *)
Definition of_int (n : Z) : float64 :=
  round (n <? 0) (Z.abs n) 1.

(** The double nearest to the decimal [digits * 10^(-scale)], as
    [strconv.ParseFloat] returns it for a literal with [scale] fraction
    digits. *)
Definition of_decimal (neg : bool) (digits : Z) (scale : Z) : float64 :=
  round neg digits (10 ^ scale).

(** [x / y] *)
Definition div (x y : float64) : float64 :=
  match x, y with
  | NaN, _ | _, NaN => NaN
  | Inf _, Inf _ => NaN
  | Inf s, Finite t _ _ => Inf (xorb s t)
  | Finite s _ _, Inf t => Finite (xorb s t) 0 0
  | Finite s m e, Finite t n f =>
      if n =? 0 then (if m =? 0 then NaN else Inf (xorb s t))
      else if e <=? f then round (xorb s t) m (n * 2 ^ (f - e))
      else round (xorb s t) (m * 2 ^ (e - f)) n
  end.

(** The decimal digits of [n], left-padded with zeros to [width]. *)
Definition pad_digits (width : nat) (n : Z) : string :=
  let d := itoa n in
  repeat_nat "0" (width - String.length d) ++ d.

(** [fmt.Sprintf("%.<prec>f", x)]: the exact decimal expansion of [x]
    rounded to [prec] fraction digits, ties to even. *)
Definition format_f (prec : nat) (x : float64) : string :=
  match x with
  | NaN => "NaN"
  | Inf s => if s then "-Inf" else "+Inf"
  | Finite s m e =>
      let scale := 10 ^ Z.of_nat prec in
      let t := if 0 <=? e then m * 2 ^ e * scale
               else rne (m * scale) (2 ^ (- e)) in
      (if s then "-" else "")
      ++ itoa (t / scale)
      ++ match prec with
         | O => ""
         | S _ => "." ++ pad_digits prec (t mod scale)
         end
  end.

End F64.

(* ================================================================== *)
(** * unicode/utf8 and strings                                         *)
(* ================================================================== *)

Module Utf8.
Import Go.

Definition RuneError : Z := 65533.   (* U+FFFD *)

(** The table [first] of the Go sources, as the length of the sequence a
    leading byte announces and the range its second byte must lie in;
    [None] for bytes that cannot lead a multi-byte sequence. *)
Definition first (c : Z) : option (nat * Z * Z) :=
  if c <? 194 then None                       (* 0x80-0xC1: invalid *)
  else if c <? 224 then Some (2%nat, 128, 191)   (* 0xC2-0xDF *)
  else if c =? 224 then Some (3%nat, 160, 191)   (* 0xE0 *)
  else if c <? 237 then Some (3%nat, 128, 191)   (* 0xE1-0xEC *)
  else if c =? 237 then Some (3%nat, 128, 159)   (* 0xED *)
  else if c <? 240 then Some (3%nat, 128, 191)   (* 0xEE-0xEF *)
  else if c =? 240 then Some (4%nat, 144, 191)   (* 0xF0 *)
  else if c <? 244 then Some (4%nat, 128, 191)   (* 0xF1-0xF3 *)
  else if c =? 244 then Some (4%nat, 128, 143)   (* 0xF4 *)
  else None.                                   (* 0xF5-0xFF *)

Definition cont (c : Z) : bool := (128 <=? c) && (c <=? 191).

(** [utf8.DecodeRune]: the first rune of [p] and its width in bytes;
    [(RuneError, 1)] for an invalid or truncated encoding, [(RuneError, 0)]
    for empty input. *)
Definition DecodeRune (p : list ascii) : Z * nat :=
  match p with
  | [] => (RuneError, 0%nat)
  | p0 :: r =>
      let c0 := code p0 in
      if c0 <? 128 then (c0, 1%nat)
      else match first c0 with
           | None => (RuneError, 1%nat)
           | Some (sz, lo, hi) =>
               if (List.length p <? sz)%nat then (RuneError, 1%nat)
               else match r with
                    | [] => (RuneError, 1%nat)
                    | p1 :: r1 =>
                        let b1 := code p1 in
                        if (b1 <? lo) || (hi <? b1) then (RuneError, 1%nat)
                        else if (sz <=? 2)%nat
                        then (Z.lor (Z.shiftl (Z.land c0 31) 6) (Z.land b1 63), 2%nat)
                        else match r1 with
                             | [] => (RuneError, 1%nat)
                             | p2 :: r2 =>
                                 let b2 := code p2 in
                                 if negb (cont b2) then (RuneError, 1%nat)
                                 else if (sz <=? 3)%nat
                                 then (Z.lor (Z.shiftl (Z.land c0 15) 12)
                                         (Z.lor (Z.shiftl (Z.land b1 63) 6) (Z.land b2 63)),
                                       3%nat)
                                 else match r2 with
                                      | [] => (RuneError, 1%nat)
                                      | p3 :: _ =>
                                          let b3 := code p3 in
                                          if negb (cont b3) then (RuneError, 1%nat)
                                          else (Z.lor (Z.shiftl (Z.land c0 7) 18)
                                                  (Z.lor (Z.shiftl (Z.land b1 63) 12)
                                                     (Z.lor (Z.shiftl (Z.land b2 63) 6)
                                                        (Z.land b3 63))),
                                                4%nat)
                                      end
                             end
                    end
           end
  end.

(** [utf8.RuneCount]: every rune, and every byte of an invalid encoding,
    counts one. [skip] is the number of bytes still belonging to the rune
    counted last. *)
Fixpoint RuneCount_from (skip : nat) (p : list ascii) : Z :=
  match p with
  | [] => 0
  | _ :: r =>
      match skip with
      | S k => RuneCount_from k r
      | O => 1 + RuneCount_from (snd (DecodeRune p) - 1) r
      end
  end.

Definition RuneCount (s : string) : Z := RuneCount_from 0 (bytes s).

(** [utf8.EncodeRune]; surrogates and values beyond U+10FFFF are written
    as U+FFFD. *)
Definition EncodeRune (r : Z) : list ascii :=
  let b := byte_of in
  let enc3 (x : Z) :=
    [b (Z.lor 224 (Z.shiftr x 12));
     b (Z.lor 128 (Z.land (Z.shiftr x 6) 63));
     b (Z.lor 128 (Z.land x 63))] in
  if r <? 0 then enc3 RuneError
  else if r <? 128 then [b r]
  else if r <? 2048 then
    [b (Z.lor 192 (Z.shiftr r 6)); b (Z.lor 128 (Z.land r 63))]
  else if (55296 <=? r) && (r <=? 57343) then enc3 RuneError
  else if r <? 65536 then enc3 r
  else if r <=? 1114111 then
    [b (Z.lor 240 (Z.shiftr r 18));
     b (Z.lor 128 (Z.land (Z.shiftr r 12) 63));
     b (Z.lor 128 (Z.land (Z.shiftr r 6) 63));
     b (Z.lor 128 (Z.land r 63))]
  else enc3 RuneError.

End Utf8.

Module Strings.
Import Go.

Definition isASCII (s : string) : bool :=
  forallb (fun c => code c <? 128) (bytes s).

Definition lower_byte (c : ascii) : ascii :=
  if (65 <=? code c) && (code c <=? 90) then byte_of (code c + 32) else c.

Fixpoint map_bytes (f : ascii -> ascii) (s : string) : string :=
  match s with
  | EmptyString => EmptyString
  | String c r => String (f c) (map_bytes f r)
  end.

Section ToLower.

(** [strings.Map(unicode.ToLower, s)], the path [strings.ToLower] takes for
    a string with a byte outside ASCII. The Unicode case tables are not
    part of this development. *)
Variable unicodeToLower : string -> string.

(** [strings.ToLower] *)
Definition ToLower (s : string) : string :=
  if isASCII s then map_bytes lower_byte s else unicodeToLower s.

End ToLower.

(** Writes a text that contains double quotes with apostrophes in their
    place: every apostrophe of [s] stands for a double quote. *)
Definition dq (s : string) : string :=
  map_bytes (fun c => if Ascii.eqb c "'" then byte_of 34 else c) s.

End Strings.

(* ================================================================== *)
(** * net/url: query values                                            *)
(* ================================================================== *)

Module URL.
Import Go.

Definition is_alnum (c : Z) : bool :=
  ((97 <=? c) && (c <=? 122)) || ((65 <=? c) && (c <=? 90)) || ((48 <=? c) && (c <=? 57)).

(** [shouldEscape(c, encodeQueryComponent)]: everything but letters,
    digits and [- _ . ~] is escaped. *)
Definition shouldEscape (c : Z) : bool :=
  negb (is_alnum c || (c =? 45) || (c =? 95) || (c =? 46) || (c =? 126)).

Definition upperhex (n : Z) : ascii :=
  if n <? 10 then byte_of (48 + n) else byte_of (55 + n).

(** [url.QueryEscape]: a blank becomes [+], an escaped byte [%XX]. *)
Fixpoint QueryEscape (s : string) : string :=
  match s with
  | EmptyString => EmptyString
  | String c r =>
      let n := code c in
      if n =? 32 then String "+" (QueryEscape r)
      else if shouldEscape n
      then String "%" (String (upperhex (Z.shiftr n 4))
                         (String (upperhex (Z.land n 15)) (QueryEscape r)))
      else String c (QueryEscape r)
  end.

(** [url.Values] is [map[string][]string]: keys are unique, their order
    carries no meaning. *)
Definition Values : Type := list (string * list string).

Definition empty : Values := [].

(** [v.Set(key, value)] replaces whatever [key] was bound to. *)
Fixpoint Set_ (v : Values) (key value : string) : Values :=
  match v with
  | [] => [(key, [value])]
  | (k, vs) :: r =>
      if String.eqb k key then (k, [value]) :: r else (k, vs) :: Set_ r key value
  end.

(** [len(v)] *)
Definition len_values (v : Values) : Z := Z.of_nat (List.length v).

Fixpoint insert_sorted (k : string) (ks : list string) : list string :=
  match ks with
  | [] => [k]
  | x :: r => if String.leb k x then k :: ks else x :: insert_sorted k r
  end.

(** [slices.Sort(keys)]: byte-wise lexicographic order. *)
Definition sort_keys (ks : list string) : list string :=
  fold_right insert_sorted [] ks.

Fixpoint lookup (v : Values) (key : string) : list string :=
  match v with
  | [] => []
  | (k, vs) :: r => if String.eqb k key then vs else lookup r key
  end.

(** [v.Encode()]: [key=value] pairs joined by [&], sorted by key. *)
Definition Encode (v : Values) : string :=
  Join
    (flat_map (fun k => map (fun x => QueryEscape k ++ "=" ++ QueryEscape x) (lookup v k))
              (sort_keys (map fst v)))
    "&".

End URL.

(* ================================================================== *)
(** * net/http: headers, requests, responses                           *)
(* ================================================================== *)

Module HTTP.
Import Go.

(** [validHeaderFieldByte]: the token characters of RFC 7230. *)
Definition validHeaderFieldByte (c : Z) : bool :=
  URL.is_alnum c
  || existsb (Z.eqb c) [33; 35; 36; 37; 38; 39; 42; 43; 45; 46; 94; 95; 96; 124; 126].

Fixpoint canon (upper : bool) (s : string) : string :=
  match s with
  | EmptyString => EmptyString
  | String c r =>
      let n := code c in
      let c' := if upper && (97 <=? n) && (n <=? 122) then byte_of (n - 32)
                else if negb upper && (65 <=? n) && (n <=? 90) then byte_of (n + 32)
                else c in
      String c' (canon (code c' =? 45) r)
  end.

(** [textproto.CanonicalMIMEHeaderKey]: the first letter and every letter
    after a dash in upper case, the others in lower case; a key with a
    byte that is no token character is returned unchanged. *)
Definition CanonicalMIMEHeaderKey (s : string) : string :=
  if forallb (fun c => validHeaderFieldByte (code c)) (bytes s)
  then canon true s else s.

(** [http.Header] is [map[string][]string]. *)
Definition Header : Type := list (string * list string).

(** [h.Set(key, value)] *)
Definition Header_Set (h : Header) (key value : string) : Header :=
  URL.Set_ h (CanonicalMIMEHeaderKey key) value.

(** [h.Get(key)]: the first value of the key, [""] when there is none. *)
Definition Header_Get (h : Header) (key : string) : string :=
  match URL.lookup h (CanonicalMIMEHeaderKey key) with
  | [] => ""
  | v :: _ => v
  end.

Record Request : Type := mkRequest {
  Method : string;
  Url : string;
  ReqHeader : Header
}.

(** A response body is a stream: the blocks of bytes in the order the
    connection delivers them. *)
Definition Body : Type := list string.

Record Response : Type := mkResponse {
  StatusCode : Z;
  RespHeader : Header;
  RespBody : Body
}.

Definition StatusOK : Z := 200.

(** [Read(p)] with [len(p) = max > 0] on a body: at most [max] bytes of
    the first block; at the end of the stream no bytes and [io.EOF]. *)
Definition Read (b : Body) (max : Z) : string * bool * Body :=
  match b with
  | [] => ("", true, [])
  | blk :: r =>
      if len blk <=? max then (blk, false, r)
      else (substring 0 (Z.to_nat max) blk, false,
            substring (Z.to_nat max) (String.length blk - Z.to_nat max) blk :: r)
  end.

(** [io.ReadAll]: everything not read yet. *)
Definition ReadAll (b : Body) : string := String.concat "" b.

End HTTP.

(* ================================================================== *)
(** * encoding/json: the scanner and a stream decoder                  *)
(* ================================================================== *)

Module JSON.
Import Go.

(** The step functions of [scanner.go], one constructor each. *)
Inductive state : Type :=
| stateBeginValueOrEmpty | stateBeginValue | stateBeginStringOrEmpty
| stateBeginString | stateEndValue | stateEndTop
| stateInString | stateInStringEsc | stateInStringEscU | stateInStringEscU1
| stateInStringEscU12 | stateInStringEscU123
| stateNeg | state1 | state0 | stateDot | stateDot0 | stateE | stateESign | stateE0
| stateT | stateTr | stateTru | stateF | stateFa | stateFal | stateFals
| stateN | stateNu | stateNul
| stateError.

Inductive parse : Type := parseObjectKey | parseObjectValue | parseArrayValue.

Inductive opcode : Type :=
| scanContinue | scanBeginLiteral | scanBeginObject | scanObjectKey
| scanObjectValue | scanEndObject | scanBeginArray | scanArrayValue
| scanEndArray | scanSkipSpace | scanEnd | scanError.

Definition is_scanEnd (o : opcode) : bool :=
  match o with scanEnd => true | _ => false end.

(** The scanner; [parseState] has the innermost composite first. *)
Record scanner : Type := mkScanner {
  step : state;
  parseState : list parse;
  endTop : bool
}.

Definition maxNestingDepth : Z := 10000.

(** [s.reset()] *)
Definition reset : scanner := mkScanner stateBeginValue [] false.

Definition goto (s : scanner) (st : state) (o : opcode) : scanner * opcode :=
  (mkScanner st (parseState s) (endTop s), o).

(** [s.error(c, context)] *)
Definition error (s : scanner) : scanner * opcode := goto s stateError scanError.

Definition eqc (c : ascii) (d : ascii) : bool := Ascii.eqb c d.
Arguments eqc c%_char d%_char.

Definition isSpace (c : ascii) : bool :=
  eqc c " " || (code c =? 9) || (code c =? 13) || (code c =? 10).

Definition isDigit (c : ascii) : bool := (48 <=? code c) && (code c <=? 57).

Definition isDigit19 (c : ascii) : bool := (49 <=? code c) && (code c <=? 57).

Definition isHex (c : ascii) : bool :=
  isDigit c || ((97 <=? code c) && (code c <=? 102))
  || ((65 <=? code c) && (code c <=? 70)).

(** [s.pushParseState(c, newParseState, successState)]; the caller has set
    [s.step] to [st] before. *)
Definition pushParseState (s : scanner) (st : state) (p : parse) (o : opcode)
  : scanner * opcode :=
  let ps := p :: parseState s in
  if Z.of_nat (List.length ps) <=? maxNestingDepth
  then (mkScanner st ps (endTop s), o)
  else (mkScanner stateError ps (endTop s), scanError).

(** [s.popParseState()] *)
Definition popParseState (s : scanner) : scanner :=
  match tl (parseState s) with
  | [] => mkScanner stateEndTop [] true
  | ps => mkScanner stateEndValue ps (endTop s)
  end.

Definition replaceTop (s : scanner) (p : parse) : scanner :=
  mkScanner (step s) (p :: tl (parseState s)) (endTop s).

Definition do_stateEndTop (s : scanner) (c : ascii) : scanner * opcode :=
  if negb (isSpace c) then (fst (error s), scanEnd) else (s, scanEnd).

Definition do_stateEndValue (s : scanner) (c : ascii) : scanner * opcode :=
  match parseState s with
  | [] => do_stateEndTop (mkScanner stateEndTop [] true) c
  | ps :: _ =>
      if isSpace c then goto s stateEndValue scanSkipSpace
      else match ps with
           | parseObjectKey =>
               if eqc c ":" then goto (replaceTop s parseObjectValue) stateBeginValue scanObjectKey
               else error s
           | parseObjectValue =>
               if eqc c "," then goto (replaceTop s parseObjectKey) stateBeginString scanObjectValue
               else if eqc c "}" then (popParseState s, scanEndObject)
               else error s
           | parseArrayValue =>
               if eqc c "," then goto s stateBeginValue scanArrayValue
               else if eqc c "]" then (popParseState s, scanEndArray)
               else error s
           end
  end.

Definition do_stateBeginValue (s : scanner) (c : ascii) : scanner * opcode :=
  if isSpace c then (s, scanSkipSpace)
  else if eqc c "{" then pushParseState s stateBeginStringOrEmpty parseObjectKey scanBeginObject
  else if eqc c "[" then pushParseState s stateBeginValueOrEmpty parseArrayValue scanBeginArray
  else if (code c =? 34) then goto s stateInString scanBeginLiteral
  else if eqc c "-" then goto s stateNeg scanBeginLiteral
  else if eqc c "0" then goto s state0 scanBeginLiteral
  else if eqc c "t" then goto s stateT scanBeginLiteral
  else if eqc c "f" then goto s stateF scanBeginLiteral
  else if eqc c "n" then goto s stateN scanBeginLiteral
  else if isDigit19 c then goto s state1 scanBeginLiteral
  else error s.

Definition do_stateBeginString (s : scanner) (c : ascii) : scanner * opcode :=
  if isSpace c then (s, scanSkipSpace)
  else if (code c =? 34) then goto s stateInString scanBeginLiteral
  else error s.

Definition do_state0 (s : scanner) (c : ascii) : scanner * opcode :=
  if eqc c "." then goto s stateDot scanContinue
  else if eqc c "e" || eqc c "E" then goto s stateE scanContinue
  else do_stateEndValue s c.

Definition do_stateESign (s : scanner) (c : ascii) : scanner * opcode :=
  if isDigit c then goto s stateE0 scanContinue else error s.

Definition expect (s : scanner) (c want : ascii) (next : state) : scanner * opcode :=
  if eqc c want then goto s next scanContinue else error s.

(** [s.step(s, c)] *)
Definition do_step (s : scanner) (c : ascii) : scanner * opcode :=
  match step s with
  | stateBeginValueOrEmpty =>
      if isSpace c then (s, scanSkipSpace)
      else if eqc c "]" then do_stateEndValue s c
      else do_stateBeginValue s c
  | stateBeginValue => do_stateBeginValue s c
  | stateBeginStringOrEmpty =>
      if isSpace c then (s, scanSkipSpace)
      else if eqc c "}" then do_stateEndValue (replaceTop s parseObjectValue) c
      else do_stateBeginString s c
  | stateBeginString => do_stateBeginString s c
  | stateEndValue => do_stateEndValue s c
  | stateEndTop => do_stateEndTop s c
  | stateInString =>
      if (code c =? 34) then goto s stateEndValue scanContinue
      else if eqc c "\" then goto s stateInStringEsc scanContinue
      else if code c <? 32 then error s
      else (s, scanContinue)
  | stateInStringEsc =>
      if eqc c "b" || eqc c "f" || eqc c "n" || eqc c "r" || eqc c "t"
         || eqc c "\" || eqc c "/" || (code c =? 34)
      then goto s stateInString scanContinue
      else if eqc c "u" then goto s stateInStringEscU scanContinue
      else error s
  | stateInStringEscU =>
      if isHex c then goto s stateInStringEscU1 scanContinue else error s
  | stateInStringEscU1 =>
      if isHex c then goto s stateInStringEscU12 scanContinue else error s
  | stateInStringEscU12 =>
      if isHex c then goto s stateInStringEscU123 scanContinue else error s
  | stateInStringEscU123 =>
      if isHex c then goto s stateInString scanContinue else error s
  | stateNeg =>
      if eqc c "0" then goto s state0 scanContinue
      else if isDigit19 c then goto s state1 scanContinue
      else error s
  | state1 =>
      if isDigit c then goto s state1 scanContinue else do_state0 s c
  | state0 => do_state0 s c
  | stateDot =>
      if isDigit c then goto s stateDot0 scanContinue else error s
  | stateDot0 =>
      if isDigit c then (s, scanContinue)
      else if eqc c "e" || eqc c "E" then goto s stateE scanContinue
      else do_stateEndValue s c
  | stateE =>
      if eqc c "+" || eqc c "-" then goto s stateESign scanContinue
      else do_stateESign s c
  | stateESign => do_stateESign s c
  | stateE0 =>
      if isDigit c then (s, scanContinue) else do_stateEndValue s c
  | stateT => expect s c "r" stateTr
  | stateTr => expect s c "u" stateTru
  | stateTru => expect s c "e" stateEndValue
  | stateF => expect s c "a" stateFa
  | stateFa => expect s c "l" stateFal
  | stateFal => expect s c "s" stateFals
  | stateFals => expect s c "e" stateEndValue
  | stateN => expect s c "u" stateNu
  | stateNu => expect s c "l" stateNul
  | stateNul => expect s c "l" stateEndValue
  | stateError => (s, scanError)
  end.

(** ** [Decoder.readValue] and [Decoder.refill] *)

(** What scanning the unscanned part of the buffer found: the value ends
    after [n] bytes, a syntax error, or the buffer is used up. *)
Inductive scanned : Type :=
| ValueEnd (n : nat)
| SyntaxError
| NeedMore (s : scanner) (n : nat).

(** The inner loop of [readValue] over the bytes of the buffer that were
    not scanned yet; [n] counts the bytes of the value so far. *)
Fixpoint scan_buf (s : scanner) (n : nat) (unscanned : list ascii) : scanned :=
  match unscanned with
  | [] => NeedMore s n
  | c :: r =>
      let '(s1, o) := do_step s c in
      match o with
      | scanEnd => ValueEnd n
      | scanEndObject | scanEndArray =>
          let '(s2, o2) := do_stateEndValue s1 " " in
          if is_scanEnd o2 then ValueEnd (S n) else scan_buf s2 (S n) r
      | scanError => SyntaxError
      | _ => scan_buf s1 (S n) r
      end
  end.

(** The outcome of [readValue]: the bytes of one complete JSON value, or
    an error; in both cases with what is left unread in the stream. *)
Inductive read_result : Type :=
| ReadValue (value : string) (rest : HTTP.Body)
| ReadError (rest : HTTP.Body).

Definition minRead : Z := 512.

(** The outer loop of [readValue]. [buf] is the decoder's buffer and
    [cap] its capacity, [eof] the delayed result of the last read; each
    turn scans what the last refill appended, then refills from [r]. *)
Fixpoint readValue (fuel : nat) (s : scanner) (n : nat) (unscanned : list ascii)
         (buf : string) (cap : Z) (eof : bool) (r : HTTP.Body) : option read_result :=
  match scan_buf s n unscanned with
  | ValueEnd k => Some (ReadValue (substring 0 k buf) r)
  | SyntaxError => Some (ReadError r)
  | NeedMore s1 k =>
      if eof then
        if is_scanEnd (snd (do_step s1 " "))
        then Some (ReadValue (substring 0 k buf) r)
        else Some (ReadError r)
      else
        match fuel with
        | O => None
        | S f =>
            let cap1 := if cap - len buf <? minRead then 2 * cap + minRead else cap in
            let '(data, eof1, r1) := HTTP.Read r (cap1 - len buf) in
            readValue f s1 k (bytes data) (buf ++ data) cap1 eof1 r1
        end
  end.

(** Enough turns for any body: every refill takes a byte or a block from
    the stream, or reports its end. *)
Definition fuel_for (r : HTTP.Body) : nat :=
  S (S (fold_right (fun blk k => S (String.length blk + k)%nat) 0%nat r)).

(** ** [unquoteBytes] *)

Definition hexval (c : ascii) : option Z :=
  let n := code c in
  if isDigit c then Some (n - 48)
  else if (97 <=? n) && (n <=? 102) then Some (n - 97 + 10)
  else if (65 <=? n) && (n <=? 70) then Some (n - 65 + 10)
  else None.

(** [getu4]: the code unit of a [\uXXXX] escape at the head of [p], or -1. *)
Definition getu4 (p : list ascii) : Z :=
  match p with
  | b :: u :: h1 :: h2 :: h3 :: h4 :: _ =>
      if eqc b "\" && eqc u "u" then
        match hexval h1, hexval h2, hexval h3, hexval h4 with
        | Some a, Some b, Some c, Some d => ((a * 16 + b) * 16 + c) * 16 + d
        | _, _, _, _ => -1
        end
      else -1
  | _ => -1
  end.

(** [utf16.DecodeRune] *)
Definition utf16_DecodeRune (r1 r2 : Z) : Z :=
  if (55296 <=? r1) && (r1 <? 56320) && (56320 <=? r2) && (r2 <? 57344)
  then Z.lor (Z.shiftl (r1 - 55296) 10) (r2 - 56320) + 65536
  else Utf8.RuneError.

(** The body of a string literal (between the quotes) with its escapes
    resolved and invalid UTF-8 coerced to U+FFFD; [None] when the text is
    no valid literal body. [skip] counts bytes already consumed by the
    escape or rune handled last. *)
Fixpoint unquote_from (skip : nat) (p : list ascii) : option (list ascii) :=
  match p with
  | [] => match skip with O => Some [] | S _ => None end
  | c :: r =>
      match skip with
      | S k => unquote_from k r
      | O =>
          let emit (out : list ascii) (consumed : nat) :=
            match unquote_from (consumed - 1) r with
            | Some t => Some (out ++ t)%list
            | None => None
            end in
          if eqc c "\" then
            match r with
            | [] => None
            | e :: _ =>
                if (code e =? 34) || eqc e "\" || eqc e "/" || eqc e "'"
                then emit [e] 2%nat
                else if eqc e "b" then emit [byte_of 8] 2%nat
                else if eqc e "f" then emit [byte_of 12] 2%nat
                else if eqc e "n" then emit [byte_of 10] 2%nat
                else if eqc e "r" then emit [byte_of 13] 2%nat
                else if eqc e "t" then emit [byte_of 9] 2%nat
                else if eqc e "u" then
                  let rr := getu4 p in
                  if rr <? 0 then None
                  else if (55296 <=? rr) && (rr <? 57344) then
                    let dec := utf16_DecodeRune rr (getu4 (skipn 6 p)) in
                    if negb (dec =? Utf8.RuneError)
                    then emit (Utf8.EncodeRune dec) 12%nat
                    else emit (Utf8.EncodeRune Utf8.RuneError) 6%nat
                  else emit (Utf8.EncodeRune rr) 6%nat
                else None
            end
          else if (code c =? 34) || (code c <? 32) then None
          else if code c <? 128 then emit [c] 1%nat
          else
            let '(rr, size) := Utf8.DecodeRune p in
            emit (Utf8.EncodeRune rr) size
      end
  end.

(** [unquoteBytes] on a literal with its quotes. *)
Definition unquoteBytes (lit : list ascii) : option string :=
  match lit with
  | q :: r =>
      match rev r with
      | q' :: body_rev =>
          if (code q =? 34) && (code q' =? 34)
          then option_map of_bytes (unquote_from 0 (rev body_rev))
          else None
      | [] => None
      end
  | [] => None
  end.

(** ** Decoding into [ErrorResponse] *)

(** [type ErrorResponse struct { Error string `json:"error"` }] *)
Record ErrorResponse : Type := mkErrorResponse { Error : string }.

Definition upper_byte (c : ascii) : ascii :=
  if (97 <=? code c) && (code c <=? 122) then byte_of (code c - 32) else c.

(** Whether an object key names the field [Error]: the tag name itself
    or, failing that, the same name under case folding. No rune outside
    ASCII folds to a letter of the name, so folding is that of ASCII. *)
Definition names_Error (key : string) : bool :=
  String.eqb key "error"
  || String.eqb (Strings.map_bytes upper_byte key) "ERROR".

(** The state of [decodeState] while it walks the bytes of the value:
    the scanner, the literal being read (in reverse, with the nesting
    depth and parse state it began in), the key read last in the
    top-level object, the field decoded so far, whether an
    [UnmarshalTypeError] was saved, and whether the walk went out of
    step with the scanner (a panic in the library). *)
Record decodeState : Type := mkDecodeState {
  scan : scanner;
  literal : option (list ascii * nat * option parse);
  key : string;
  field : string;
  savedError : bool;
  outOfSync : bool
}.

(** Stores a complete literal where it belongs. *)
Definition store (d : decodeState) (lit : list ascii) (depth : nat) (role : option parse)
  : decodeState :=
  let first := hd " "%char lit in
  match depth, role with
  | O, _ =>
      (* a literal as the whole value: only [null] leaves a struct alone *)
      mkDecodeState (scan d) None (key d) (field d)
                    (savedError d || negb (eqc first "n")) (outOfSync d)
  | 1%nat, Some parseObjectKey =>
      match unquoteBytes lit with
      | Some k => mkDecodeState (scan d) None k (field d) (savedError d) (outOfSync d)
      | None => mkDecodeState (scan d) None (key d) (field d) (savedError d) true
      end
  | 1%nat, Some parseObjectValue =>
      if names_Error (key d) then
        if code first =? 34 then
          match unquoteBytes lit with
          | Some v => mkDecodeState (scan d) None (key d) v (savedError d) (outOfSync d)
          | None => mkDecodeState (scan d) None (key d) (field d) (savedError d) true
          end
        else if eqc first "n" then
          mkDecodeState (scan d) None (key d) (field d) (savedError d) (outOfSync d)
        else
          mkDecodeState (scan d) None (key d) (field d) true (outOfSync d)
      else mkDecodeState (scan d) None (key d) (field d) (savedError d) (outOfSync d)
  | _, _ => mkDecodeState (scan d) None (key d) (field d) (savedError d) (outOfSync d)
  end.

(** One byte of the value. *)
Definition decode_byte (d : decodeState) (c : ascii) : decodeState :=
  let before := parseState (scan d) in
  let '(s1, o) := do_step (scan d) c in
  let d1 :=
    match literal d, o with
    | Some (lit, depth, role), scanContinue =>
        mkDecodeState s1 (Some (c :: lit, depth, role)) (key d) (field d)
                      (savedError d) (outOfSync d)
    | Some (lit, depth, role), _ =>
        let d' := store d (rev lit) depth role in
        mkDecodeState s1 None (key d') (field d') (savedError d') (outOfSync d')
    | None, _ =>
        mkDecodeState s1 None (key d) (field d) (savedError d) (outOfSync d)
    end in
  match literal d, o with
  | Some _, scanContinue => d1
  | _, scanBeginLiteral =>
      mkDecodeState s1 (Some ([c], List.length before, hd_error before))
                    (key d1) (field d1) (savedError d1) (outOfSync d1)
  | _, scanBeginArray =>
      match before with
      | [] =>
          (* an array as the whole value cannot fill a struct *)
          mkDecodeState s1 None (key d1) (field d1) true (outOfSync d1)
      | [parseObjectValue] =>
          mkDecodeState s1 None (key d1) (field d1)
                        (savedError d1 || names_Error (key d1)) (outOfSync d1)
      | _ => d1
      end
  | _, scanBeginObject =>
      match before with
      | [parseObjectValue] =>
          mkDecodeState s1 None (key d1) (field d1)
                        (savedError d1 || names_Error (key d1)) (outOfSync d1)
      | _ => d1
      end
  | _, scanError =>
      mkDecodeState s1 None (key d1) (field d1) (savedError d1) true
  | _, _ => d1
  end.

(** [d.unmarshal(&errResp)] on the bytes of one value: the decoded struct
    and whether an error is returned; a panic when the library finds
    itself out of step. *)
Definition unmarshal (value : string) : outcome (ErrorResponse * bool) :=
  let d := fold_left decode_byte (bytes value)
                     (mkDecodeState reset None "" "" false false) in
  let d := match literal d with
           | Some (lit, depth, role) => store d (rev lit) depth role
           | None => d
           end in
  if outOfSync d then Panic
  else Done (mkErrorResponse (field d), savedError d).

(** The result of [json.NewDecoder(body).Decode(&errResp)]: the struct,
    whether an error came back, and what is left unread in [body]. *)
Record decoded : Type := mkDecoded {
  errResp : ErrorResponse;
  failed : bool;
  unread : HTTP.Body
}.

(** [json.NewDecoder(body).Decode(&errResp)] with [errResp] zero-valued. *)
Definition Decode (body : HTTP.Body) : outcome decoded :=
  match readValue (fuel_for body) reset 0 [] "" 0 false body with
  | None => Panic   (* not reached: [fuel_for] turns suffice *)
  | Some (ReadError rest) => Done (mkDecoded (mkErrorResponse "") true rest)
  | Some (ReadValue v rest) =>
      r <- unmarshal v ;; Done (mkDecoded (fst r) (snd r) rest)
  end.

End JSON.

(* ================================================================== *)
(** * text/tabwriter, for the writer [Table] creates                   *)
(* ================================================================== *)

(** [tabwriter.NewWriter(w.out, 0, 0, 2, ' ', 0)]: no minimal cell width,
    padding of two blanks, cells aligned left, no flags. Branches of the
    library that only a flag or a tab padding character enables are not
    taken by this writer and are left out. *)
Module Tabwriter.
Import Go.

Definition minwidth : Z := 0.
Definition padding : Z := 2.
Definition padchar : string := " ".
Definition Escape : ascii := byte_of 255.

(** A cell: its text, its width in runes, and whether a horizontal tab
    terminated it. *)
Record cell : Type := mkCell { text : string; width : Z; htab : bool }.

(** The writer. [lines] ends with the line being collected; [ctext] and
    [cwidth] are the text and width of the cell being collected, [pending]
    the part of [ctext] whose width is not yet added; [inEscape] is set
    between two [Escape] bytes; [written] is what went to the underlying
    writer so far. *)
Record Writer : Type := mkWriter {
  lines : list (list cell);
  ctext : string;
  pending : string;
  cwidth : Z;
  inEscape : bool;
  written : string
}.

(** [reset] (after [Init] and after every flush). *)
Definition reset (out : string) : Writer :=
  mkWriter [[]] "" "" 0 false out.

Definition NewWriter : Writer := reset "".

Definition append (b : Writer) (t : string) : Writer :=
  mkWriter (lines b) (ctext b ++ t) (pending b ++ t) (cwidth b) (inEscape b) (written b).

Definition updateWidth (b : Writer) : Writer :=
  mkWriter (lines b) (ctext b) "" (cwidth b + Utf8.RuneCount (pending b))
           (inEscape b) (written b).

Fixpoint add_to_last (ls : list (list cell)) (c : cell) : list (list cell) :=
  match ls with
  | [] => []
  | [l] => [(l ++ [c])%list]
  | l :: r => l :: add_to_last r c
  end.

(** [terminateCell]: the collected cell joins the current line; returns
    the number of cells of that line. *)
Definition terminateCell (b : Writer) (tab : bool) : Writer * Z :=
  let ls := add_to_last (lines b) (mkCell (ctext b) (cwidth b) tab) in
  (mkWriter ls "" (pending b) 0 (inEscape b) (written b),
   Z.of_nat (List.length (last ls []))).

Definition addLine (b : Writer) : Writer :=
  mkWriter (lines b ++ [[]])%list (ctext b) (pending b) (cwidth b) (inEscape b) (written b).

Definition endEscape (b : Writer) : Writer :=
  let b1 := updateWidth b in
  mkWriter (lines b1) (ctext b1) "" (cwidth b1 - 2) false (written b1).

(** [writePadding] with a non-tab padding character: [cellw - textw]
    copies of it, written by [writeN]; a negative number panics there. *)
Definition writePadding (textw cellw : Z) : outcome string :=
  if cellw - textw <? 0 then Panic
  else Done (repeat_nat padchar (Z.to_nat (cellw - textw))).

(** The cells of one line under the column widths known so far. *)
Fixpoint writeCells (widths : list Z) (l : list cell) : outcome string :=
  match l with
  | [] => Done ""
  | c :: r =>
      pad <- match widths with
             | w :: _ => writePadding (width c) w
             | [] => Done ""
             end ;;
      rest <- writeCells (tl widths) r ;;
      Done (text c ++ pad ++ rest)
  end.

(** A line of the buffer, marked when it is the last buffered line (the
    one not yet ended by a newline). *)
Definition bufline : Type := (bool * list cell)%type.

(** [writeLines]; [tail] is the text of the cell still being collected. *)
Fixpoint writeLines (tail : string) (widths : list Z) (ls : list bufline)
  : outcome string :=
  match ls with
  | [] => Done ""
  | (is_last, l) :: r =>
      cells <- writeCells widths l ;;
      rest <- writeLines tail widths r ;;
      Done (cells ++ (if is_last then tail else String (byte_of 10) "") ++ rest)
  end.

(** Whether a line has a tab-terminated cell in [column]: the last cell
    of a line is not part of any column. *)
Definition has_column (column : nat) (l : bufline) : bool :=
  (Z.of_nat column <? Z.of_nat (List.length (snd l)) - 1).

(** Consecutive lines grouped into column blocks ([true]) and runs of
    lines without a cell in [column] ([false]). *)
Fixpoint blocks_from (column : nat) (cur : bool) (acc : list bufline)
         (ls : list bufline) : list (bool * list bufline) :=
  match ls with
  | [] => [(cur, rev acc)]
  | l :: r =>
      if Bool.eqb (has_column column l) cur
      then blocks_from column cur (l :: acc) r
      else (cur, rev acc) :: blocks_from column (has_column column l) [l] r
  end.

Definition blocks (column : nat) (ls : list bufline) : list (bool * list bufline) :=
  filter (fun g => negb (Nat.eqb (List.length (snd g)) 0))
         (blocks_from column false [] ls).

(** The width of a column block: the widest cell plus the padding. *)
Definition block_width (column : nat) (block : list bufline) : Z :=
  fold_left (fun w l => Z.max w (width (nth column (snd l) (mkCell "" 0 false)) + padding))
            block minwidth.

(** [format]: lines without a cell in the current column are written with
    the widths known so far; a column block fixes the width of its column
    and is formatted recursively for the columns to its right. [depth]
    bounds the number of columns still to come; at depth 0 no line has a
    further column. *)
Fixpoint format (depth : nat) (tail : string) (widths : list Z)
         (ls : list bufline) : outcome string :=
  match depth with
  | O => writeLines tail widths ls
  | S d =>
      parts <- mapM (fun g : bool * list bufline =>
                       if fst g
                       then format d tail
                              (widths ++ [block_width (List.length widths) (snd g)])%list
                              (snd g)
                       else writeLines tail widths (snd g))
                    (blocks (List.length widths) ls) ;;
      Done (String.concat "" parts)
  end.

Fixpoint mark_last (ls : list (list cell)) : list bufline :=
  match ls with
  | [] => []
  | [l] => [(true, l)]
  | l :: r => (false, l) :: mark_last r
  end.

Definition max_cells (ls : list (list cell)) : nat :=
  fold_left (fun m l => Nat.max m (List.length l)) ls 0%nat.

(** [flushNoDefers]: a non-empty collected cell is terminated (an open
    escape is closed first), the buffer is formatted and the writer reset. *)
Definition flush (b : Writer) : outcome Writer :=
  let b1 :=
    if negb (String.eqb (ctext b) "")
    then fst (terminateCell (if inEscape b then endEscape b else b) false)
    else b in
  text <- format (max_cells (lines b1)) (ctext b1) [] (mark_last (lines b1)) ;;
  Done (reset (written b1 ++ text)).

(** [Write], byte by byte; [seg] is the text read since the last cell
    boundary or escape. *)
Fixpoint Write_bytes (b : Writer) (seg : string) (buf : list ascii) : outcome Writer :=
  match buf with
  | [] => Done (append b seg)
  | ch :: r =>
      if negb (inEscape b) then
        if (code ch =? 9) || (code ch =? 11) || (code ch =? 10) || (code ch =? 12) then
          let b1 := updateWidth (append b seg) in
          let '(b2, ncells) := terminateCell b1 (code ch =? 9) in
          if (code ch =? 10) || (code ch =? 12) then
            let b3 := addLine b2 in
            if (code ch =? 12) || (ncells =? 1)
            then (b4 <- flush b3 ;; Write_bytes b4 "" r)
            else Write_bytes b3 "" r
          else Write_bytes b2 "" r
        else if code ch =? 255 then
          let b1 := updateWidth (append b seg) in
          Write_bytes (mkWriter (lines b1) (ctext b1) (pending b1) (cwidth b1) true
                                (written b1))
                      (String ch "") r
        else Write_bytes b (seg ++ String ch "") r
      else
        if code ch =? 255
        then Write_bytes (endEscape (append b (seg ++ String ch ""))) "" r
        else Write_bytes b (seg ++ String ch "") r
  end.

Definition Write (b : Writer) (buf : string) : outcome Writer :=
  Write_bytes b "" (bytes buf).

(** [fmt.Fprintln(tw, s)] for one string operand. *)
Definition Fprintln (b : Writer) (s : string) : outcome Writer :=
  Write b (s ++ String (byte_of 10) "").

End Tabwriter.

(* ================================================================== *)
(** * internal/output/output.go                                        *)
(* ================================================================== *)

Module Output.
Import Go.
Import IO.

(** [type Format string] and its constants. *)
Definition Format : Type := string.
Definition FormatTable : Format := "table".
Definition FormatJSON : Format := "json".
Definition FormatText : Format := "text".

(** The destination of a writer; the program only uses standard output. *)
Inductive Stream : Type := Stdout.

(** [type Writer struct] *)
Record Writer : Type := mkWriter { format : Format; out : Stream }.

Section New.
Variable unicodeToLower : string -> string.

(** [func New(format string) *Writer] *)
Definition New (format : string) : Writer :=
  let f := Strings.ToLower unicodeToLower format in
  let f := if String.eqb f FormatJSON || String.eqb f FormatText
           then f else FormatTable in
  mkWriter f Stdout.

End New.

Section JSON.

(** [json.Encoder.Encode] with two-blank indentation: the text written
    and the error returned, if any. *)
Variable encodeJSON : forall A : Type, A -> string * option string.

(** [func (w *Writer) JSON(data interface{}) error] *)
Definition JSON {A : Type} (w : Writer) (data : A) : IO (option string) :=
  fun o => (o ++ fst (encodeJSON A data), Done (snd (encodeJSON A data))).

End JSON.

(** The text [Table] writes: the headers, a rule of dashes as long as the
    headers joined by two blanks, and the rows, all through one tab
    writer that is flushed at the end. *)
Definition Table_text (headers : list string) (rows : list (list string))
  : outcome string :=
  let tw := Tabwriter.NewWriter in
  tw <- Tabwriter.Fprintln tw (Join headers (String (byte_of 9) "")) ;;
  tw <- Tabwriter.Fprintln tw (repeat_nat "-" (String.length (Join headers "  "))) ;;
  tw <- fold_left
          (fun t row =>
             t' <- t ;; Tabwriter.Fprintln t' (Join row (String (byte_of 9) "")))
          rows (Done tw) ;;
  tw <- Tabwriter.flush tw ;;
  Done (Tabwriter.written tw).

(** [func (w *Writer) Table(headers []string, rows [][]string)] *)
Definition Table (w : Writer) (headers : list string) (rows : list (list string))
  : IO unit :=
  bindIO (eval (Table_text headers rows)) print.

(** [func (w *Writer) Text(format string, args ...interface{})], the
    format already applied to its operands. *)
Definition Text (w : Writer) (s : string) : IO unit := print s.

(** [func (w *Writer) Println(args ...interface{})] for one string
    operand. *)
Definition Println (w : Writer) (s : string) : IO unit := print (s ++ nl).

(** [func (w *Writer) Format() Format] *)
Definition Format_of (w : Writer) : Format := format w.

(** [func (w *Writer) IsJSON() bool] *)
Definition IsJSON (w : Writer) : bool := String.eqb (format w) FormatJSON.

(** [func Truncate(s string, maxLen int) string] *)
Definition Truncate (s : string) (maxLen : Z) : outcome string :=
  if len s <=? maxLen then Done s
  else if maxLen <=? 3 then slice_to s maxLen
  else (p <- slice_to s (maxLen - 3) ;; Done (p ++ "...")).

(** [const unit = 1024] in [FormatSize]. *)
Definition unit : Z := 1024.

(** The [for] loop of [FormatSize], [n] being its loop variable; [fuel]
    bounds the number of turns, [None] meaning that it ran out. *)
Fixpoint FormatSize_loop (fuel : nat) (n div exp : Z) : option (Z * Z) :=
  if unit <=? n then
    match fuel with
    | O => None
    | S k => FormatSize_loop k (Z.quot n unit) (wrap64 (div * unit)) (wrap64 (exp + 1))
    end
  else Some (div, exp).

(** [func FormatSize(bytes int64) string] *)
Definition FormatSize (bytes : Z) : outcome string :=
  if bytes <? unit then Done (itoa bytes ++ " B")
  else
    match FormatSize_loop 64 (Z.quot bytes unit) unit 0 with
    | None => Panic   (* not reached for an int64: six turns suffice *)
    | Some (div, exp) =>
        c <- index "KMGTPE" exp ;;
        Done (F64.format_f 1 (F64.div (F64.of_int bytes) (F64.of_int div))
              ++ " " ++ String c "B")
    end.

End Output.

(* ================================================================== *)
(** * internal/client/client.go                                        *)
(* ================================================================== *)

Module Client.
Import Go.

(** [const APIVersion] *)
Definition APIVersion : string := "2025.12".

(** [type Client struct]; the HTTP client it holds is represented by its
    timeout in seconds. *)
Record Client : Type := mkClient {
  baseURL : string;
  apiKey : string;
  httpTimeout : Z
}.

(** [func New(baseURL, apiKey string) *Client] *)
Definition New (baseURL apiKey : string) : Client :=
  mkClient baseURL apiKey 30.

(** [type SearchResult struct] *)
Record SearchResult : Type := mkSearchResult {
  sr_DeviceID : string;
  sr_Name : string;
  sr_Domain : string;
  sr_Type : string;
  sr_Path : string;
  sr_Score : F64.float64;
  sr_Snippet : string
}.

(** [type SearchResponse struct] *)
Record SearchResponse : Type := mkSearchResponse {
  Results : list SearchResult;
  sr_Total : Z;
  Query : string
}.

(** [type Device struct] *)
Record Device : Type := mkDevice {
  dev_ID : string;
  dev_Domain : string;
  dev_Type : string;
  dev_Name : string;
  dev_Path : string;
  dev_Content : string;
  dev_Metadata : list (string * string);   (* values as their JSON text *)
  dev_IndexedAt : string
}.

(** [type DevicesResponse struct] *)
Record DevicesResponse : Type := mkDevicesResponse {
  dev_Data : list Device;
  dev_Total : Z;
  dev_Limit : Z;
  dev_Offset : Z
}.

(** [type Document struct] *)
Record Document : Type := mkDocument {
  doc_ID : string;
  doc_DeviceID : string;
  doc_Path : string;
  doc_Filename : string;
  doc_MimeType : string;
  doc_SizeBytes : Z;
  doc_Checksum : string;
  doc_IndexedAt : string
}.

(** [type DocumentsResponse struct] *)
Record DocumentsResponse : Type := mkDocumentsResponse {
  doc_Data : list Document;
  doc_Total : Z;
  doc_Limit : Z;
  doc_Offset : Z
}.

(** What a call leaves behind: the requests handed to the transport, in
    order, and the value the call returns (or its panic). *)
Definition call (A : Type) : Type := (list HTTP.Request * outcome (result A))%type.

Section Transport.

(** [url.Parse], as [http.NewRequest] applies it to the URL string: the
    error it reports, if any. *)
Variable parseURL : string -> option string.

(** [c.httpClient.Do(req)]: the response of the server, or the error of
    the transport. *)
Variable Do : HTTP.Request -> result HTTP.Response.

(** [json.NewDecoder(resp.Body).Decode(result)] for the typed result of a
    successful call: the decoded value or the decoding error. *)
Variable decodeResult : forall A : Type, HTTP.Body -> result A.

(** [http.NewRequest(method, url, nil)] *)
Definition NewRequest (method url : string) : result HTTP.Request :=
  match parseURL url with
  | Some e => Err e
  | None => Ok (HTTP.mkRequest method url [])
  end.

Definition set_header (req : HTTP.Request) (key value : string) : HTTP.Request :=
  HTTP.mkRequest (HTTP.Method req) (HTTP.Url req)
                 (HTTP.Header_Set (HTTP.ReqHeader req) key value).

(** [fmt.Errorf("API error (%d): %s", status, message)] *)
Definition APIError (status : Z) (message : string) : string :=
  "API error (" ++ itoa status ++ "): " ++ message.

(** [func (c *Client) get(path string, result interface{}) error] *)
Definition get {A : Type} (c : Client) (path : string) : call A :=
  match NewRequest "GET" (baseURL c ++ "/api/" ++ APIVersion ++ path) with
  | Err e => ([], Done (Err ("failed to create request: " ++ e)))
  | Ok req =>
      let req := set_header req "X-API-Key" (apiKey c) in
      match Do req with
      | Err e => ([req], Done (Err ("request failed: " ++ e)))
      | Ok resp =>
          if negb (HTTP.StatusCode resp =? HTTP.StatusOK) then
            ([req],
             d <- JSON.Decode (HTTP.RespBody resp) ;;
             if JSON.failed d then
               let body := HTTP.ReadAll (JSON.unread d) in
               Done (Err (APIError (HTTP.StatusCode resp) body))
             else
               Done (Err (APIError (HTTP.StatusCode resp) (JSON.Error (JSON.errResp d)))))
          else
            match decodeResult A (HTTP.RespBody resp) with
            | Err e => ([req], Done (Err ("failed to decode response: " ++ e)))
            | Ok v => ([req], Done (Ok v))
            end
      end
  end.

(** [func (c *Client) Search(query string, limit int)] *)
Definition Search (c : Client) (query : string) (limit : Z) : call SearchResponse :=
  let params := URL.empty in
  let params := URL.Set_ params "q" query in
  let params := if 0 <? limit then URL.Set_ params "limit" (itoa limit) else params in
  get c ("/search?" ++ URL.Encode params).

(** The path [ListDevices] passes to [get]. *)
Definition ListDevices_path (limit offset : Z) (domain deviceType : string) : string :=
  let params := URL.empty in
  let params := if 0 <? limit then URL.Set_ params "limit" (itoa limit) else params in
  let params := if 0 <? offset then URL.Set_ params "offset" (itoa offset) else params in
  let params := if negb (String.eqb domain "") then URL.Set_ params "domain" domain
                else params in
  let params := if negb (String.eqb deviceType "") then URL.Set_ params "type" deviceType
                else params in
  let path := "/devices" in
  if 0 <? URL.len_values params then path ++ "?" ++ URL.Encode params else path.

(** [func (c *Client) ListDevices(limit, offset int, domain, deviceType string)] *)
Definition ListDevices (c : Client) (limit offset : Z) (domain deviceType : string)
  : call DevicesResponse :=
  get c (ListDevices_path limit offset domain deviceType).

(** [func (c *Client) GetDevice(id string)] *)
Definition GetDevice (c : Client) (id : string) : call Device :=
  get c ("/devices/" ++ id).

(** The path [ListDocuments] passes to [get]. *)
Definition ListDocuments_path (limit offset : Z) (deviceID : string) : string :=
  let params := URL.empty in
  let params := if 0 <? limit then URL.Set_ params "limit" (itoa limit) else params in
  let params := if 0 <? offset then URL.Set_ params "offset" (itoa offset) else params in
  let params := if negb (String.eqb deviceID "") then URL.Set_ params "device_id" deviceID
                else params in
  let path := "/documents" in
  if 0 <? URL.len_values params then path ++ "?" ++ URL.Encode params else path.

(** [func (c *Client) ListDocuments(limit, offset int, deviceID string)] *)
Definition ListDocuments (c : Client) (limit offset : Z) (deviceID : string)
  : call DocumentsResponse :=
  get c (ListDocuments_path limit offset deviceID).

(** [func (c *Client) GetDocument(id string)] *)
Definition GetDocument (c : Client) (id : string) : call Document :=
  get c ("/documents/" ++ id).

(** The block of [DownloadDocument] that reads the file name off the
    [Content-Disposition] header value [cd]. *)
Definition DownloadDocument_filename (cd : string) : outcome string :=
  let filename := "" in
  if negb (String.eqb cd "") then
    let idx := len "attachment; filename=" in
    if idx <? len cd then
      filename <- slice_from cd idx ;;
      slice filename 1 (len filename - 1)
    else Done filename
  else Done filename.

(** [func (c *Client) DownloadDocument(id string)] *)
Definition DownloadDocument (c : Client) (id : string) : call (HTTP.Body * string) :=
  match NewRequest "GET"
          (baseURL c ++ "/api/" ++ APIVersion ++ "/documents/" ++ id ++ "/download") with
  | Err e => ([], Done (Err ("failed to create request: " ++ e)))
  | Ok req =>
      let req := set_header req "X-API-Key" (apiKey c) in
      match Do req with
      | Err e => ([req], Done (Err ("request failed: " ++ e)))
      | Ok resp =>
          if negb (HTTP.StatusCode resp =? HTTP.StatusOK) then
            let body := HTTP.ReadAll (HTTP.RespBody resp) in
            ([req], Done (Err (APIError (HTTP.StatusCode resp) body)))
          else
            ([req],
             filename <- DownloadDocument_filename
                           (HTTP.Header_Get (HTTP.RespHeader resp) "Content-Disposition") ;;
             Done (Ok (HTTP.RespBody resp, filename)))
      end
  end.

End Transport.

End Client.

(* ================================================================== *)
(** * internal/config/config.go                                        *)
(* ================================================================== *)

Module Config.
Import Go.

(** [type Config struct] *)
Record Config : Type := mkConfig {
  APIBaseURL : string;
  APIKey : string;
  OutputFormat : string
}.

(** [func (c *Config) Validate() error] *)
Definition Validate (c : Config) : option string :=
  if String.eqb (APIKey c) ""
  then Some "API key required: set MANUALS_API_KEY or add api_key to config file"
  else None.

End Config.

(* ================================================================== *)
(** * cmd/manuals/cmd: the bodies of the commands                      *)
(* ================================================================== *)

Module Cmd.
Import Go.
Import IO.

Section Commands.

(** [json.Encoder.Encode], as [out.JSON] calls it. *)
Variable encodeJSON : forall A : Type, A -> string * option string.

(** The package variables the commands read: the writer [out] and the
    value of the [--output] flag, [outputFormat]. *)
Variable out : Output.Writer.
Variable outputFormat : string.

(** A row of the search table. *)
Definition search_row (r : Client.SearchResult) : outcome (list string) :=
  id <- slice_to (Client.sr_DeviceID r) 8 ;;
  name <- Output.Truncate (Client.sr_Name r) 40 ;;
  Done [id; name; Client.sr_Domain r; Client.sr_Type r;
        F64.format_f 2 (Client.sr_Score r)].

(** The body of the snippet loop of [searchCmd], for one of the first
    three results. *)
Definition search_snippet (r : Client.SearchResult) : IO unit :=
  if negb (String.eqb (Client.sr_Snippet r) "") then
    id <~ eval (slice_to (Client.sr_DeviceID r) 8) ;;
    Output.Text out (nl ++ "[" ++ id ++ "] " ++ Client.sr_Name r ++ nl) ;;;
    snip <~ eval (Output.Truncate (Client.sr_Snippet r) 200) ;;
    Output.Text out ("  " ++ snip ++ nl)
  else ret tt.

(** [searchCmd.RunE], from the return of [apiClient.Search] on. *)
Definition searchCmd_RunE (api : result Client.SearchResponse) : IO (option string) :=
  match api with
  | Err e => ret (Some ("search failed: " ++ e))
  | Ok results =>
      if Output.IsJSON out then Output.JSON encodeJSON out results
      else if Z.of_nat (List.length (Client.Results results)) =? 0 then
        Output.Println out "No results found." ;;; ret None
      else
        Output.Text out ("Found " ++ itoa (Client.sr_Total results) ++ " results for "
              ++ dquote ++ Client.Query results ++ dquote ++ ":" ++ nl ++ nl) ;;;
        rows <~ eval (mapM search_row (Client.Results results)) ;;
        Output.Table out ["ID"; "NAME"; "DOMAIN"; "TYPE"; "SCORE"] rows ;;;
        (if (0 <? Z.of_nat (List.length (Client.Results results)))
            && negb (String.eqb outputFormat "table")
         then Output.Println out (nl ++ "--- Snippets ---") ;;;
              forM_ search_snippet (firstn 3 (Client.Results results))
         else ret tt) ;;;
        ret None
  end.

(** A row of the devices table. *)
Definition devices_row (d : Client.Device) : outcome (list string) :=
  id <- slice_to (Client.dev_ID d) 8 ;;
  name <- Output.Truncate (Client.dev_Name d) 45 ;;
  Done [id; name; Client.dev_Domain d; Client.dev_Type d].

(** [devicesListCmd.RunE], from the return of [apiClient.ListDevices] on. *)
Definition devicesListCmd_RunE (api : result Client.DevicesResponse) : IO (option string) :=
  match api with
  | Err e => ret (Some ("failed to list devices: " ++ e))
  | Ok result =>
      let n := Z.of_nat (List.length (Client.dev_Data result)) in
      if Output.IsJSON out then Output.JSON encodeJSON out result
      else if n =? 0 then Output.Println out "No devices found." ;;; ret None
      else
        Output.Text out ("Showing " ++ itoa n ++ " of " ++ itoa (Client.dev_Total result)
              ++ " devices:" ++ nl ++ nl) ;;;
        rows <~ eval (mapM devices_row (Client.dev_Data result)) ;;
        Output.Table out ["ID"; "NAME"; "DOMAIN"; "TYPE"] rows ;;;
        (if n <? Client.dev_Total result
         then Output.Text out (nl ++ "Use --offset " ++ itoa (wrap64 (Client.dev_Offset result + n))
                    ++ " to see more results." ++ nl)
         else ret tt) ;;;
        ret None
  end.

(** A row of the documents table. *)
Definition documents_row (d : Client.Document) : outcome (list string) :=
  id <- slice_to (Client.doc_ID d) 8 ;;
  name <- Output.Truncate (Client.doc_Filename d) 45 ;;
  size <- Output.FormatSize (Client.doc_SizeBytes d) ;;
  Done [id; name; Client.doc_MimeType d; size].

(** [documentsListCmd.RunE], from the return of [apiClient.ListDocuments] on. *)
Definition documentsListCmd_RunE (api : result Client.DocumentsResponse)
  : IO (option string) :=
  match api with
  | Err e => ret (Some ("failed to list documents: " ++ e))
  | Ok result =>
      let n := Z.of_nat (List.length (Client.doc_Data result)) in
      if Output.IsJSON out then Output.JSON encodeJSON out result
      else if n =? 0 then Output.Println out "No documents found." ;;; ret None
      else
        Output.Text out ("Showing " ++ itoa n ++ " of " ++ itoa (Client.doc_Total result)
              ++ " documents:" ++ nl ++ nl) ;;;
        rows <~ eval (mapM documents_row (Client.doc_Data result)) ;;
        Output.Table out ["ID"; "FILENAME"; "TYPE"; "SIZE"] rows ;;;
        (if n <? Client.doc_Total result
         then Output.Text out (nl ++ "Use --offset " ++ itoa (wrap64 (Client.doc_Offset result + n))
                    ++ " to see more results." ++ nl)
         else ret tt) ;;;
        ret None
  end.

(** [documentsGetCmd.RunE], from the return of [apiClient.GetDocument] on. *)
Definition documentsGetCmd_RunE (api : result Client.Document) : IO (option string) :=
  match api with
  | Err e => ret (Some ("failed to get document: " ++ e))
  | Ok doc =>
      if Output.IsJSON out then Output.JSON encodeJSON out doc
      else
        Output.Text out ("Document: " ++ Client.doc_Filename doc ++ nl) ;;;
        Output.Text out ("  ID:        " ++ Client.doc_ID doc ++ nl) ;;;
        Output.Text out ("  Device:    " ++ Client.doc_DeviceID doc ++ nl) ;;;
        Output.Text out ("  Path:      " ++ Client.doc_Path doc ++ nl) ;;;
        Output.Text out ("  Type:      " ++ Client.doc_MimeType doc ++ nl) ;;;
        size <~ eval (Output.FormatSize (Client.doc_SizeBytes doc)) ;;
        Output.Text out ("  Size:      " ++ size ++ nl) ;;;
        sum <~ eval (slice_to (Client.doc_Checksum doc) 16) ;;
        Output.Text out ("  Checksum:  " ++ sum ++ "..." ++ nl) ;;;
        Output.Text out ("  Indexed:   " ++ Client.doc_IndexedAt doc ++ nl) ;;;
        ret None
  end.

(** [devicesGetCmd.RunE], from the return of [apiClient.GetDevice] on. *)
Definition devicesGetCmd_RunE (api : result Client.Device) : IO (option string) :=
  match api with
  | Err e => ret (Some ("failed to get device: " ++ e))
  | Ok device =>
      if Output.IsJSON out then Output.JSON encodeJSON out device
      else
        Output.Text out ("Device: " ++ Client.dev_Name device ++ nl) ;;;
        Output.Text out ("  ID:        " ++ Client.dev_ID device ++ nl) ;;;
        Output.Text out ("  Domain:    " ++ Client.dev_Domain device ++ nl) ;;;
        Output.Text out ("  Type:      " ++ Client.dev_Type device ++ nl) ;;;
        Output.Text out ("  Path:      " ++ Client.dev_Path device ++ nl) ;;;
        Output.Text out ("  Indexed:   " ++ Client.dev_IndexedAt device ++ nl) ;;;
        (if negb (String.eqb (Client.dev_Content device) "")
         then Output.Text out (nl ++ "--- Content ---" ++ nl
                               ++ Client.dev_Content device ++ nl)
         else ret tt) ;;;
        ret None
  end.

End Commands.

(** ** [documentsDownloadCmd] *)

(** What the download command does to the world around it, in the order
    in which it does it: a request handed to the transport, a call of
    [os.Stat] or [os.Create], a [Write] on the output file, the closing
    of the file or of the response body, a text written to standard
    output. *)
Inductive effect : Type :=
| Sent (r : HTTP.Request)
| Stat (name : string)
| Create (name : string)
| Write (name : string) (data : string)
| CloseFile (name : string)
| CloseBody
| Printed (text : string).

(** The size of the buffer [io.Copy] allocates. *)
Definition copyBufferSize : Z := 32 * 1024.

Section Download.

Variable parseURL : string -> option string.
Variable Do : HTTP.Request -> result HTTP.Response.
Variable decodeResult : forall A : Type, HTTP.Body -> result A.

(** [os.Stat(name)]: whether [name] is a directory, or the error. *)
Variable os_Stat : string -> result bool.

(** [os.Create(name)]: the error, if any. *)
Variable os_Create : string -> option string.

(** [file.Write(data)] on the file created as [name], [offset] bytes
    having been written to it before: the number of bytes written and the
    error, if any. *)
Variable file_Write : string -> Z -> string -> Z * option string.

(** [filepath.Join(dir, name)]; path cleaning is not part of this
    development. *)
Variable filepath_Join : string -> string -> string.

(** The package variables the command reads. *)
Variable apiClient : Client.Client.
Variable out : Output.Writer.
Variable docsOutput : string.

(** [io.Copy(file, body)]: a response body offers no [WriteTo] and comes
    from no file or socket, so the copy is the loop of [io.copyBuffer]
    over a buffer of 32 KiB. [written] is the count so far; the result is
    the writes made, the final count and the error. [fuel] bounds the
    number of reads, [None] meaning that it ran out. *)
Fixpoint Copy (fuel : nat) (name : string) (written : Z) (src : HTTP.Body)
  : option (list effect * Z * option string) :=
  match fuel with
  | O => None
  | S f =>
      let '(data, eof, rest) := HTTP.Read src copyBufferSize in
      let nr := len data in
      if 0 <? nr then
        let '(nw, ew) := file_Write name written data in
        let '(nw, ew) :=
          if (nw <? 0) || (nr <? nw)
          then (0, Some (match ew with Some e => e | None => "invalid write result" end))
          else (nw, ew) in
        let written := wrap64 (written + nw) in
        match ew with
        | Some e => Some ([Write name data], written, Some e)
        | None =>
            if negb (nr =? nw) then Some ([Write name data], written, Some "short write")
            else if eof then Some ([Write name data], written, None)
            else match Copy f name written rest with
                 | Some (ws, n, e) => Some (Write name data :: ws, n, e)
                 | None => None
                 end
        end
      else if eof then Some ([], written, None)
      else Copy f name written rest
  end.

(** Enough reads for any body: every read takes a byte or a block from
    the stream, or reports its end. *)
Definition Copy_fuel (src : HTTP.Body) : nat :=
  S (fold_right (fun blk k => S (String.length blk + k)%nat) 0%nat src).

(** [documentsDownloadCmd.RunE] from [defer body.Close()] on: [doc] is
    the document [GetDocument] returned, [body] the stream
    [DownloadDocument] returned. The deferred calls run last, the file
    before the body. *)
Definition documentsDownloadCmd_save (doc : Client.Document) (body : HTTP.Body)
  : list effect * outcome (option string) :=
  let '(stat, outputPath) :=
    if String.eqb docsOutput "" then ([], Client.doc_Filename doc)
    else ([Stat docsOutput],
          match os_Stat docsOutput with
          | Ok true => filepath_Join docsOutput (Client.doc_Filename doc)
          | _ => docsOutput
          end) in
  match os_Create outputPath with
  | Some e =>
      ((stat ++ [Create outputPath; CloseBody])%list,
       Done (Some ("failed to create output file: " ++ e)))
  | None =>
      match Copy (Copy_fuel body) outputPath 0 body with
      | None => ((stat ++ [Create outputPath; CloseFile outputPath; CloseBody])%list, Panic)
      | Some (writes, _, Some e) =>
          ((stat ++ Create outputPath :: writes ++ [CloseFile outputPath; CloseBody])%list,
           Done (Some ("failed to write file: " ++ e)))
      | Some (writes, written, None) =>
          match Output.FormatSize written with
          | Panic =>
              ((stat ++ Create outputPath :: writes
                     ++ [CloseFile outputPath; CloseBody])%list, Panic)
          | Done size =>
              let text := fst (Output.Text out
                                 ("Downloaded " ++ Client.doc_Filename doc ++ " (" ++ size
                                  ++ ") to " ++ outputPath ++ nl) "") in
              ((stat ++ Create outputPath :: writes
                     ++ [Printed text; CloseFile outputPath; CloseBody])%list,
               Done None)
          end
      end
  end.

(** [documentsDownloadCmd.RunE] from the call of [DownloadDocument] on,
    [doc] being the document [GetDocument] returned; the file name
    [DownloadDocument] returns is dropped. *)
Definition documentsDownloadCmd_download (doc : Client.Document) (id : string)
  : list effect * outcome (option string) :=
  let '(sent, r) := Client.DownloadDocument parseURL Do apiClient id in
  match r with
  | Panic => (map Sent sent, Panic)
  | Done (Err e) => (map Sent sent, Done (Some ("failed to download document: " ++ e)))
  | Done (Ok (body, _)) =>
      let '(effects, r) := documentsDownloadCmd_save doc body in
      ((map Sent sent ++ effects)%list, r)
  end.

(** [documentsDownloadCmd.RunE] *)
Definition documentsDownloadCmd_RunE (id : string) : list effect * outcome (option string) :=
  let '(sent, r) := Client.GetDocument parseURL Do decodeResult apiClient id in
  match r with
  | Panic => (map Sent sent, Panic)
  | Done (Err e) => (map Sent sent, Done (Some ("failed to get document info: " ++ e)))
  | Done (Ok doc) =>
      let '(effects, r) := documentsDownloadCmd_download doc id in
      ((map Sent sent ++ effects)%list, r)
  end.

End Download.

(** ** root.go *)

(** The package variables of [cmd]: the version information, the global
    flags and the global state, [None] standing for [nil]. *)
Record globals : Type := mkGlobals {
  version : string;
  gitCommit : string;
  buildTime : string;
  cfgFile : string;
  apiURL : string;
  apiKey : string;
  outputFormat : string;
  cfg : option Config.Config;
  apiClient : option Client.Client;
  out : option Output.Writer
}.

(** [func SetVersionInfo(v, commit, build string)] *)
Definition SetVersionInfo (v commit build : string) (g : globals) : globals :=
  mkGlobals v commit build (cfgFile g) (apiURL g) (apiKey g) (outputFormat g)
            (cfg g) (apiClient g) (out g).

(** [versionCmd.Run] *)
Definition versionCmd_Run (g : globals) : IO unit :=
  print ("manuals version " ++ version g ++ nl) ;;;
  print ("  commit: " ++ gitCommit g ++ nl) ;;;
  print ("  built:  " ++ buildTime g ++ nl).

Section Root.

Variable unicodeToLower : string -> string.

(** [config.Load()]: what the configuration file and the environment
    give, or the error of reading them. *)
Variable Load : result Config.Config.

(** [rootCmd.PersistentPreRunE] for the command named [name]: the package
    variables afterwards and the error returned, if any. *)
Definition PersistentPreRunE (name : string) (g : globals) : globals * option string :=
  if String.eqb name "version" || String.eqb name "help" then (g, None)
  else
    match Load with
    | Err e =>
        (mkGlobals (version g) (gitCommit g) (buildTime g) (cfgFile g) (apiURL g)
                   (apiKey g) (outputFormat g) None (apiClient g) (out g),
         Some e)
    | Ok c =>
        let c := if negb (String.eqb (apiURL g) "")
                 then Config.mkConfig (apiURL g) (Config.APIKey c) (Config.OutputFormat c)
                 else c in
        let c := if negb (String.eqb (apiKey g) "")
                 then Config.mkConfig (Config.APIBaseURL c) (apiKey g) (Config.OutputFormat c)
                 else c in
        let c := if negb (String.eqb (outputFormat g) "")
                 then Config.mkConfig (Config.APIBaseURL c) (Config.APIKey c) (outputFormat g)
                 else c in
        match Config.Validate c with
        | Some e =>
            (mkGlobals (version g) (gitCommit g) (buildTime g) (cfgFile g) (apiURL g)
                       (apiKey g) (outputFormat g) (Some c) (apiClient g) (out g),
             Some e)
        | None =>
            (mkGlobals (version g) (gitCommit g) (buildTime g) (cfgFile g) (apiURL g)
                       (apiKey g) (outputFormat g) (Some c)
                       (Some (Client.New (Config.APIBaseURL c) (Config.APIKey c)))
                       (Some (Output.New unicodeToLower (Config.OutputFormat c))),
             None)
        end
    end.

End Root.

End Cmd.

(* ================================================================== *)
(** * What the specification says, in terms of the model               *)
(* ================================================================== *)

Module Spec.
Import Go.

(** A request as every operation is to send it: a GET that carries the
    API key of the client in the header [X-API-Key] and addresses
    [<base_url>/api/<version>/<resource>]. *)
Definition authenticated_get (c : Client.Client) (r : HTTP.Request) : Prop :=
  HTTP.Method r = "GET" /\
  HTTP.Header_Get (HTTP.ReqHeader r) "X-API-Key" = Client.apiKey c /\
  exists resource : string,
    HTTP.Url r = Client.baseURL c ++ "/api/" ++ Client.APIVersion ++ "/" ++ resource.

(** A response without the header [key]. *)
Definition header_absent (h : HTTP.Header) (key : string) : Prop :=
  forall values : list string, ~ In (HTTP.CanonicalMIMEHeaderKey key, values) h.

(** A query parameter that is sent only under a condition. *)
Definition param (sent : bool) (key value : string) : list string :=
  if sent then [key ++ "=" ++ value] else [].

(** The path of a list request: the resource, then the parameters that
    are sent, joined by [&] behind a question mark. *)
Definition path_with (resource : string) (params : list string) : string :=
  match params with
  | [] => resource
  | _ => resource ++ "?" ++ Join params "&"
  end.

(** The path [ListDevices] asks for: parameters in the order of their
    keys; a limit or offset is sent when it is positive, a domain or type
    when it is not empty. *)
Definition devices_path (limit offset : Z) (domain deviceType : string) : string :=
  path_with "/devices"
    (param (negb (String.eqb domain "")) "domain" (URL.QueryEscape domain)
     ++ param (0 <? limit) "limit" (itoa limit)
     ++ param (0 <? offset) "offset" (itoa offset)
     ++ param (negb (String.eqb deviceType "")) "type" (URL.QueryEscape deviceType))%list.

(** A byte that is neither white space nor the first byte of any JSON
    value. *)
Definition cannot_begin_value (c : ascii) : bool :=
  negb (JSON.isSpace c
        || JSON.eqc c "{" || JSON.eqc c "[" || (code c =? 34) || JSON.eqc c "-"
        || JSON.eqc c "0" || JSON.eqc c "t" || JSON.eqc c "f" || JSON.eqc c "n"
        || JSON.isDigit19 c).

(** A byte that stands for itself inside a JSON string literal: ASCII,
    no control character, no double quote, no backslash. *)
Definition plain_byte (c : ascii) : bool :=
  (32 <=? code c) && (code c <? 128) && negb (code c =? 34) && negb (JSON.eqc c "\").

Definition plain (s : string) : bool := forallb plain_byte (bytes s).

(** The error body of the service: an object with the one member
    [error]. *)
Definition error_body (message : string) : string :=
  Strings.dq "{'error':'" ++ message ++ Strings.dq "'}".

(** The cells of a line fit the column widths known for it. *)
Fixpoint fits (widths : list Z) (l : list Tabwriter.cell) : Prop :=
  match widths, l with
  | w :: ws, c :: cs => Tabwriter.width c <= w /\ fits ws cs
  | _, _ => True
  end.

(** The number of bytes and blocks still in a stream. *)
Definition stream_size (r : HTTP.Body) : nat :=
  fold_right (fun blk k => S (String.length blk + k)%nat) 0%nat r.

(** The part of a URL behind its first question mark, if it has one. *)
Fixpoint query_of (url : string) : option string :=
  match url with
  | EmptyString => None
  | String c r => if Ascii.eqb c "?" then Some r else query_of r
  end.

(** The path [ListDocuments] asks for: parameters in the order of their
    keys; a limit or offset is sent when it is positive, a device
    identifier when it is not empty. *)
Definition documents_path (limit offset : Z) (deviceID : string) : string :=
  path_with "/documents"
    (param (negb (String.eqb deviceID "")) "device_id" (URL.QueryEscape deviceID)
     ++ param (0 <? limit) "limit" (itoa limit)
     ++ param (0 <? offset) "offset" (itoa offset))%list.

(** The path [Search] asks for: the limit, when it is positive, before
    the query. *)
Definition search_path (query : string) (limit : Z) : string :=
  "/search?" ++ (if 0 <? limit then "limit=" ++ itoa limit ++ "&" else "")
  ++ "q=" ++ URL.QueryEscape query.

(** The bytes an escaped query component consists of: letters, digits,
    [- _ . ~], and the [%] and [+] of the escapes. *)
Definition query_byte (c : ascii) : bool :=
  URL.is_alnum (code c) || existsb (Z.eqb (code c)) [45; 95; 46; 126; 37; 43].

(** The value of a hexadecimal digit. *)
Definition unhex (c : ascii) : Z :=
  if code c <? 58 then code c - 48 else code c - 55.

(** Reading an escaped query component back: [+] is a blank, [%XX] the
    byte with that code. *)
Fixpoint unescape (s : string) : string :=
  match s with
  | EmptyString => EmptyString
  | String c r =>
      if code c =? 43 then String " " (unescape r)
      else if code c =? 37 then
        match r with
        | String h (String l r') => String (byte_of (16 * unhex h + unhex l)) (unescape r')
        | _ => EmptyString
        end
      else String c (unescape r)
  end.

(** A byte the tab writer takes for text: no tab, vertical tab, line
    feed, form feed or escape byte. *)
Definition cell_byte (c : ascii) : bool :=
  negb ((code c =? 9) || (code c =? 11) || (code c =? 10) || (code c =? 12)
        || (code c =? 255)).

Definition cell_text (s : string) : bool := forallb cell_byte (bytes s).

(** The width of column [j] of a table: its widest cell, counted in
    runes, and two blanks. *)
Definition column_width (rows : list (list string)) (j : nat) : Z :=
  fold_left (fun w row => Z.max w (Utf8.RuneCount (nth j row "") + 2)) rows 0.

(** A cell filled with blanks up to the width [w]. *)
Definition padded (s : string) (w : Z) : string :=
  s ++ repeat_nat " " (Z.to_nat (w - Utf8.RuneCount s)).

(** A row of a table whose first cell stands in column [j]: every cell
    but the last is filled up to the width of its column. *)
Fixpoint aligned_row (rows : list (list string)) (j : nat) (row : list string) : string :=
  match row with
  | [] => ""
  | [c] => c
  | c :: r => padded c (column_width rows j) ++ aligned_row rows (S j) r
  end.

(** A table as it is to appear: the headers two blanks apart, a rule of
    dashes of the same number of bytes, and the rows with their columns
    aligned among themselves. *)
Definition table_text (headers : list string) (rows : list (list string)) : string :=
  Join headers "  " ++ nl
  ++ repeat_nat "-" (String.length (Join headers "  ")) ++ nl
  ++ String.concat "" (map (fun row => aligned_row rows 0 row ++ nl) rows).

(** The cells the tab writer makes of the texts of a line: all but the
    last ended by a tab. *)
Fixpoint cells_of (row : list string) : list Tabwriter.cell :=
  match row with
  | [] => [Tabwriter.mkCell "" 0 false]
  | [c] => [Tabwriter.mkCell c (Utf8.RuneCount c) false]
  | c :: r => Tabwriter.mkCell c (Utf8.RuneCount c) true :: cells_of r
  end.

(** A tab writer between two cells, outside any escape: [ls] are the
    lines it holds, [w] is what it has written. *)
Definition idle (ls : list (list Tabwriter.cell)) (w : string) : Tabwriter.Writer :=
  Tabwriter.mkWriter ls "" "" 0 false w.

(** What [Truncate] returns for a bound above three. *)
Definition truncated (s : string) (maxLen : nat) : string :=
  if (String.length s <=? maxLen)%nat then s
  else substring 0 (maxLen - 3) s ++ "...".

(** The cells of the rows the commands hand to [Table]. *)
Definition search_cells (r : Client.SearchResult) : list string :=
  [substring 0 8 (Client.sr_DeviceID r); truncated (Client.sr_Name r) 40;
   Client.sr_Domain r; Client.sr_Type r; F64.format_f 2 (Client.sr_Score r)].

Definition device_cells (d : Client.Device) : list string :=
  [substring 0 8 (Client.dev_ID d); truncated (Client.dev_Name d) 45;
   Client.dev_Domain d; Client.dev_Type d].

(** The text of a size, [FormatSize] having returned. *)
Definition size_text (bytes : Z) : string :=
  match Output.FormatSize bytes with
  | Done s => s
  | Panic => ""
  end.

Definition document_cells (d : Client.Document) : list string :=
  [substring 0 8 (Client.doc_ID d); truncated (Client.doc_Filename d) 45;
   Client.doc_MimeType d; size_text (Client.doc_SizeBytes d)].

(** The hint below a page that is not the last: [n] entries shown of
    [total], the page beginning at [offset]. *)
Definition more_text (n total offset : Z) : string :=
  if n <? total
  then nl ++ "Use --offset " ++ itoa (wrap64 (offset + n)) ++ " to see more results." ++ nl
  else "".

(** The snippet of a search result, as it is shown below the table. *)
Definition snippet_text (r : Client.SearchResult) : string :=
  if String.eqb (Client.sr_Snippet r) "" then ""
  else nl ++ "[" ++ substring 0 8 (Client.sr_DeviceID r) ++ "] " ++ Client.sr_Name r ++ nl
       ++ "  " ++ truncated (Client.sr_Snippet r) 200 ++ nl.

(** The snippets of the first three results. *)
Definition snippets_text (results : list Client.SearchResult) : string :=
  String.concat "" (map snippet_text (firstn 3 results)).

(** The fields of a result, a device or a document that go into a table
    are plain text, and the identifier has its eight bytes. *)
Definition plain_result (r : Client.SearchResult) : Prop :=
  8 <= len (Client.sr_DeviceID r) /\
  cell_text (Client.sr_DeviceID r) = true /\ cell_text (Client.sr_Name r) = true /\
  cell_text (Client.sr_Domain r) = true /\ cell_text (Client.sr_Type r) = true.

Definition plain_device (d : Client.Device) : Prop :=
  8 <= len (Client.dev_ID d) /\
  cell_text (Client.dev_ID d) = true /\ cell_text (Client.dev_Name d) = true /\
  cell_text (Client.dev_Domain d) = true /\ cell_text (Client.dev_Type d) = true.

Definition plain_document (d : Client.Document) : Prop :=
  8 <= len (Client.doc_ID d) /\ int64_range (Client.doc_SizeBytes d) /\
  cell_text (Client.doc_ID d) = true /\ cell_text (Client.doc_Filename d) = true /\
  cell_text (Client.doc_MimeType d) = true.

(** A flag that is set takes the place of the configured value. *)
Definition override (flag value : string) : string :=
  if String.eqb flag "" then value else flag.

(** The path [documents download] writes to: without [--output] the file
    name of the document, with it the given path or, when that is a
    directory, the file name joined to it. *)
Definition output_path (os_Stat : string -> result bool)
           (filepath_Join : string -> string -> string)
           (docsOutput filename : string) : string :=
  if String.eqb docsOutput "" then filename
  else match os_Stat docsOutput with
       | Ok true => filepath_Join docsOutput filename
       | _ => docsOutput
       end.

(** The calls of [os.Stat] the command makes for that. *)
Definition stat_calls (docsOutput : string) : list Cmd.effect :=
  if String.eqb docsOutput "" then [] else [Cmd.Stat docsOutput].

(** The bytes handed to [Write], in order. *)
Fixpoint written_data (effects : list Cmd.effect) : string :=
  match effects with
  | [] => ""
  | Cmd.Write _ data :: r => data ++ written_data r
  | _ :: r => written_data r
  end.

Definition is_request (e : Cmd.effect) : bool :=
  match e with Cmd.Sent _ => true | _ => false end.

Definition is_write (name : string) (e : Cmd.effect) : bool :=
  match e with
  | Cmd.Write n _ => String.eqb n name
  | _ => false
  end.

(** An operation that tries once: it hands the transport at most one
    request; an error of the transport on that request is what it
    returns, wrapped; and when it sends nothing, the request could not be
    created. *)
Definition tries_once {A : Type} (Do : HTTP.Request -> result HTTP.Response)
           (k : Client.call A) : Prop :=
  (List.length (fst k) <= 1)%nat /\
  (forall r e, fst k = [r] -> Do r = Err e ->
               snd k = Done (Err ("request failed: " ++ e))) /\
  (fst k = [] -> exists e, snd k = Done (Err ("failed to create request: " ++ e))).

End Spec.

(* ================================================================== *)
(** * Properties                                                       *)
(* ================================================================== *)

Import Go.

Lemma length_append (a b : string) :
  String.length (a ++ b) = (String.length a + String.length b)%nat.
Proof. induction a as [|c a IH]; simpl; [reflexivity | now rewrite IH]. Qed.

Lemma append_assoc (a b c : string) : (a ++ b) ++ c = a ++ (b ++ c).
Proof. induction a as [|x a IH]; simpl; [reflexivity | now rewrite IH]. Qed.

Lemma length_substring (s : string) (n m : nat) :
  (n + m <= String.length s)%nat -> String.length (substring n m s) = m.
Proof.
  revert n m. induction s as [|c s IH]; intros n m H; simpl in *.
  - destruct n, m; simpl in *; try lia; reflexivity.
  - destruct n as [|n].
    + destruct m as [|m]; simpl; [reflexivity|]. rewrite (IH 0%nat m); lia.
    + apply IH. lia.
Qed.

Lemma substring_split (s : string) (m : nat) :
  (m <= String.length s)%nat ->
  s = substring 0 m s ++ substring m (String.length s - m) s.
Proof.
  revert m. induction s as [|c s IH]; intros m H; simpl in *.
  - destruct m; [reflexivity | lia].
  - destruct m as [|m]; simpl.
    + f_equal. clear. induction s as [|d s IH]; simpl; [reflexivity|].
      now rewrite <- IH.
    + f_equal. apply IH. lia.
Qed.

Lemma slice_to_done (s : string) (hi : Z) :
  0 <= hi <= len s ->
  slice_to s hi = Done (substring 0 (Z.to_nat hi) s).
Proof.
  intros H. unfold slice_to, slice.
  replace (0 <=? 0) with true by reflexivity.
  destruct (Z.leb_spec 0 hi); [|lia].
  destruct (Z.leb_spec hi (len s)); [|lia].
  simpl. now rewrite Z.sub_0_r.
Qed.

(** C4. [Truncate] on a non-negative bound: identity on strings that fit,
    a bare prefix of [maxLen] bytes when [maxLen <= 3], otherwise the
    prefix of [maxLen - 3] bytes followed by three dots, of length exactly
    [maxLen]; the result is never longer than [maxLen] bytes. *)
Theorem Truncate_spec (s : string) (maxLen : Z) :
  0 <= maxLen ->
  (len s <= maxLen -> Output.Truncate s maxLen = Done s) /\
  (len s > maxLen -> maxLen <= 3 ->
   exists p rest, Output.Truncate s maxLen = Done p /\
                  s = p ++ rest /\ len p = maxLen) /\
  (len s > maxLen -> maxLen > 3 ->
   exists p rest, Output.Truncate s maxLen = Done (p ++ "...") /\
                  s = p ++ rest /\ len p = maxLen - 3 /\
                  len (p ++ "...") = maxLen) /\
  (exists r, Output.Truncate s maxLen = Done r /\ len r <= maxLen).
Proof.
  intros Hn. unfold Output.Truncate.
  assert (Hpre : forall k, 0 <= k <= len s ->
            s = substring 0 (Z.to_nat k) s
                ++ substring (Z.to_nat k) (String.length s - Z.to_nat k) s /\
            len (substring 0 (Z.to_nat k) s) = k).
  { intros k Hk. unfold len in *. split.
    - apply substring_split. lia.
    - rewrite length_substring; lia. }
  repeat split.
  - intros H. destruct (Z.leb_spec (len s) maxLen); [reflexivity | lia].
  - intros H H3. destruct (Z.leb_spec (len s) maxLen); [lia|].
    destruct (Z.leb_spec maxLen 3); [|lia].
    destruct (Hpre maxLen) as [E L]; [lia|].
    eexists _, _. rewrite slice_to_done by lia. repeat split; [exact E | exact L].
  - intros H H3. destruct (Z.leb_spec (len s) maxLen); [lia|].
    destruct (Z.leb_spec maxLen 3); [lia|].
    destruct (Hpre (maxLen - 3)) as [E L]; [lia|].
    eexists _, _. rewrite slice_to_done by lia. simpl.
    repeat split; [exact E | exact L |].
    unfold len in *. rewrite length_append. simpl. lia.
  - destruct (Z.leb_spec (len s) maxLen).
    + eexists. split; [reflexivity | lia].
    + destruct (Z.leb_spec maxLen 3).
      * destruct (Hpre maxLen) as [E L]; [lia|].
        rewrite slice_to_done by lia. eexists. split; [reflexivity | lia].
      * destruct (Hpre (maxLen - 3)) as [E L]; [lia|].
        rewrite slice_to_done by lia. simpl. eexists. split; [reflexivity|].
        unfold len in *. rewrite length_append. simpl. lia.
Qed.

Lemma Truncate_spec_witness :
  0 <= 8 /\
  exists p rest,
    Output.Truncate "ESP32 Dev Board" 8 = Done (p ++ "...") /\
    "ESP32 Dev Board" = p ++ rest /\ len p = 8 - 3 /\ len (p ++ "...") = 8.
Proof.
  split; [lia|].
  apply (proj1 (proj2 (proj2 (Truncate_spec "ESP32 Dev Board" 8 ltac:(lia)))));
    vm_compute; reflexivity.
Defined.

(** [Truncate] with a non-negative bound returns. *)
Lemma Truncate_done (s : string) (maxLen : Z) :
  0 <= maxLen -> exists r, Output.Truncate s maxLen = Done r.
Proof.
  intros H. unfold Output.Truncate.
  destruct (Z.leb_spec (len s) maxLen); [eexists; reflexivity|].
  destruct (Z.leb_spec maxLen 3).
  - rewrite slice_to_done by lia. eexists; reflexivity.
  - rewrite slice_to_done by lia. eexists; reflexivity.
Qed.

Lemma wrap64_id (z : Z) : int64_range z -> wrap64 z = z.
Proof.
  unfold int64_range, wrap64. intros H.
  rewrite Z.mod_small; lia.
Qed.

(** The loop of [FormatSize] multiplies [div] by 1024 once per factor of
    1024 in [n], without overflow and within the fuel. *)
Lemma FormatSize_loop_spec (k : nat) :
  forall (fuel : nat) (n d e : Z),
    (k <= fuel)%nat ->
    1024 ^ Z.of_nat k <= n < 1024 ^ (Z.of_nat k + 1) ->
    0 <= d -> d * 1024 ^ Z.of_nat k < 2 ^ 63 ->
    0 <= e -> e + Z.of_nat k < 2 ^ 63 ->
    Output.FormatSize_loop fuel n d e = Some (d * 1024 ^ Z.of_nat k, e + Z.of_nat k).
Proof.
  induction k as [|k IH]; intros fuel n d e Hf Hn Hd Hdk He Hek.
  - change (Z.of_nat 0) with 0 in *. simpl in Hn.
    assert (E : (Output.unit <=? n) = false) by (apply Z.leb_gt; unfold Output.unit; lia).
    destruct fuel; simpl; rewrite E; f_equal; f_equal; lia.
  - rewrite Nat2Z.inj_succ in *. unfold Z.succ in *.
    assert (P : 0 < 1024 ^ Z.of_nat k) by (apply Z.pow_pos_nonneg; lia).
    rewrite !Z.pow_add_r in * by lia. change (1024 ^ 1) with 1024 in *.
    assert (E : (Output.unit <=? n) = true) by (apply Z.leb_le; unfold Output.unit; nia).
    destruct fuel as [|fuel]; [lia|]. simpl. rewrite E.
    unfold Output.unit.
    rewrite Z.quot_div_nonneg by lia.
    rewrite !wrap64_id by (unfold int64_range; nia).
    assert (B : 1024 ^ Z.of_nat k <= n / 1024 < 1024 ^ Z.of_nat k * 1024).
    { split; [apply Z.div_le_lower_bound | apply Z.div_lt_upper_bound]; lia. }
    rewrite (IH fuel (n / 1024) (d * 1024) (e + 1)).
    + f_equal. f_equal; lia.
    + lia.
    + exact B.
    + lia.
    + nia.
    + lia.
    + lia.
Qed.

(** From 1024 up, [FormatSize] divides by the power of 1024 that leaves a
    quotient in [1, 1024) and appends the letter of that power. *)
Lemma FormatSize_scaled (bytes : Z) :
  int64_range bytes -> 1024 <= bytes ->
  exists (k : Z) (c : ascii),
    0 <= k <= 5 /\
    1024 ^ (k + 1) <= bytes < 1024 ^ (k + 2) /\
    index "KMGTPE" k = Done c /\
    Output.FormatSize bytes =
      Done (F64.format_f 1 (F64.div (F64.of_int bytes)
                                    (F64.of_int (1024 ^ (k + 1))))
            ++ " " ++ String c "B").
Proof.
  intros R H. unfold int64_range in R.
  assert (C : exists k : nat, (k <= 5)%nat /\
                1024 ^ (Z.of_nat k + 1) <= bytes < 1024 ^ (Z.of_nat k + 2)).
  { destruct (Z.lt_ge_cases bytes (1024 ^ 2)); [exists 0%nat; simpl; lia|].
    destruct (Z.lt_ge_cases bytes (1024 ^ 3)); [exists 1%nat; simpl; lia|].
    destruct (Z.lt_ge_cases bytes (1024 ^ 4)); [exists 2%nat; simpl; lia|].
    destruct (Z.lt_ge_cases bytes (1024 ^ 5)); [exists 3%nat; simpl; lia|].
    destruct (Z.lt_ge_cases bytes (1024 ^ 6)); [exists 4%nat; simpl; lia|].
    exists 5%nat. simpl. lia. }
  destruct C as (k & Hk & Hb).
  assert (L : Output.FormatSize_loop 64 (Z.quot bytes Output.unit) Output.unit 0
              = Some (1024 ^ (Z.of_nat k + 1), Z.of_nat k)).
  { unfold Output.unit. rewrite Z.quot_div_nonneg by lia.
    rewrite (FormatSize_loop_spec k); try lia.
    - f_equal. f_equal. rewrite Z.pow_add_r by lia. lia.
    - rewrite !Z.pow_add_r in Hb by lia. rewrite Z.pow_add_r by lia.
      change (1024 ^ 1) with 1024 in *. change (1024 ^ 2) with (1024 * 1024) in *.
      assert (0 < 1024 ^ Z.of_nat k) by (apply Z.pow_pos_nonneg; lia).
      split; [apply Z.div_le_lower_bound | apply Z.div_lt_upper_bound]; lia.
    - assert (1024 ^ Z.of_nat k <= 1024 ^ 5) by (apply Z.pow_le_mono_r; lia).
      change (1024 ^ 5) with 1125899906842624 in *. lia. }
  assert (I : exists c, index "KMGTPE" (Z.of_nat k) = Done c).
  { do 6 (destruct k as [|k]; [eexists; reflexivity|]). lia. }
  destruct I as [c Hc].
  exists (Z.of_nat k), c. repeat split; try lia; [exact Hc|].
  unfold Output.FormatSize.
  destruct (Z.ltb_spec bytes Output.unit) as [Hlt|_]; [unfold Output.unit in Hlt; lia|].
  rewrite L, Hc. reflexivity.
Qed.

Lemma FormatSize_small (bytes : Z) :
  bytes < 1024 -> Output.FormatSize bytes = Done (itoa bytes ++ " B").
Proof.
  intros H. unfold Output.FormatSize, Output.unit.
  destruct (Z.ltb_spec bytes 1024); [reflexivity | lia].
Qed.

(** [FormatSize] of an int64 returns. *)
Lemma FormatSize_done (bytes : Z) :
  int64_range bytes -> exists r, Output.FormatSize bytes = Done r.
Proof.
  intros R. destruct (Z.lt_ge_cases bytes 1024) as [H|H].
  - eexists. apply FormatSize_small, H.
  - destruct (FormatSize_scaled bytes R H) as (k & c & _ & _ & _ & E).
    eexists. exact E.
Qed.

(** [rne] is within one half of the quotient. *)
Lemma rne_nearest (num den : Z) :
  0 < den -> 2 * Z.abs (num - F64.rne num den * den) <= den.
Proof.
  intros H. unfold F64.rne.
  pose proof (Z.div_mod num den ltac:(lia)) as E.
  pose proof (Z.mod_pos_bound num den H) as B.
  destruct (Z.ltb_spec (2 * (num mod den)) den); [nia|].
  destruct (Z.ltb_spec den (2 * (num mod den))); [nia|].
  destruct (Z.even (num / den)); nia.
Qed.

Lemma rne_exact (q d : Z) : 0 < d -> F64.rne (q * d) d = q.
Proof.
  intros H. unfold F64.rne.
  rewrite Z.div_mul by lia. rewrite Z.mod_mul by lia.
  destruct (Z.ltb_spec (2 * 0) d); [reflexivity | lia].
Qed.

Lemma rne_scale (a b c : Z) : 0 < b -> 0 < c -> F64.rne (a * c) (b * c) = F64.rne a b.
Proof.
  intros Hb Hc. unfold F64.rne.
  rewrite Z.div_mul_cancel_r by lia.
  rewrite Z.mul_mod_distr_r by lia.
  destruct (Z.ltb_spec (2 * (a mod b * c)) (b * c)), (Z.ltb_spec (2 * (a mod b)) b);
    try nia; try reflexivity.
  destruct (Z.ltb_spec (b * c) (2 * (a mod b * c))), (Z.ltb_spec b (2 * (a mod b)));
    try nia; reflexivity.
Qed.

(** Rounding is exact on a 53-bit significand scaled by a power of two. *)
Lemma round_exact (neg : bool) (m a b : Z) :
  2 ^ 52 <= m < 2 ^ 53 -> 0 <= a -> 0 <= b -> -1074 <= a - b <= 900 ->
  F64.round neg (m * 2 ^ a) (2 ^ b) = F64.Finite neg m (a - b).
Proof.
  intros Hm Ha Hb Hab.
  assert (Pa : 0 < 2 ^ a) by (apply Z.pow_pos_nonneg; lia).
  assert (Pb : 0 < 2 ^ b) by (apply Z.pow_pos_nonneg; lia).
  unfold F64.round.
  assert (N0 : (m * 2 ^ a =? 0) = false) by (apply Z.eqb_neq; nia).
  rewrite N0.
  assert (Lm : Z.log2 m = 52).
  { apply Z.log2_unique; lia. }
  assert (Ln : Z.log2 (m * 2 ^ a) = 52 + a).
  { rewrite Z.log2_mul_pow2 by lia. lia. }
  rewrite Ln, Z.log2_pow2 by lia.
  replace (52 + a - b - 52) with (a - b) by lia.
  cbv zeta.
  assert (T : (if 0 <=? a - b
               then (m * 2 ^ a, 2 ^ b * 2 ^ (a - b))
               else (m * 2 ^ a * 2 ^ (- (a - b)), 2 ^ b))
              = (if 0 <=? a - b then (m * 2 ^ a, 2 ^ a) else (m * 2 ^ b, 2 ^ b))).
  { destruct (Z.leb_spec 0 (a - b)).
    - f_equal. rewrite <- Z.pow_add_r by lia. f_equal. lia.
    - f_equal. rewrite <- Z.mul_assoc, <- Z.pow_add_r by lia. do 2 f_equal. lia. }
  rewrite T. clear T.
  assert (T : (fst (if 0 <=? a - b then (m * 2 ^ a, 2 ^ a) else (m * 2 ^ b, 2 ^ b))
               <? 2 ^ 52 * snd (if 0 <=? a - b then (m * 2 ^ a, 2 ^ a)
                                 else (m * 2 ^ b, 2 ^ b))) = false).
  { apply Z.ltb_ge. destruct (0 <=? a - b); cbn [fst snd]; nia. }
  rewrite T. clear T.
  rewrite Z.max_l by lia.
  assert (T : (if 0 <=? a - b
               then (m * 2 ^ a, 2 ^ b * 2 ^ (a - b))
               else (m * 2 ^ a * 2 ^ (- (a - b)), 2 ^ b))
              = (if 0 <=? a - b then (m * 2 ^ a, 2 ^ a) else (m * 2 ^ b, 2 ^ b))).
  { destruct (Z.leb_spec 0 (a - b)).
    - f_equal. rewrite <- Z.pow_add_r by lia. f_equal. lia.
    - f_equal. rewrite <- Z.mul_assoc, <- Z.pow_add_r by lia. do 2 f_equal. lia. }
  rewrite T. clear T.
  assert (R : F64.rne (fst (if 0 <=? a - b then (m * 2 ^ a, 2 ^ a) else (m * 2 ^ b, 2 ^ b)))
                      (snd (if 0 <=? a - b then (m * 2 ^ a, 2 ^ a) else (m * 2 ^ b, 2 ^ b)))
              = m).
  { destruct (0 <=? a - b); cbn [fst snd]; apply rne_exact; assumption. }
  rewrite R.
  destruct (Z.leb_spec 0 (a - b)) as [Hp|Hn]; [|reflexivity].
  assert (O : (2 ^ 1024 <=? m * 2 ^ (a - b)) = false).
  { apply Z.leb_gt.
    assert (2 ^ (a - b) <= 2 ^ 900) by (apply Z.pow_le_mono_r; lia).
    assert (0 < 2 ^ (a - b)) by (apply Z.pow_pos_nonneg; lia).
    apply Z.lt_le_trans with (2 ^ 53 * 2 ^ 900); [|vm_compute; discriminate].
    apply Z.lt_le_trans with (2 ^ 53 * 2 ^ (a - b)).
    - apply Z.mul_lt_mono_pos_r; lia.
    - apply Z.mul_le_mono_nonneg_l; lia. }
  rewrite O. reflexivity.
Qed.

Lemma rne_one (x : Z) : F64.rne x 1 = x.
Proof. rewrite <- (Z.mul_1_r x) at 1. apply rne_exact. lia. Qed.

(** An integer of at most 53 bits converts without rounding. *)
Lemma of_int_exact (n : Z) :
  0 < n < 2 ^ 53 ->
  F64.of_int n = F64.Finite false (n * 2 ^ (52 - Z.log2 n)) (Z.log2 n - 52).
Proof.
  intros Hn.
  assert (HL : 0 <= Z.log2 n <= 52).
  { split; [apply Z.log2_nonneg|].
    assert (Z.log2 n < 53) by (apply Z.log2_lt_pow2; lia). lia. }
  destruct (Z.log2_spec n) as [Lo Hi]; [lia|].
  set (L := Z.log2 n) in *.
  assert (P : 0 < 2 ^ (52 - L)) by (apply Z.pow_pos_nonneg; lia).
  assert (B : 2 ^ 52 <= n * 2 ^ (52 - L)).
  { replace (2 ^ 52) with (2 ^ L * 2 ^ (52 - L))
      by (rewrite <- Z.pow_add_r by lia; f_equal; lia).
    apply Z.mul_le_mono_nonneg_r; lia. }
  unfold F64.of_int, F64.round.
  assert (E1 : (n <? 0) = false) by (apply Z.ltb_ge; lia).
  assert (E2 : (Z.abs n =? 0) = false) by (apply Z.eqb_neq; lia).
  rewrite E1, E2, Z.abs_eq by lia. fold L.
  change (Z.log2 1) with 0. replace (L - 0 - 52) with (L - 52) by lia.
  cbv zeta.
  assert (T : forall e, e = L - 52 ->
              (if 0 <=? e then (n, 1 * 2 ^ e) else (n * 2 ^ (- e), 1))
              = (n * 2 ^ (52 - L), 1)).
  { intros e ->. destruct (Z.leb_spec 0 (L - 52)).
    - replace (L - 52) with 0 by lia. replace (52 - L) with 0 by lia.
      f_equal. lia.
    - do 3 f_equal. lia. }
  rewrite (T (L - 52) eq_refl). cbn [fst snd].
  assert (E3 : (n * 2 ^ (52 - L) <? 2 ^ 52 * 1) = false) by (apply Z.ltb_ge; lia).
  rewrite E3, Z.max_l by lia.
  rewrite (T (L - 52) eq_refl). cbn [fst snd].
  rewrite !rne_one.
  destruct (Z.leb_spec 0 (L - 52)); [|reflexivity].
  assert (O : (2 ^ 1024 <=? n * 2 ^ (52 - L) * 2 ^ (L - 52)) = false).
  { apply Z.leb_gt. replace (L - 52) with 0 by lia. replace (52 - L) with 0 by lia.
    apply Z.lt_le_trans with (2 ^ 53); [lia | vm_compute; discriminate]. }
  rewrite O. reflexivity.
Qed.

(** Below 2^53 the number [FormatSize] prints is the exact quotient,
    rounded once to tenths. *)
Lemma FormatSize_number_exact (bytes k : Z) :
  0 <= k <= 4 ->
  1024 ^ (k + 1) <= bytes < 2 ^ 53 ->
  F64.format_f 1 (F64.div (F64.of_int bytes) (F64.of_int (1024 ^ (k + 1))))
  = let t := F64.rne (bytes * 10) (1024 ^ (k + 1)) in
    itoa (t / 10) ++ "." ++ F64.pad_digits 1 (t mod 10).
Proof.
  intros Hk Hb.
  assert (K : k = 0 \/ k = 1 \/ k = 2 \/ k = 3 \/ k = 4) by lia.
  assert (P1 : 1024 <= 1024 ^ (k + 1)).
  { destruct K as [-> | [-> | [-> | [-> | ->]]]]; vm_compute; discriminate. }
  assert (HL : 0 <= Z.log2 bytes <= 52).
  { split; [apply Z.log2_nonneg|].
    assert (Z.log2 bytes < 53) by (apply Z.log2_lt_pow2; lia). lia. }
  assert (HJ : 10 * (k + 1) <= Z.log2 bytes).
  { apply Z.log2_le_pow2; [lia|].
    replace (2 ^ (10 * (k + 1))) with (1024 ^ (k + 1)); [lia|].
    destruct K as [-> | [-> | [-> | [-> | ->]]]]; reflexivity. }
  rewrite of_int_exact by lia.
  set (L := Z.log2 bytes) in *.
  assert (Y : F64.of_int (1024 ^ (k + 1)) = F64.Finite false (2 ^ 52) (10 * (k + 1) - 52)).
  { destruct K as [-> | [-> | [-> | [-> | ->]]]]; vm_compute; reflexivity. }
  rewrite Y. clear Y.
  destruct (Z.log2_spec bytes) as [Lo Hi]; [lia|]. fold L in Lo, Hi.
  assert (P : 0 < 2 ^ (52 - L)) by (apply Z.pow_pos_nonneg; lia).
  assert (M : 2 ^ 52 <= bytes * 2 ^ (52 - L) < 2 ^ 53).
  { split.
    - replace (2 ^ 52) with (2 ^ L * 2 ^ (52 - L))
        by (rewrite <- Z.pow_add_r by lia; f_equal; lia).
      apply Z.mul_le_mono_nonneg_r; lia.
    - replace (2 ^ 53) with (2 ^ Z.succ L * 2 ^ (52 - L))
        by (rewrite <- Z.pow_add_r by lia; f_equal; lia).
      apply Z.mul_lt_mono_pos_r; lia. }
  set (m := bytes * 2 ^ (52 - L)) in *.
  set (j := 10 * (k + 1)) in *.
  assert (D : F64.div (F64.Finite false m (L - 52)) (F64.Finite false (2 ^ 52) (j - 52))
              = F64.Finite false m (L - 52 - j)).
  { unfold F64.div. change (2 ^ 52 =? 0) with false. cbv iota. cbn [xorb].
    destruct (Z.leb_spec (L - 52) (j - 52)).
    - replace (j - 52 - (L - 52)) with 0 by lia.
      replace m with (m * 2 ^ 0) at 1 by (change (2 ^ 0) with 1; lia).
      change (2 ^ 52 * 2 ^ 0) with (2 ^ 52).
      rewrite round_exact by lia. f_equal. lia.
    - rewrite round_exact by lia. f_equal. lia. }
  rewrite D. unfold F64.format_f.
  assert (E : (0 <=? L - 52 - j) = false) by (apply Z.leb_gt; lia).
  rewrite E. change (10 ^ Z.of_nat 1) with 10. cbv zeta.
  replace (2 ^ (- (L - 52 - j))) with (1024 ^ (k + 1) * 2 ^ (52 - L)).
  2:{ replace (- (L - 52 - j)) with (j + (52 - L)) by lia.
      rewrite (Z.pow_add_r 2 j (52 - L)) by lia. f_equal.
      unfold j. destruct K as [-> | [-> | [-> | [-> | ->]]]]; reflexivity. }
  unfold m. replace (bytes * 2 ^ (52 - L) * 10) with (bytes * 10 * 2 ^ (52 - L)) by lia.
  rewrite rne_scale by lia.
  reflexivity.
Qed.

(** C5. [FormatSize] on every int64: a plain byte count below 1024;
    from 1024 up, the value divided by the power of 1024 that leaves a
    quotient in [1, 1024), printed with one fraction digit in front of the
    unit letter of that power and [B]. The division is that of float64;
    below 2^53 nothing is rounded before the quotient is cut to tenths. *)
Theorem FormatSize_spec (bytes : Z) :
  int64_range bytes ->
  (bytes < 1024 -> Output.FormatSize bytes = Done (itoa bytes ++ " B")) /\
  (1024 <= bytes ->
   exists (k : Z) (c : ascii),
     0 <= k <= 5 /\
     1024 ^ (k + 1) <= bytes < 1024 ^ (k + 2) /\
     index "KMGTPE" k = Done c /\
     Output.FormatSize bytes =
       Done (F64.format_f 1 (F64.div (F64.of_int bytes)
                                     (F64.of_int (1024 ^ (k + 1))))
             ++ " " ++ String c "B") /\
     (bytes < 2 ^ 53 ->
      exists t : Z,
        2 * Z.abs (bytes * 10 - t * 1024 ^ (k + 1)) <= 1024 ^ (k + 1) /\
        Output.FormatSize bytes =
          Done (itoa (t / 10) ++ "." ++ F64.pad_digits 1 (t mod 10)
                ++ " " ++ String c "B"))) /\
  Output.FormatSize 0 = Done "0 B" /\
  Output.FormatSize 1023 = Done "1023 B" /\
  Output.FormatSize 1024 = Done "1.0 KB" /\
  Output.FormatSize 1536 = Done "1.5 KB" /\
  Output.FormatSize 1048576 = Done "1.0 MB".
Proof.
  intros R.
  split; [apply FormatSize_small|].
  split; [|repeat split; vm_compute; reflexivity].
  intros H. destruct (FormatSize_scaled bytes R H) as (k & c & Hk & Hb & Hc & E).
  exists k, c. repeat split; try lia; try assumption.
  intros H53.
  assert (K4 : k <= 4).
  { destruct (Z.le_gt_cases k 4); [assumption|].
    assert (k = 5) by lia. subst k. exfalso.
    assert (2 ^ 53 <= 1024 ^ (5 + 1)) by (vm_compute; discriminate). lia. }
  exists (F64.rne (bytes * 10) (1024 ^ (k + 1))). split.
  - apply rne_nearest. apply Z.pow_pos_nonneg; lia.
  - rewrite E, FormatSize_number_exact by lia. cbv zeta.
    rewrite !append_assoc. reflexivity.
Qed.

Lemma FormatSize_spec_witness :
  int64_range 1536 /\
  exists (k : Z) (c : ascii),
    0 <= k <= 5 /\
    1024 ^ (k + 1) <= 1536 < 1024 ^ (k + 2) /\
    index "KMGTPE" k = Done c /\
    Output.FormatSize 1536 =
      Done (F64.format_f 1 (F64.div (F64.of_int 1536) (F64.of_int (1024 ^ (k + 1))))
            ++ " " ++ String c "B").
Proof.
  assert (R : int64_range 1536) by (unfold int64_range; lia).
  split; [exact R|].
  destruct (proj1 (proj2 (FormatSize_spec 1536 R)) ltac:(lia))
    as (k & c & Hk & Hb & Hc & E & _).
  exists k, c. repeat split; try lia; assumption.
Defined.




(* ------------------------------------------------------------------ *)
(** ** Content-Disposition                                             *)
(* ------------------------------------------------------------------ *)

Lemma substring_substring (s : string) :
  forall n m a b : nat,
    (a + b <= m)%nat ->
    substring a b (substring n m s) = substring (n + a) b s.
Proof.
  induction s as [|c s IH]; intros n m a b H.
  - destruct n, m, a, b; reflexivity.
  - destruct n as [|n].
    + destruct m as [|m].
      * assert (a = 0%nat) by lia. assert (b = 0%nat) by lia. subst. reflexivity.
      * simpl. destruct a as [|a].
        -- destruct b as [|b]; [reflexivity|]. simpl. f_equal.
           rewrite (IH 0%nat m 0%nat b) by lia. reflexivity.
        -- rewrite (IH 0%nat m a b) by lia. reflexivity.
    + simpl. apply IH. exact H.
Qed.

Lemma slice_done (s : string) (lo hi : Z) :
  0 <= lo <= hi -> hi <= len s ->
  slice s lo hi = Done (substring (Z.to_nat lo) (Z.to_nat (hi - lo)) s).
Proof.
  intros H1 H2. unfold slice.
  destruct (Z.leb_spec 0 lo); [|lia].
  destruct (Z.leb_spec lo hi); [|lia].
  destruct (Z.leb_spec hi (len s)); [|lia].
  reflexivity.
Qed.

Lemma slice_panic (s : string) (lo hi : Z) :
  lo < 0 \/ hi < lo \/ len s < hi -> slice s lo hi = Panic.
Proof.
  intros H. unfold slice.
  destruct (Z.leb_spec 0 lo); [|reflexivity].
  destruct (Z.leb_spec lo hi); [|reflexivity].
  destruct (Z.leb_spec hi (len s)); [lia | reflexivity].
Qed.

Lemma len_empty_iff (s : string) : String.eqb s "" = true <-> len s = 0.
Proof.
  destruct s; simpl; unfold len; simpl; split; intros H; try reflexivity;
    try discriminate; lia.
Qed.

(** The file name block computes by the length of the header value alone. *)
Lemma DownloadDocument_filename_cases (cd : string) :
  (len cd <= 21 -> Client.DownloadDocument_filename cd = Done "") /\
  (len cd = 22 -> Client.DownloadDocument_filename cd = Panic) /\
  (23 <= len cd ->
   Client.DownloadDocument_filename cd
   = Done (substring 22 (String.length cd - 23) cd)).
Proof.
  unfold Client.DownloadDocument_filename.
  change (len "attachment; filename=") with 21.
  assert (E : forall n, 21 < len cd -> len cd = n ->
            slice_from cd 21 = Done (substring 21 (Z.to_nat (n - 21)) cd)).
  { intros n H Hn. unfold slice_from. rewrite slice_done by lia. now subst. }
  assert (L : 21 < len cd ->
            len (substring 21 (Z.to_nat (len cd - 21)) cd) = len cd - 21).
  { intros H. unfold len in *. rewrite length_substring; lia. }
  repeat split; intros H.
  - destruct (String.eqb cd "") eqn:Hc; simpl; [reflexivity|].
    destruct (Z.ltb_spec 21 (len cd)); [lia | reflexivity].
  - assert (Hc : String.eqb cd "" = false).
    { destruct (String.eqb cd "") eqn:Hc; [|reflexivity].
      apply len_empty_iff in Hc. lia. }
    rewrite Hc. simpl.
    destruct (Z.ltb_spec 21 (len cd)); [|lia].
    rewrite (E (len cd)) by lia. simpl.
    apply slice_panic. rewrite L by lia. lia.
  - assert (Hc : String.eqb cd "" = false).
    { destruct (String.eqb cd "") eqn:Hc; [|reflexivity].
      apply len_empty_iff in Hc. lia. }
    rewrite Hc. simpl.
    destruct (Z.ltb_spec 21 (len cd)); [|lia].
    rewrite (E (len cd)) by lia. simpl.
    rewrite slice_done by (rewrite L by lia; lia).
    rewrite L by lia. f_equal.
    rewrite substring_substring by (unfold len in *; lia).
    f_equal. unfold len in *. lia.
Qed.

Lemma Header_Get_absent (h : HTTP.Header) (key : string) :
  Spec.header_absent h key -> HTTP.Header_Get h key = "".
Proof.
  unfold Spec.header_absent, HTTP.Header_Get. generalize (HTTP.CanonicalMIMEHeaderKey key).
  intros k H. induction h as [|[k' vs] h IH]; simpl; [reflexivity|].
  destruct (String.eqb k' k) eqn:E.
  - apply String.eqb_eq in E. subst k'. exfalso. apply (H vs). now left.
  - apply IH. intros values Hin. apply (H values). now right.
Qed.

(** C10. On a 200 response the file name [DownloadDocument] returns
    depends on the length of the [Content-Disposition] value only: empty
    up to 21 bytes (an absent header reads as the empty value), a panic at
    exactly 22 bytes, and from 23 bytes on the bytes from index 22 up to
    the last one, which is dropped; the value need not begin with the
    prefix. *)
Theorem DownloadDocument_filename_by_length
        (parseURL : string -> option string)
        (Do : HTTP.Request -> result HTTP.Response)
        (c : Client.Client) (id : string) (resp : HTTP.Response) :
  (forall u, parseURL u = None) ->
  (forall r, Do r = Ok resp) ->
  HTTP.StatusCode resp = 200 ->
  let cd := HTTP.Header_Get (HTTP.RespHeader resp) "Content-Disposition" in
  let returned := snd (Client.DownloadDocument parseURL Do c id) in
  (Spec.header_absent (HTTP.RespHeader resp) "Content-Disposition" ->
   returned = Done (Ok (HTTP.RespBody resp, ""))) /\
  (len cd <= 21 -> returned = Done (Ok (HTTP.RespBody resp, ""))) /\
  (len cd = 22 -> returned = Panic) /\
  (23 <= len cd ->
   returned = Done (Ok (HTTP.RespBody resp, substring 22 (String.length cd - 23) cd))).
Proof.
  intros HP HD HS cd returned.
  assert (R : returned
              = (filename <- Client.DownloadDocument_filename cd ;;
                 Done (Ok (HTTP.RespBody resp, filename)))).
  { unfold returned, Client.DownloadDocument, Client.NewRequest.
    rewrite HP, HD, HS. reflexivity. }
  destruct (DownloadDocument_filename_cases cd) as (C1 & C2 & C3).
  repeat split; intros H; rewrite R.
  - assert (Hcd : cd = "") by (unfold cd; now apply Header_Get_absent).
    rewrite C1 by (rewrite Hcd; unfold len; simpl; lia). reflexivity.
  - rewrite C1 by exact H. reflexivity.
  - rewrite C2 by exact H. reflexivity.
  - rewrite C3 by exact H. reflexivity.
Qed.

Lemma DownloadDocument_filename_by_length_witness :
  let resp := HTTP.mkResponse 200
                [("Content-Disposition", ["attachment; filename=report.pdf"])] ["%PDF"] in
  (forall u : string, (fun _ : string => @None string) u = None) /\
  (forall r, (fun _ : HTTP.Request => Ok resp) r = Ok resp) /\
  HTTP.StatusCode resp = 200 /\
  snd (Client.DownloadDocument (fun _ => None) (fun _ => Ok resp)
                               (Client.New "http://localhost:8080" "k") "d1")
  = Done (Ok (["%PDF"], "eport.pd")).
Proof.
  intros resp.
  split; [reflexivity|]. split; [reflexivity|]. split; [reflexivity|].
  refine (proj2 (proj2 (proj2
            (DownloadDocument_filename_by_length
               (fun _ => None) (fun _ => Ok resp)
               (Client.New "http://localhost:8080" "k") "d1" resp
               (fun _ => eq_refl) (fun _ => eq_refl) eq_refl))) _).
  vm_compute. discriminate.
Defined.

Lemma substring_middle (p m q : string) :
  substring (String.length p) (String.length m) (p ++ m ++ q) = m.
Proof.
  induction p as [|c p IH]; simpl; [|exact IH].
  induction m as [|c m IH]; simpl.
  - destruct q; reflexivity.
  - now rewrite IH.
Qed.

(** C2, as stated, fails: a 200 response whose [Content-Disposition]
    value is not of the form [attachment; filename="..."] still yields a
    file name; for [inline; filename="report.pdf"] it is [rt.pdf], not the
    empty string. *)
Lemma DownloadDocument_malformed_header_counterexample :
  let cd := Strings.dq "inline; filename='report.pdf'" in
  let resp := HTTP.mkResponse 200 [("Content-Disposition", [cd])] ["%PDF"] in
  snd (Client.DownloadDocument (fun _ => None) (fun _ => Ok resp)
                               (Client.New "http://localhost:8080" "k") "d1")
  = Done (Ok (["%PDF"], "rt.pdf")) /\
  "rt.pdf" <> "".
Proof. split; [vm_compute; reflexivity | discriminate]. Qed.

(** C2, amended. On a 200 response the file name is read at a fixed
    offset, the length of [attachment; filename=]: it is empty when the
    header is absent or its value has at most those 21 bytes, and for a
    value of the form [attachment; filename="NAME"] it is [NAME]. *)
Theorem DownloadDocument_filename_fixed_offset
        (parseURL : string -> option string)
        (Do : HTTP.Request -> result HTTP.Response)
        (c : Client.Client) (id : string) (resp : HTTP.Response) :
  (forall u, parseURL u = None) ->
  (forall r, Do r = Ok resp) ->
  HTTP.StatusCode resp = 200 ->
  let cd := HTTP.Header_Get (HTTP.RespHeader resp) "Content-Disposition" in
  let returned := snd (Client.DownloadDocument parseURL Do c id) in
  len "attachment; filename=" = 21 /\
  (Spec.header_absent (HTTP.RespHeader resp) "Content-Disposition" ->
   returned = Done (Ok (HTTP.RespBody resp, ""))) /\
  (len cd <= 21 -> returned = Done (Ok (HTTP.RespBody resp, ""))) /\
  (forall name : string,
      cd = "attachment; filename=" ++ dquote ++ name ++ dquote ->
      returned = Done (Ok (HTTP.RespBody resp, name))).
Proof.
  intros HP HD HS cd returned.
  assert (R : returned
              = (filename <- Client.DownloadDocument_filename cd ;;
                 Done (Ok (HTTP.RespBody resp, filename)))).
  { unfold returned, Client.DownloadDocument, Client.NewRequest.
    rewrite HP, HD, HS. reflexivity. }
  destruct (DownloadDocument_filename_cases cd) as (C1 & _ & C3).
  split; [reflexivity|]. repeat split.
  - intros H. rewrite R.
    assert (Hcd : cd = "") by (unfold cd; now apply Header_Get_absent).
    rewrite C1 by (rewrite Hcd; unfold len; simpl; lia). reflexivity.
  - intros H. rewrite R, C1 by exact H. reflexivity.
  - intros name E. rewrite R.
    assert (L : String.length cd = (23 + String.length name)%nat).
    { rewrite E. rewrite !length_append. simpl. lia. }
    rewrite C3 by (unfold len; lia). simpl. do 3 f_equal.
    rewrite L. replace (23 + String.length name - 23)%nat with (String.length name) by lia.
    rewrite E.
    change ("attachment; filename=" ++ dquote ++ name ++ dquote)
      with (("attachment; filename=" ++ dquote) ++ name ++ dquote).
    apply (substring_middle ("attachment; filename=" ++ dquote)).
Qed.

Lemma DownloadDocument_filename_fixed_offset_witness :
  let cd := Strings.dq "attachment; filename='esp32-datasheet.pdf'" in
  let resp := HTTP.mkResponse 200 [("Content-Disposition", [cd])] ["%PDF"] in
  (forall u : string, (fun _ : string => @None string) u = None) /\
  (forall r, (fun _ : HTTP.Request => Ok resp) r = Ok resp) /\
  HTTP.StatusCode resp = 200 /\
  snd (Client.DownloadDocument (fun _ => None) (fun _ => Ok resp)
                               (Client.New "http://localhost:8080" "k") "d1")
  = Done (Ok (["%PDF"], "esp32-datasheet.pdf")).
Proof.
  intros cd resp.
  split; [reflexivity|]. split; [reflexivity|]. split; [reflexivity|].
  refine (proj2 (proj2 (proj2
            (DownloadDocument_filename_fixed_offset
               (fun _ => None) (fun _ => Ok resp)
               (Client.New "http://localhost:8080" "k") "d1" resp
               (fun _ => eq_refl) (fun _ => eq_refl) eq_refl))) "esp32-datasheet.pdf" _).
  vm_compute. reflexivity.
Defined.

(* ------------------------------------------------------------------ *)
(** ** The renderer's format                                           *)
(* ------------------------------------------------------------------ *)

(** C7. A format string that lower-cases to neither [json] nor [text]
    gives the writer that [table] gives: the same stored format, the same
    [Format()] and the same [IsJSON()], namely false; [xml] is such a
    string. *)
Theorem New_unrecognized_is_table (unicodeToLower : string -> string) (format : string) :
  Strings.ToLower unicodeToLower format <> Output.FormatJSON ->
  Strings.ToLower unicodeToLower format <> Output.FormatText ->
  Output.New unicodeToLower format = Output.New unicodeToLower "table" /\
  Output.Format_of (Output.New unicodeToLower format)
  = Output.Format_of (Output.New unicodeToLower "table") /\
  Output.Format_of (Output.New unicodeToLower format) = Output.FormatTable /\
  Output.IsJSON (Output.New unicodeToLower format)
  = Output.IsJSON (Output.New unicodeToLower "table") /\
  Output.IsJSON (Output.New unicodeToLower format) = false /\
  Output.New unicodeToLower "xml" = Output.New unicodeToLower "table" /\
  Output.Format_of (Output.New unicodeToLower "xml") = Output.FormatTable /\
  Output.IsJSON (Output.New unicodeToLower "xml") = false.
Proof.
  intros HJ HT.
  assert (E : Output.New unicodeToLower format = Output.mkWriter "table" Output.Stdout).
  { unfold Output.New.
    apply String.eqb_neq in HJ. apply String.eqb_neq in HT.
    rewrite HJ, HT. reflexivity. }
  rewrite E. repeat split; reflexivity.
Qed.

Lemma New_unrecognized_is_table_witness :
  Strings.ToLower (fun s => s) "XML" <> Output.FormatJSON /\
  Strings.ToLower (fun s => s) "XML" <> Output.FormatText /\
  Output.New (fun s => s) "XML" = Output.New (fun s => s) "table" /\
  Output.IsJSON (Output.New (fun s => s) "XML") = false.
Proof.
  assert (HJ : Strings.ToLower (fun s => s) "XML" <> Output.FormatJSON)
    by (vm_compute; discriminate).
  assert (HT : Strings.ToLower (fun s => s) "XML" <> Output.FormatText)
    by (vm_compute; discriminate).
  split; [exact HJ|]. split; [exact HT|].
  pose proof (New_unrecognized_is_table (fun s => s) "XML" HJ HT) as H.
  split; [exact (proj1 H) | exact (proj1 (proj2 (proj2 (proj2 (proj2 H)))))].
Defined.

(* ------------------------------------------------------------------ *)
(** ** Requests                                                        *)
(* ------------------------------------------------------------------ *)

Section Requests.

Variable parseURL : string -> option string.
Variable Do : HTTP.Request -> result HTTP.Response.
Variable decodeResult : forall A : Type, HTTP.Body -> result A.

(** Whatever [get] hands to the transport is an authenticated GET of the
    path it was given. *)
Lemma get_sends (A : Type) (c : Client.Client) (resource : string) (r : HTTP.Request) :
  In r (fst (Client.get parseURL Do decodeResult (A := A) c (String "/" resource))) ->
  r = HTTP.mkRequest "GET"
        (Client.baseURL c ++ "/api/" ++ Client.APIVersion ++ "/" ++ resource)
        [("X-Api-Key", [Client.apiKey c])].
Proof.
  unfold Client.get, Client.NewRequest.
  destruct (parseURL _); simpl; [tauto|].
  destruct (Do _) as [resp|e]; simpl.
  - destruct (negb _); simpl.
    + intros [H|[]]. now subst.
    + destruct (decodeResult A _); simpl; intros [H|[]]; now subst.
  - intros [H|[]]. now subst.
Qed.

Lemma sent_by_get_authenticated (c : Client.Client) (resource : string) (r : HTTP.Request) :
  r = HTTP.mkRequest "GET"
        (Client.baseURL c ++ "/api/" ++ Client.APIVersion ++ "/" ++ resource)
        [("X-Api-Key", [Client.apiKey c])] ->
  Spec.authenticated_get c r.
Proof.
  intros ->. unfold Spec.authenticated_get. simpl.
  split; [reflexivity|]. split; [reflexivity|]. now exists resource.
Qed.

Lemma ListDevices_path_slash (limit offset : Z) (domain deviceType : string) :
  exists resource,
    Client.ListDevices_path limit offset domain deviceType = String "/" resource.
Proof.
  unfold Client.ListDevices_path.
  destruct (0 <? URL.len_values _); eexists; reflexivity.
Qed.

Lemma ListDocuments_path_slash (limit offset : Z) (deviceID : string) :
  exists resource,
    Client.ListDocuments_path limit offset deviceID = String "/" resource.
Proof.
  unfold Client.ListDocuments_path.
  destruct (0 <? URL.len_values _); eexists; reflexivity.
Qed.

Lemma DownloadDocument_sends (c : Client.Client) (id : string) (r : HTTP.Request) :
  In r (fst (Client.DownloadDocument parseURL Do c id)) ->
  r = HTTP.mkRequest "GET"
        (Client.baseURL c ++ "/api/" ++ Client.APIVersion ++ "/"
         ++ ("documents/" ++ id ++ "/download"))
        [("X-Api-Key", [Client.apiKey c])].
Proof.
  unfold Client.DownloadDocument, Client.NewRequest.
  destruct (parseURL _); simpl; [tauto|].
  destruct (Do _) as [resp|e]; simpl.
  - destruct (negb _); simpl; intros [H|[]]; now subst.
  - intros [H|[]]. now subst.
Qed.

End Requests.

(** C6. Every request an operation of the client hands to the transport
    is a GET, carries the API key of the client under [X-API-Key], and
    addresses [<base_url>/api/2025.12/<resource>]. *)
Theorem requests_authenticated_get
        (parseURL : string -> option string)
        (Do : HTTP.Request -> result HTTP.Response)
        (decodeResult : forall A : Type, HTTP.Body -> result A)
        (c : Client.Client) (r : HTTP.Request) :
  (exists query limit,
      In r (fst (Client.Search parseURL Do decodeResult c query limit))) \/
  (exists limit offset domain deviceType,
      In r (fst (Client.ListDevices parseURL Do decodeResult c
                                    limit offset domain deviceType))) \/
  (exists id, In r (fst (Client.GetDevice parseURL Do decodeResult c id))) \/
  (exists limit offset deviceID,
      In r (fst (Client.ListDocuments parseURL Do decodeResult c limit offset deviceID))) \/
  (exists id, In r (fst (Client.GetDocument parseURL Do decodeResult c id))) \/
  (exists id, In r (fst (Client.DownloadDocument parseURL Do c id))) ->
  Spec.authenticated_get c r /\ Client.APIVersion = "2025.12".
Proof.
  intros H. split; [|reflexivity].
  destruct H as [(q & l & H) | [(l & o & d & t & H) | [(id & H) |
                [(l & o & d & H) | [(id & H) | (id & H)]]]]].
  - apply get_sends in H. eapply sent_by_get_authenticated, H.
  - unfold Client.ListDevices in H.
    destruct (ListDevices_path_slash l o d t) as [res E]. rewrite E in H.
    apply get_sends in H. eapply sent_by_get_authenticated, H.
  - apply get_sends in H. eapply sent_by_get_authenticated, H.
  - unfold Client.ListDocuments in H.
    destruct (ListDocuments_path_slash l o d) as [res E]. rewrite E in H.
    apply get_sends in H. eapply sent_by_get_authenticated, H.
  - apply get_sends in H. eapply sent_by_get_authenticated, H.
  - apply DownloadDocument_sends in H. eapply sent_by_get_authenticated, H.
Qed.

Lemma requests_authenticated_get_witness :
  let c := Client.New "http://localhost:8080" "secret" in
  let r := HTTP.mkRequest "GET" "http://localhost:8080/api/2025.12/devices/abc12345"
                          [("X-Api-Key", ["secret"])] in
  In r (fst (Client.GetDevice (fun _ => None) (fun _ => Err "connection refused")
                              (fun _ _ => Err "not decoded") c "abc12345")) /\
  Spec.authenticated_get c r.
Proof.
  intros c r.
  assert (H : In r (fst (Client.GetDevice (fun _ => None)
                           (fun _ => Err "connection refused")
                           (fun _ _ => Err "not decoded") c "abc12345")))
    by (simpl; left; reflexivity).
  split; [exact H|].
  refine (proj1 (requests_authenticated_get
                   (fun _ => None) (fun _ => Err "connection refused")
                   (fun _ _ => Err "not decoded") c r _)).
  right. right. left. exists "abc12345". exact H.
Defined.

(* ------------------------------------------------------------------ *)
(** ** The query of a list request                                     *)
(* ------------------------------------------------------------------ *)

Lemma QueryEscape_digits (d : Decimal.uint) :
  URL.QueryEscape (NilEmpty.string_of_uint d) = NilEmpty.string_of_uint d.
Proof.
  induction d as [|d IH|d IH|d IH|d IH|d IH|d IH|d IH|d IH|d IH|d IH];
    [reflexivity | ..];
    cbn [NilEmpty.string_of_uint URL.QueryEscape];
    match goal with
    | |- context [code ?c] => let v := eval vm_compute in (code c) in
                               change (code c) with v
    end; cbv beta iota zeta; rewrite IH;
    reflexivity.
Qed.

(** A positive number is sent as its digits, none of which is escaped. *)
Lemma QueryEscape_itoa (n : Z) : 0 < n -> URL.QueryEscape (itoa n) = itoa n.
Proof.
  intros H. destruct n as [|p|p]; try lia.
  unfold itoa. simpl Z.to_int. unfold NilZero.string_of_int, NilZero.string_of_uint.
  destruct (Pos.to_uint p) eqn:E; try apply QueryEscape_digits.
  reflexivity.
Qed.

Lemma param_escaped (key : string) (n : Z) :
  Spec.param (0 <? n) key (itoa n) = Spec.param (0 <? n) key (URL.QueryEscape (itoa n)).
Proof.
  unfold Spec.param. destruct (Z.ltb_spec 0 n); [|reflexivity].
  now rewrite QueryEscape_itoa.
Qed.

(** [ListDevices] builds the path the specification describes. *)
Lemma ListDevices_path_spec (limit offset : Z) (domain deviceType : string) :
  Client.ListDevices_path limit offset domain deviceType
  = Spec.devices_path limit offset domain deviceType.
Proof.
  unfold Spec.devices_path. rewrite !param_escaped.
  unfold Client.ListDevices_path, Spec.param, Spec.path_with.
  generalize (itoa limit) (itoa offset). intros L O.
  destruct (0 <? limit), (0 <? offset), (String.eqb domain ""),
           (String.eqb deviceType ""); reflexivity.
Qed.

(** C3, as stated, fails: the parameters of [ListDevices(10, 20,
    "hardware", "")] go out sorted by key, not in the order of the
    arguments, and a negative limit, though not zero, is left out. *)
Lemma ListDevices_query_counterexample :
  let c := Client.New "http://localhost:8080" "k" in
  let urls (limit offset : Z) (domain deviceType : string) :=
    map HTTP.Url
        (fst (Client.ListDevices (fun _ => None) (fun _ => Err "connection refused")
                                 (fun _ _ => Err "not decoded")
                                 c limit offset domain deviceType)) in
  map Spec.query_of (urls 10 20 "hardware" "")
  = [Some "domain=hardware&limit=10&offset=20"] /\
  map Spec.query_of (urls 10 20 "hardware" "")
  <> [Some "limit=10&offset=20&domain=hardware"] /\
  -1 <> 0 /\
  map Spec.query_of (urls (-1) 0 "" "") = [None].
Proof.
  intros c urls. repeat split; try (vm_compute; reflexivity);
    vm_compute; discriminate.
Qed.

(** C3, amended. Every request [ListDevices] sends is a GET of
    [/devices] with the parameters sorted by key: [domain] when it is not
    empty, [limit] and [offset] when they are positive, [type] when it is
    not empty; nothing else is sent. No filter gives no query string;
    [(10, 20, "hardware", "")] gives [domain=hardware&limit=10&offset=20]. *)
Theorem ListDevices_query
        (parseURL : string -> option string)
        (Do : HTTP.Request -> result HTTP.Response)
        (decodeResult : forall A : Type, HTTP.Body -> result A)
        (c : Client.Client) (limit offset : Z) (domain deviceType : string)
        (r : HTTP.Request) :
  In r (fst (Client.ListDevices parseURL Do decodeResult c
                                limit offset domain deviceType)) ->
  HTTP.Method r = "GET" /\
  HTTP.Url r = Client.baseURL c ++ "/api/" ++ Client.APIVersion
               ++ Spec.devices_path limit offset domain deviceType /\
  Spec.devices_path 0 0 "" "" = "/devices" /\
  Spec.query_of (Spec.devices_path 0 0 "" "") = None /\
  Spec.devices_path 10 20 "hardware" "" = "/devices?domain=hardware&limit=10&offset=20".
Proof.
  intros H. unfold Client.ListDevices in H.
  rewrite <- ListDevices_path_spec.
  destruct (ListDevices_path_slash limit offset domain deviceType) as [res E].
  rewrite E in *. apply get_sends in H. subst r. simpl.
  repeat split; reflexivity.
Qed.

Lemma ListDevices_query_witness :
  let c := Client.New "http://localhost:8080" "k" in
  let r := HTTP.mkRequest "GET"
             "http://localhost:8080/api/2025.12/devices?domain=hardware&limit=10&offset=20"
             [("X-Api-Key", ["k"])] in
  In r (fst (Client.ListDevices (fun _ => None) (fun _ => Err "connection refused")
                                (fun _ _ => Err "not decoded") c 10 20 "hardware" "")) /\
  HTTP.Url r = Client.baseURL c ++ "/api/" ++ Client.APIVersion
               ++ Spec.devices_path 10 20 "hardware" "".
Proof.
  intros c r.
  assert (H : In r (fst (Client.ListDevices (fun _ => None)
                           (fun _ => Err "connection refused")
                           (fun _ _ => Err "not decoded") c 10 20 "hardware" "")))
    by (vm_compute; left; reflexivity).
  split; [exact H|].
  exact (proj1 (proj2 (ListDevices_query
                         (fun _ => None) (fun _ => Err "connection refused")
                         (fun _ _ => Err "not decoded") c 10 20 "hardware" "" r H))).
Defined.

(* ------------------------------------------------------------------ *)
(** ** Error bodies                                                    *)
(* ------------------------------------------------------------------ *)

(** [readValue] never runs out of turns when it is given more turns than
    the stream has bytes and blocks. *)
Lemma readValue_fuel (fuel : nat) :
  forall s n unscanned buf cap eof r,
    len buf <= cap ->
    eof = true \/ (Spec.stream_size r < fuel)%nat ->
    JSON.readValue fuel s n unscanned buf cap eof r <> None.
Proof.
  induction fuel as [|f IH]; intros s n unscanned buf cap eof r Hcap Hf.
  - cbn [JSON.readValue].
    destruct (JSON.scan_buf s n unscanned); try discriminate.
    destruct Hf as [-> | Hf]; [|lia].
    destruct (JSON.is_scanEnd _); discriminate.
  - cbn [JSON.readValue].
    destruct (JSON.scan_buf s n unscanned) as [k | | s1 k]; try discriminate.
    destruct eof.
    + destruct (JSON.is_scanEnd _); discriminate.
    + destruct Hf as [Hf | Hf]; [discriminate|].
      set (cap1 := if cap - len buf <? JSON.minRead then 2 * cap + JSON.minRead else cap).
      assert (Hroom : 512 <= cap1 - len buf).
      { unfold cap1, JSON.minRead.
        assert (0 <= len buf) by (unfold len; lia).
        destruct (Z.ltb_spec (cap - len buf) 512); lia. }
      clearbody cap1.
      destruct r as [|blk rest]; cbn [HTTP.Read].
      * apply IH; [|left; reflexivity].
        unfold len in *. rewrite length_append. cbn [String.length]. lia.
      * destruct (Z.leb_spec (len blk) (cap1 - len buf)) as [Hfit | Hbig].
        -- apply IH.
           ++ unfold len in *. rewrite length_append. lia.
           ++ right. cbn [Spec.stream_size fold_right] in Hf.
              unfold Spec.stream_size. lia.
        -- apply IH.
           ++ unfold len in *. rewrite length_append.
              rewrite length_substring by lia. lia.
           ++ right. cbn [Spec.stream_size fold_right] in Hf |- *.
              unfold Spec.stream_size in *. cbn [fold_right]. unfold len in *.
              rewrite length_substring by lia. lia.
Qed.

(** [Decode] always comes back from [readValue]. *)
Lemma Decode_reads (body : HTTP.Body) :
  JSON.readValue (JSON.fuel_for body) JSON.reset 0 [] "" 0 false body <> None.
Proof.
  apply readValue_fuel.
  - unfold len. simpl. lia.
  - right. unfold JSON.fuel_for, Spec.stream_size. lia.
Qed.

(** A body whose first block begins with a byte that cannot begin a JSON
    value makes [Decode] fail once that block is read: what is left of
    the stream are the blocks behind it. *)
Lemma Decode_syntax_error (c : ascii) (tail : string) (rest : HTTP.Body) :
  Spec.cannot_begin_value c = true ->
  len (String c tail) <= 512 ->
  JSON.Decode (String c tail :: rest)
  = Done (JSON.mkDecoded (JSON.mkErrorResponse "") true rest).
Proof.
  intros Hc Hlen. unfold JSON.Decode, JSON.fuel_for.
  cbn [fold_right].
  set (k := S (String.length (String c tail) + _)).
  cbn [JSON.readValue JSON.scan_buf].
  change (len "") with 0. change (0 - 0 <? JSON.minRead) with true.
  cbn iota. change (2 * 0 + JSON.minRead - 0) with 512.
  unfold HTTP.Read.
  destruct (Z.leb_spec (len (String c tail)) 512) as [_|]; [|lia].
  unfold k. cbn [JSON.readValue bytes JSON.scan_buf].
  assert (E : JSON.do_step JSON.reset c = JSON.error JSON.reset).
  { unfold Spec.cannot_begin_value in Hc. apply negb_true_iff in Hc.
    repeat (apply orb_false_elim in Hc; destruct Hc as [Hc ?]).
    unfold JSON.do_step, JSON.do_stateBeginValue, JSON.isSpace.
    cbn [JSON.step JSON.reset].
    repeat match goal with H : _ = false |- _ => rewrite H; clear H end.
    reflexivity. }
  rewrite E. reflexivity.
Qed.

Lemma ReadAll_cons_longer (blk : string) (rest : HTTP.Body) :
  blk <> "" -> HTTP.ReadAll rest <> HTTP.ReadAll (blk :: rest).
Proof.
  intros Hb E.
  assert (L : String.length (HTTP.ReadAll (blk :: rest))
              = (String.length blk + String.length (HTTP.ReadAll rest))%nat).
  { unfold HTTP.ReadAll. cbn [String.concat].
    destruct rest as [|b r].
    - simpl. lia.
    - change ("" ++ ?x) with x. rewrite length_append. reflexivity. }
  rewrite <- E in L. destruct blk; [congruence | simpl in L; lia].
Qed.

(** On a status other than 200, a body that begins with a byte no JSON
    value begins with gives an error whose message is what the decoder
    left in the stream: the blocks behind the first, never the whole
    body. *)
Lemma get_error_body_lost
      (parseURL : string -> option string)
      (Do : HTTP.Request -> result HTTP.Response)
      (decodeResult : forall A : Type, HTTP.Body -> result A)
      (A : Type) (c : Client.Client) (path : string)
      (resp : HTTP.Response) (ch : ascii) (tail : string) (rest : HTTP.Body) :
  (forall u, parseURL u = None) ->
  (forall r, Do r = Ok resp) ->
  HTTP.StatusCode resp <> 200 ->
  HTTP.RespBody resp = String ch tail :: rest ->
  Spec.cannot_begin_value ch = true ->
  len (String ch tail) <= 512 ->
  snd (Client.get parseURL Do decodeResult (A := A) c path)
  = Done (Err (Client.APIError (HTTP.StatusCode resp) (HTTP.ReadAll rest))) /\
  HTTP.ReadAll rest <> HTTP.ReadAll (HTTP.RespBody resp).
Proof.
  intros HP HD HS HB Hc Hl. split.
  - unfold Client.get, Client.NewRequest. rewrite HP, HD.
    apply Z.eqb_neq in HS. unfold HTTP.StatusOK. rewrite HS. cbn [negb snd].
    rewrite HB, Decode_syntax_error by assumption. reflexivity.
  - rewrite HB. apply ReadAll_cons_longer. discriminate.
Qed.

(* ------------------------------------------------------------------ *)
(** ** Error bodies in JSON                                            *)
(* ------------------------------------------------------------------ *)

Lemma bytes_app (a b : string) : bytes (a ++ b) = (bytes a ++ bytes b)%list.
Proof. induction a as [|c a IH]; simpl; [reflexivity | now rewrite IH]. Qed.

Lemma of_bytes_bytes (s : string) : of_bytes (bytes s) = s.
Proof. induction s as [|c s IH]; simpl; [reflexivity | now rewrite IH]. Qed.

Lemma substring_full (s : string) : substring 0 (String.length s) s = s.
Proof. induction s as [|c s IH]; simpl; [reflexivity | now rewrite IH]. Qed.

Lemma plain_byte_facts (c : ascii) :
  Spec.plain_byte c = true ->
  (code c =? 34) = false /\ JSON.eqc c "\" = false /\
  (code c <? 32) = false /\ (code c <? 128) = true.
Proof.
  unfold Spec.plain_byte. intros H.
  apply andb_prop in H. destruct H as [H H4].
  apply andb_prop in H. destruct H as [H H3].
  apply andb_prop in H. destruct H as [H1 H2].
  apply negb_true_iff in H3, H4. apply Z.leb_le in H1.
  repeat split; try assumption. apply Z.ltb_ge. exact H1.
Qed.

(** Inside a string literal the scanner passes over plain bytes. *)
Lemma scan_buf_plain (ps : list JSON.parse) (m : string) :
  Spec.plain m = true ->
  forall (n : nat) (rest : list ascii),
    JSON.scan_buf (JSON.mkScanner JSON.stateInString ps false) n (bytes m ++ rest)
    = JSON.scan_buf (JSON.mkScanner JSON.stateInString ps false)
                    (n + String.length m) rest.
Proof.
  unfold Spec.plain. induction m as [|c m IH]; intros H n rest; simpl in *.
  - f_equal. lia.
  - apply andb_prop in H. destruct H as [Hc Hm].
    destruct (plain_byte_facts c Hc) as (E1 & E2 & E3 & _).
    unfold JSON.do_step. cbn [JSON.step]. rewrite E1, E2, E3.
    rewrite IH by assumption. f_equal. lia.
Qed.

(** A literal of plain bytes unquotes to itself. *)
Lemma unquote_plain (m : string) :
  Spec.plain m = true -> JSON.unquote_from 0 (bytes m) = Some (bytes m).
Proof.
  unfold Spec.plain. induction m as [|c m IH]; intros H; simpl in *; [reflexivity|].
  apply andb_prop in H. destruct H as [Hc Hm].
  destruct (plain_byte_facts c Hc) as (E1 & E2 & E3 & E4).
  rewrite E1, E2, E3, E4. cbn [orb]. rewrite IH by assumption. reflexivity.
Qed.

Lemma unquoteBytes_plain (m : string) :
  Spec.plain m = true ->
  JSON.unquoteBytes (byte_of 34 :: bytes m ++ [byte_of 34])%list = Some m.
Proof.
  intros H. unfold JSON.unquoteBytes.
  rewrite rev_app_distr. cbn [rev app]. change (code (byte_of 34) =? 34) with true.
  cbn [andb]. rewrite rev_involutive, unquote_plain by assumption.
  cbn [option_map]. now rewrite of_bytes_bytes.
Qed.

(** Inside a string literal the decoder collects plain bytes. *)
Lemma decode_plain (ps : list JSON.parse) (depth : nat) (role : option JSON.parse)
      (k f : string) (se oos : bool) (m : string) :
  Spec.plain m = true ->
  forall lit : list ascii,
    fold_left JSON.decode_byte (bytes m)
      (JSON.mkDecodeState (JSON.mkScanner JSON.stateInString ps false)
                          (Some (lit, depth, role)) k f se oos)
    = JSON.mkDecodeState (JSON.mkScanner JSON.stateInString ps false)
                         (Some ((rev (bytes m) ++ lit)%list, depth, role)) k f se oos.
Proof.
  unfold Spec.plain. induction m as [|c m IH]; intros H lit; simpl in *; [reflexivity|].
  apply andb_prop in H. destruct H as [Hc Hm].
  destruct (plain_byte_facts c Hc) as (E1 & E2 & E3 & _).
  unfold JSON.decode_byte at 2. unfold JSON.do_step. cbn [JSON.scan JSON.step].
  rewrite E1, E2, E3. cbn [JSON.literal].
  rewrite IH by assumption. rewrite <- app_assoc. reflexivity.
Qed.

Lemma decode_closing_quote (ps : list JSON.parse) (lit : list ascii) (depth : nat)
      (role : option JSON.parse) (k f : string) (se oos : bool) :
  JSON.decode_byte
    (JSON.mkDecodeState (JSON.mkScanner JSON.stateInString ps false)
                        (Some (lit, depth, role)) k f se oos) (byte_of 34)
  = JSON.mkDecodeState (JSON.mkScanner JSON.stateEndValue ps false)
                       (Some (byte_of 34 :: lit, depth, role)) k f se oos.
Proof. reflexivity. Qed.

Lemma decode_member_end (lit : list ascii) (v f : string) :
  hd " "%char (rev lit) = byte_of 34 ->
  JSON.unquoteBytes (rev lit) = Some v ->
  JSON.decode_byte
    (JSON.mkDecodeState (JSON.mkScanner JSON.stateEndValue [JSON.parseObjectValue] false)
                        (Some (lit, 1%nat, Some JSON.parseObjectValue))
                        "error" f false false) "}"
  = JSON.mkDecodeState (JSON.mkScanner JSON.stateEndTop [] true) None
                       "error" v false false.
Proof.
  intros H1 H2. unfold JSON.decode_byte.
  change (JSON.do_step
            (JSON.scan
               (JSON.mkDecodeState
                  (JSON.mkScanner JSON.stateEndValue [JSON.parseObjectValue] false)
                  (Some (lit, 1%nat, Some JSON.parseObjectValue)) "error" f false false))
            "}")
    with (JSON.mkScanner JSON.stateEndTop [] true, JSON.scanEndObject).
  cbv beta iota. cbn [JSON.literal].
  unfold JSON.store. cbn [JSON.key JSON.scan JSON.field JSON.savedError JSON.outOfSync].
  change (JSON.names_Error "error") with true. cbv iota.
  rewrite H1. change (code (byte_of 34) =? 34) with true. cbv iota.
  rewrite H2. reflexivity.
Qed.

(** The decoder reads [{"error":"m"}] as the message [m] and leaves
    nothing behind. *)
Lemma Decode_error_body (m : string) :
  Spec.plain m = true ->
  len (Spec.error_body m) <= 512 ->
  JSON.Decode [Spec.error_body m]
  = Done (JSON.mkDecoded (JSON.mkErrorResponse m) false []).
Proof.
  intros Hm Hlen. unfold JSON.Decode, JSON.fuel_for.
  cbn [fold_right].
  cbn [JSON.readValue JSON.scan_buf].
  change (len "") with 0. change (0 - 0 <? JSON.minRead) with true.
  cbn iota. change (2 * 0 + JSON.minRead - 0) with 512.
  unfold HTTP.Read.
  destruct (Z.leb_spec (len (Spec.error_body m)) 512) as [_|]; [|lia].
  cbn [JSON.readValue].
  assert (S1 : JSON.scan_buf JSON.reset 0 (bytes (Spec.error_body m))
               = JSON.ValueEnd (String.length (Spec.error_body m))).
  { unfold Spec.error_body. rewrite !bytes_app.
    change (JSON.scan_buf JSON.reset 0
              (bytes (Strings.dq "{'error':'") ++ bytes m ++ bytes (Strings.dq "'}")))
      with (JSON.scan_buf
              (JSON.mkScanner JSON.stateInString [JSON.parseObjectValue] false) 10
              (bytes m ++ bytes (Strings.dq "'}"))).
    rewrite scan_buf_plain by assumption.
    rewrite !length_append.
    change (JSON.scan_buf _ (10 + String.length m) (bytes (Strings.dq "'}")))
      with (JSON.ValueEnd (S (S (10 + String.length m)))).
    f_equal. simpl. lia. }
  rewrite S1. change ("" ++ Spec.error_body m) with (Spec.error_body m).
  rewrite substring_full.
  assert (U : JSON.unmarshal (Spec.error_body m) = Done (JSON.mkErrorResponse m, false)).
  { unfold JSON.unmarshal, Spec.error_body. rewrite !bytes_app, !fold_left_app.
    change (fold_left JSON.decode_byte (bytes (Strings.dq "{'error':'"))
              (JSON.mkDecodeState JSON.reset None "" "" false false))
      with (JSON.mkDecodeState
              (JSON.mkScanner JSON.stateInString [JSON.parseObjectValue] false)
              (Some ([byte_of 34], 1%nat, Some JSON.parseObjectValue))
              "error" "" false false).
    rewrite decode_plain by assumption.
    change (bytes (Strings.dq "'}")) with [byte_of 34; "}"%char].
    cbn [fold_left].
    rewrite decode_closing_quote.
    rewrite (decode_member_end _ m).
    - reflexivity.
    - cbn [rev]. rewrite rev_app_distr, rev_involutive. reflexivity.
    - cbn [rev]. rewrite rev_app_distr, rev_involutive. cbn [rev app].
      apply unquoteBytes_plain. assumption. }
  rewrite U. reflexivity.
Qed.

(** On a status other than 200, a body [{"error":"m"}] that arrives in one
    block gives an error with the message [m]. *)
Lemma get_error_field
      (parseURL : string -> option string)
      (Do : HTTP.Request -> result HTTP.Response)
      (decodeResult : forall A : Type, HTTP.Body -> result A)
      (A : Type) (c : Client.Client) (path : string)
      (resp : HTTP.Response) (m : string) :
  (forall u, parseURL u = None) ->
  (forall r, Do r = Ok resp) ->
  HTTP.StatusCode resp <> 200 ->
  HTTP.RespBody resp = [Spec.error_body m] ->
  Spec.plain m = true ->
  len (Spec.error_body m) <= 512 ->
  snd (Client.get parseURL Do decodeResult (A := A) c path)
  = Done (Err (Client.APIError (HTTP.StatusCode resp) m)).
Proof.
  intros HP HD HS HB Hm Hl.
  unfold Client.get, Client.NewRequest. rewrite HP, HD.
  apply Z.eqb_neq in HS. unfold HTTP.StatusOK. rewrite HS. cbn [negb snd].
  rewrite HB, Decode_error_body by assumption. reflexivity.
Qed.

(** C1. What [get] makes of a 404: the body [{"error":"not found"}] gives
    the message [not found]; the body [oops], which is no JSON, gives the
    empty message, the decoder having taken the body off the stream
    before [io.ReadAll] reads what is left. *)
Theorem get_error_message
        (decodeResult : forall A : Type, HTTP.Body -> result A)
        (A : Type) (path : string) :
  let c := Client.New "http://localhost:8080" "k" in
  let reply (body : HTTP.Body) :=
    fun _ : HTTP.Request => Ok (HTTP.mkResponse 404 [] body) in
  snd (Client.get (fun _ => None) (reply [Strings.dq "{'error':'not found'}"])
                  decodeResult (A := A) c path)
  = Done (Err "API error (404): not found") /\
  snd (Client.get (fun _ => None) (reply ["oops"]) decodeResult (A := A) c path)
  = Done (Err "API error (404): ") /\
  snd (Client.get (fun _ => None) (reply ["oops"]) decodeResult (A := A) c path)
  <> Done (Err "API error (404): oops").
Proof.
  intros c reply. repeat split; try (vm_compute; reflexivity).
  vm_compute. discriminate.
Qed.

(* ------------------------------------------------------------------ *)
(** ** Rendering                                                       *)
(* ------------------------------------------------------------------ *)

(** C8. The search response with the one result [abc123ef...], [ESP32 Dev
    Board], [hardware], [dev-boards], score 0.92, total 1 and query
    [esp32], rendered by a [table] writer: the header row
    [ID  NAME  DOMAIN  TYPE  SCORE], a rule, and one data row whose first
    cell is the first eight bytes of the device id and whose last cell is
    [0.92]; the score is the double nearest to 0.92, within half a unit
    in the 53rd bit. With [--output table] nothing follows the table;
    when the format comes from the configuration the snippets do. *)
Theorem search_table_rendering
        (encodeJSON : forall A : Type, A -> string * option string)
        (unicodeToLower : string -> string) :
  let result := Client.mkSearchResult "abc123ef..." "ESP32 Dev Board" "hardware"
                  "dev-boards" "" (F64.of_decimal false 92 2) "..." in
  let response := Client.mkSearchResponse [result] 1 "esp32" in
  let out := Output.New unicodeToLower "table" in
  let header := "ID  NAME  DOMAIN  TYPE  SCORE" in
  let rule := "-----------------------------" in
  let row := "abc123ef  ESP32 Dev Board  hardware  dev-boards  0.92" in
  Cmd.searchCmd_RunE encodeJSON out "table" (Ok response) ""
  = ("Found 1 results for " ++ dquote ++ "esp32" ++ dquote ++ ":"
     ++ nl ++ nl
     ++ header ++ nl ++ rule ++ nl ++ row ++ nl,
     Done None) /\
  Cmd.searchCmd_RunE encodeJSON out "" (Ok response) ""
  = ("Found 1 results for " ++ dquote ++ "esp32" ++ dquote ++ ":"
     ++ nl ++ nl
     ++ header ++ nl ++ rule ++ nl ++ row ++ nl
     ++ nl ++ "--- Snippets ---" ++ nl
     ++ nl ++ "[abc123ef] ESP32 Dev Board" ++ nl ++ "  ..." ++ nl,
     Done None) /\
  Cmd.search_row result
  = Done ["abc123ef"; "ESP32 Dev Board"; "hardware"; "dev-boards"; "0.92"] /\
  slice_to (Client.sr_DeviceID result) 8 = Done "abc123ef" /\
  Client.sr_Score result = F64.Finite false 8286623314361713 (-53) /\
  2 * Z.abs (92 * 2 ^ 53 - 8286623314361713 * 100) <= 100 /\
  F64.format_f 2 (Client.sr_Score result) = "0.92" /\
  Output.Table_text ["ID"; "NAME"; "DOMAIN"; "TYPE"; "SCORE"]
               [["abc123ef"; "ESP32 Dev Board"; "hardware"; "dev-boards"; "0.92"]]
  = Done (header ++ nl ++ rule ++ nl ++ row ++ nl).
Proof.
  intros result response out header rule row.
  repeat split; try (vm_compute; reflexivity).
  vm_compute. discriminate.
Qed.

(* ------------------------------------------------------------------ *)
(** ** The table writer never pads by a negative amount                *)
(* ------------------------------------------------------------------ *)

Lemma mapM_done {A B : Type} (f : A -> outcome B) (l : list A) :
  (forall a, In a l -> exists b, f a = Done b) -> exists bs, mapM f l = Done bs.
Proof.
  induction l as [|a l IH]; intros H; simpl; [eexists; reflexivity|].
  destruct (H a (or_introl eq_refl)) as [b ->]. simpl.
  destruct IH as [bs ->]; [intros x Hx; apply H; now right|].
  eexists; reflexivity.
Qed.

Lemma writeCells_done (l : list Tabwriter.cell) :
  forall widths, Spec.fits widths l -> exists s, Tabwriter.writeCells widths l = Done s.
Proof.
  induction l as [|c l IH]; intros widths H; simpl; [eexists; reflexivity|].
  destruct widths as [|w ws]; simpl in *.
  - destruct (IH [] I) as [s ->]. eexists; reflexivity.
  - destruct H as [Hw Hf]. unfold Tabwriter.writePadding.
    destruct (Z.ltb_spec (w - Tabwriter.width c) 0); [lia|]. simpl.
    destruct (IH ws Hf) as [s ->]. eexists; reflexivity.
Qed.

Lemma writeLines_done (tail : string) (widths : list Z) (ls : list Tabwriter.bufline) :
  Forall (fun l => Spec.fits widths (snd l)) ls ->
  exists s, Tabwriter.writeLines tail widths ls = Done s.
Proof.
  induction 1 as [|[is_last l] ls Hl Hls IH]; simpl; [eexists; reflexivity|].
  destruct (writeCells_done l widths Hl) as [s ->]. simpl.
  destruct IH as [t ->]. eexists; reflexivity.
Qed.

Lemma fold_max_ge (f : Tabwriter.bufline -> Z) (block : list Tabwriter.bufline) :
  forall init,
    init <= fold_left (fun w l => Z.max w (f l)) block init /\
    (forall l, In l block -> f l <= fold_left (fun w l => Z.max w (f l)) block init).
Proof.
  induction block as [|x block IH]; intros init; simpl.
  - split; [lia | intros l []].
  - destruct (IH (Z.max init (f x))) as [H1 H2]. split; [lia|].
    intros l [<- | Hl]; [lia | now apply H2].
Qed.

(** The width of a block covers each of its cells and the padding. *)
Lemma block_width_ge (column : nat) (block : list Tabwriter.bufline) (l : Tabwriter.bufline) :
  In l block ->
  Tabwriter.width (nth column (snd l) (Tabwriter.mkCell "" 0 false)) + Tabwriter.padding
  <= Tabwriter.block_width column block.
Proof.
  intros H. unfold Tabwriter.block_width.
  apply (proj2 (fold_max_ge
                  (fun l => Tabwriter.width (nth column (snd l) (Tabwriter.mkCell "" 0 false))
                            + Tabwriter.padding) block Tabwriter.minwidth) l H).
Qed.

Lemma fits_snoc (widths : list Z) :
  forall (l : list Tabwriter.cell) (w : Z),
    Spec.fits widths l ->
    Tabwriter.width (nth (List.length widths) l (Tabwriter.mkCell "" 0 false)) <= w ->
    Spec.fits (widths ++ [w]) l.
Proof.
  induction widths as [|w0 ws IH]; intros l w Hf Hw; destruct l as [|c cs]; simpl in *;
    try exact I.
  - split; [exact Hw | destruct cs; exact I].
  - destruct Hf as [H0 Hf]. split; [exact H0|]. now apply IH.
Qed.

Lemma blocks_from_lines (column : nat) (ls : list Tabwriter.bufline) :
  forall cur acc g,
    In g (Tabwriter.blocks_from column cur acc ls) ->
    forall l, In l (snd g) -> In l acc \/ In l ls.
Proof.
  induction ls as [|x ls IH]; intros cur acc g Hg l Hl; simpl in Hg.
  - destruct Hg as [<- | []]. simpl in Hl. left. now apply in_rev.
  - destruct (Bool.eqb (Tabwriter.has_column column x) cur).
    + destruct (IH _ _ _ Hg l Hl) as [[<- | H] | H]; simpl; auto.
    + destruct Hg as [<- | Hg].
      * simpl in Hl. left. now apply in_rev.
      * destruct (IH _ _ _ Hg l Hl) as [[<- | []] | H]; simpl; auto.
Qed.

Lemma format_done (tail : string) (depth : nat) :
  forall (widths : list Z) (ls : list Tabwriter.bufline),
    Forall (fun l => Spec.fits widths (snd l)) ls ->
    exists s, Tabwriter.format depth tail widths ls = Done s.
Proof.
  induction depth as [|d IH]; intros widths ls H; simpl.
  - now apply writeLines_done.
  - match goal with
    | |- context [mapM ?f ?groups] => destruct (mapM_done f groups) as [parts ->]
    end; [|eexists; reflexivity].
    intros g Hg. unfold Tabwriter.blocks in Hg. apply filter_In in Hg.
    destruct Hg as [Hg _].
    assert (Sub : forall l, In l (snd g) -> In l ls).
    { intros l Hl. destruct (blocks_from_lines _ _ _ _ _ Hg l Hl) as [[] | Hin].
      exact Hin. }
    rewrite Forall_forall in H.
    destruct (fst g).
    + apply IH. apply Forall_forall. intros l Hl.
      apply fits_snoc; [apply H, Sub, Hl|].
      pose proof (block_width_ge (List.length widths) (snd g) l Hl) as B.
      unfold Tabwriter.padding in B. lia.
    + apply writeLines_done. apply Forall_forall. intros l Hl. apply H, Sub, Hl.
Qed.

Lemma flush_done (b : Tabwriter.Writer) : exists b', Tabwriter.flush b = Done b'.
Proof.
  unfold Tabwriter.flush.
  match goal with
  | |- context [Tabwriter.format ?d ?t [] ?ls] =>
      destruct (format_done t d [] ls) as [s ->]
  end.
  - apply Forall_forall. intros l _. destruct (snd l); exact I.
  - eexists; reflexivity.
Qed.

Lemma Write_bytes_done (buf : list ascii) :
  forall (b : Tabwriter.Writer) (seg : string),
    exists b', Tabwriter.Write_bytes b seg buf = Done b'.
Proof.
  induction buf as [|ch r IH]; intros b seg; cbn [Tabwriter.Write_bytes];
    [eexists; reflexivity|].
  destruct (negb (Tabwriter.inEscape b)).
  - destruct ((code ch =? 9) || (code ch =? 11) || (code ch =? 10) || (code ch =? 12)).
    + match goal with
      | |- context [Tabwriter.terminateCell ?x ?y] =>
          destruct (Tabwriter.terminateCell x y) as [b2 ncells]
      end.
      destruct ((code ch =? 10) || (code ch =? 12)); [|apply IH].
      destruct ((code ch =? 12) || (ncells =? 1)); [|apply IH].
      destruct (flush_done (Tabwriter.addLine b2)) as [b4 ->]. cbn [bind]. apply IH.
    + destruct (code ch =? 255); apply IH.
  - destruct (code ch =? 255); apply IH.
Qed.

(** [Table] writes its text whatever the headers and rows. *)
Lemma Table_done (headers : list string) (rows : list (list string)) :
  exists s, Output.Table_text headers rows = Done s.
Proof.
  unfold Output.Table_text, Tabwriter.Fprintln, Tabwriter.Write.
  destruct (Write_bytes_done (bytes (Join headers (String (byte_of 9) "")
                                     ++ String (byte_of 10) ""))
                             Tabwriter.NewWriter "") as [t1 ->]. simpl.
  destruct (Write_bytes_done
              (bytes (repeat_nat "-" (String.length (Join headers "  "))
                      ++ String (byte_of 10) "")) t1 "") as [t2 ->].
  cbn [bind].
  assert (F : forall rows t, exists t',
              fold_left
                (fun (t : outcome Tabwriter.Writer) (row : list string) =>
                   t' <- t ;;
                   Tabwriter.Write_bytes t' ""
                     (bytes (Join row (String (byte_of 9) "") ++ String (byte_of 10) "")))
                rows (Done t) = Done t').
  { clear. induction rows as [|row rows IH]; intros t; simpl; [eexists; reflexivity|].
    destruct (Write_bytes_done
                (bytes (Join row (String (byte_of 9) "") ++ String (byte_of 10) ""))
                t "") as [t' ->].
    apply IH. }
  destruct (F rows t2) as [t3 ->]. cbn [bind].
  destruct (flush_done t3) as [t4 ->]. eexists; reflexivity.
Qed.

Lemma blocks_from_no_column (column : nat) (ls : list Tabwriter.bufline) :
  (forall l, In l ls -> Tabwriter.has_column column l = false) ->
  forall acc,
    Tabwriter.blocks_from column false acc ls = [(false, (rev acc ++ ls)%list)].
Proof.
  induction ls as [|x ls IH]; intros H acc; simpl.
  - now rewrite app_nil_r.
  - rewrite (H x (or_introl eq_refl)). simpl.
    rewrite IH by (intros l Hl; apply H; now right).
    simpl. now rewrite <- app_assoc.
Qed.

Lemma mapM_ext {A B : Type} (f g : A -> outcome B) (l : list A) :
  (forall a, In a l -> f a = g a) -> mapM f l = mapM g l.
Proof.
  induction l as [|a l IH]; intros H; simpl; [reflexivity|].
  rewrite (H a (or_introl eq_refl)).
  rewrite IH by (intros x Hx; apply H; now right). reflexivity.
Qed.

(** Once [depth] covers the columns that are left, more depth changes
    nothing: [format] has come to the lines without further columns. *)
Lemma format_depth (tail : string) (d : nat) :
  forall (widths : list Z) (ls : list Tabwriter.bufline),
    (forall l, In l ls -> (List.length (snd l) - 1 <= List.length widths + d)%nat) ->
    Tabwriter.format (S d) tail widths ls = Tabwriter.format d tail widths ls.
Proof.
  induction d as [|d IH]; intros widths ls H.
  - assert (N : forall l, In l ls -> Tabwriter.has_column (List.length widths) l = false).
    { intros l Hl. unfold Tabwriter.has_column. apply Z.ltb_ge.
      specialize (H l Hl). lia. }
    cbn [Tabwriter.format]. unfold Tabwriter.blocks.
    rewrite blocks_from_no_column by exact N. cbn [rev app filter snd].
    destruct ls as [|x ls]; [reflexivity|].
    cbn [List.length Nat.eqb negb mapM fst snd].
    destruct (Tabwriter.writeLines tail widths (x :: ls)) as [s|]; [|reflexivity].
    cbn [bind String.concat]. reflexivity.
  - change (Tabwriter.format (S (S d)) tail widths ls)
      with (parts <- mapM (fun g : bool * list Tabwriter.bufline =>
                             if fst g
                             then Tabwriter.format (S d) tail
                                    (widths ++ [Tabwriter.block_width (List.length widths)
                                                                      (snd g)])%list
                                    (snd g)
                             else Tabwriter.writeLines tail widths (snd g))
                          (Tabwriter.blocks (List.length widths) ls) ;;
            Done (String.concat "" parts)).
    change (Tabwriter.format (S d) tail widths ls)
      with (parts <- mapM (fun g : bool * list Tabwriter.bufline =>
                             if fst g
                             then Tabwriter.format d tail
                                    (widths ++ [Tabwriter.block_width (List.length widths)
                                                                      (snd g)])%list
                                    (snd g)
                             else Tabwriter.writeLines tail widths (snd g))
                          (Tabwriter.blocks (List.length widths) ls) ;;
            Done (String.concat "" parts)).
    f_equal. apply mapM_ext. intros g Hg.
    destruct (fst g) eqn:Fg; [|reflexivity].
    apply IH. intros l Hl.
    unfold Tabwriter.blocks in Hg. apply filter_In in Hg. destruct Hg as [Hg _].
    destruct (blocks_from_lines _ _ _ _ _ Hg l Hl) as [[] | Hin].
    specialize (H l Hin). rewrite length_app. simpl. lia.
Qed.

Lemma max_cells_ge (ls : list (list Tabwriter.cell)) :
  forall init l,
    In l ls ->
    (List.length l <= fold_left (fun m l => Nat.max m (List.length l)) ls init)%nat.
Proof.
  assert (G : forall (ls : list (list Tabwriter.cell)) init,
            (init <= fold_left (fun m l => Nat.max m (List.length l)) ls init)%nat).
  { clear. induction ls as [|x ls IH]; intros init; simpl; [lia|].
    specialize (IH (Nat.max init (List.length x))). lia. }
  induction ls as [|x ls IH]; intros init l Hl; [destruct Hl|].
  destruct Hl as [<- | Hl]; simpl.
  - specialize (G ls (Nat.max init (List.length x))). lia.
  - now apply IH.
Qed.

Lemma mark_last_lines (ls : list (list Tabwriter.cell)) (l : Tabwriter.bufline) :
  In l (Tabwriter.mark_last ls) -> In (snd l) ls.
Proof.
  induction ls as [|x ls IH]; simpl; [tauto|].
  destruct ls as [|y ls].
  - intros [<- | []]. now left.
  - intros [<- | H]; [now left | right; now apply IH].
Qed.

(** The depth [flush] gives to [format] covers every column of the
    buffer. *)
Lemma flush_depth (tail : string) (ls : list (list Tabwriter.cell)) (more : nat) :
  Tabwriter.format (Tabwriter.max_cells ls + more) tail [] (Tabwriter.mark_last ls)
  = Tabwriter.format (Tabwriter.max_cells ls) tail [] (Tabwriter.mark_last ls).
Proof.
  induction more as [|k IH]; [now rewrite Nat.add_0_r|].
  rewrite Nat.add_succ_r, format_depth; [exact IH|].
  intros l Hl. apply mark_last_lines in Hl.
  pose proof (max_cells_ge ls 0%nat (snd l) Hl) as B.
  unfold Tabwriter.max_cells. simpl. lia.
Qed.

(* ------------------------------------------------------------------ *)
(** ** Panics of the rendering paths                                   *)
(* ------------------------------------------------------------------ *)

Lemma slice_to_panic_iff (s : string) (n : Z) :
  0 <= n -> (slice_to s n = Panic <-> len s < n).
Proof.
  intros H. split.
  - intros E. destruct (Z.lt_ge_cases (len s) n) as [L|L]; [exact L|].
    rewrite slice_to_done in E by lia. discriminate.
  - intros L. apply slice_panic. lia.
Qed.

Lemma mapM_panic_iff {A B : Type} (f : A -> outcome B) (l : list A) :
  mapM f l = Panic <-> Exists (fun a => f a = Panic) l.
Proof.
  induction l as [|a l IH]; simpl.
  - split; [discriminate | intros H; inversion H].
  - destruct (f a) as [b|] eqn:E; simpl.
    + destruct (mapM f l) as [bs|] eqn:M; simpl.
      * split; [discriminate|]. intros H. inversion H; subst; [congruence|].
        apply IH in H1. discriminate.
      * split; [|reflexivity]. intros _. apply Exists_cons_tl, IH. reflexivity.
    + split; [|reflexivity]. intros _. now apply Exists_cons_hd.
Qed.

Lemma Exists_iff {A : Type} (P Q : A -> Prop) (l : list A) :
  (forall a, In a l -> (P a <-> Q a)) -> (Exists P l <-> Exists Q l).
Proof.
  intros H. rewrite !Exists_exists. split; intros (a & Ha & Pa); exists a;
    (split; [exact Ha | now apply (H a Ha)]).
Qed.

Lemma search_row_panic_iff (r : Client.SearchResult) :
  Cmd.search_row r = Panic <-> len (Client.sr_DeviceID r) < 8.
Proof.
  unfold Cmd.search_row. rewrite <- (slice_to_panic_iff _ 8) by lia.
  destruct (slice_to (Client.sr_DeviceID r) 8); simpl; [|tauto].
  destruct (Truncate_done (Client.sr_Name r) 40) as [t ->]; [lia|]. simpl.
  split; discriminate.
Qed.

Lemma devices_row_panic_iff (d : Client.Device) :
  Cmd.devices_row d = Panic <-> len (Client.dev_ID d) < 8.
Proof.
  unfold Cmd.devices_row. rewrite <- (slice_to_panic_iff _ 8) by lia.
  destruct (slice_to (Client.dev_ID d) 8); simpl; [|tauto].
  destruct (Truncate_done (Client.dev_Name d) 45) as [t ->]; [lia|]. simpl.
  split; discriminate.
Qed.

Lemma documents_row_panic_iff (d : Client.Document) :
  int64_range (Client.doc_SizeBytes d) ->
  (Cmd.documents_row d = Panic <-> len (Client.doc_ID d) < 8).
Proof.
  intros R. unfold Cmd.documents_row. rewrite <- (slice_to_panic_iff _ 8) by lia.
  destruct (slice_to (Client.doc_ID d) 8); simpl; [|tauto].
  destruct (Truncate_done (Client.doc_Filename d) 45) as [t ->]; [lia|]. simpl.
  destruct (FormatSize_done _ R) as [z ->]. simpl.
  split; discriminate.
Qed.

(** The snippet loop does not panic over results whose ids have eight
    bytes. *)
Lemma snippets_no_panic (out : Output.Writer) (l : list Client.SearchResult) :
  Forall (fun r => 8 <= len (Client.sr_DeviceID r)) l ->
  forall o, snd (IO.forM_ (Cmd.search_snippet out) l o) <> Panic.
Proof.
  induction 1 as [|r l Hr Hl IH]; intros o; simpl; [discriminate|].
  unfold IO.bindIO at 1.
  assert (S : exists o1, Cmd.search_snippet out r o = (o1, Done tt)).
  { unfold Cmd.search_snippet.
    destruct (negb _); [|eexists; reflexivity].
    unfold IO.bindIO, IO.eval, Output.Text, IO.print.
    rewrite slice_to_done by lia.
    destruct (Truncate_done (Client.sr_Snippet r) 200) as [t ->]; [lia|].
    eexists; reflexivity. }
  destruct S as [o1 ->]. apply IH.
Qed.

Lemma Forall_firstn {A : Type} (P : A -> Prop) (n : nat) (l : list A) :
  Forall P l -> Forall P (firstn n l).
Proof.
  intros H. revert n. induction H; intros [|n]; simpl; constructor; auto.
Qed.

Lemma not_Exists_lt_Forall_le {A : Type} (f : A -> Z) (n : Z) (l : list A) :
  ~ Exists (fun a => f a < n) l -> Forall (fun a => n <= f a) l.
Proof.
  induction l as [|a l IH]; intros H; constructor.
  - destruct (Z.lt_ge_cases (f a) n); [|assumption].
    exfalso. apply H. now constructor.
  - apply IH. intros E. apply H. now apply Exists_cons_tl.
Qed.

Lemma length_zero_nil {A : Type} (l : list A) :
  (Z.of_nat (List.length l) =? 0) = true -> l = [].
Proof. destruct l; [reflexivity | simpl; discriminate]. Qed.

Section Panics.

Variable encodeJSON : forall A : Type, A -> string * option string.
Variable out : Output.Writer.
Variable outputFormat : string.
Hypothesis not_json : Output.IsJSON out = false.

Lemma search_panics (resp : Client.SearchResponse) (o : string) :
  snd (Cmd.searchCmd_RunE encodeJSON out outputFormat (Ok resp) o) = Panic
  <-> Exists (fun r => len (Client.sr_DeviceID r) < 8) (Client.Results resp).
Proof.
  rewrite <- (Exists_iff _ _ _ (fun r _ => search_row_panic_iff r)).
  rewrite <- mapM_panic_iff.
  unfold Cmd.searchCmd_RunE. rewrite not_json.
  destruct (Z.of_nat (List.length (Client.Results resp)) =? 0) eqn:E0.
  - rewrite (length_zero_nil _ E0). simpl. split; discriminate.
  - unfold IO.bindIO at 1 2. unfold Output.Text at 1, IO.print at 1, IO.eval.
    destruct (mapM Cmd.search_row (Client.Results resp)) as [rows|] eqn:M;
      [|simpl; tauto].
    split; [|discriminate]. intros H. exfalso. revert H.
    assert (F : Forall (fun r => 8 <= len (Client.sr_DeviceID r)) (Client.Results resp)).
    { apply not_Exists_lt_Forall_le. intros E.
      rewrite <- (Exists_iff _ _ _ (fun r _ => search_row_panic_iff r)) in E.
      apply mapM_panic_iff in E. congruence. }
    unfold Output.Table, IO.bindIO, IO.eval.
    destruct (Table_done ["ID"; "NAME"; "DOMAIN"; "TYPE"; "SCORE"] rows) as [t ->].
    unfold IO.print, IO.ret. cbv beta iota.
    destruct (_ && _).
    + unfold Output.Println, IO.print.
      match goal with
      | |- context [IO.forM_ ?f ?l ?o] =>
          pose proof (snippets_no_panic out l (Forall_firstn _ 3 _ F) o) as NP;
          destruct (IO.forM_ f l o) as [o2 [u|]]
      end; simpl in *; congruence.
    + simpl. discriminate.
Qed.

Lemma devices_list_panics (resp : Client.DevicesResponse) (o : string) :
  snd (Cmd.devicesListCmd_RunE encodeJSON out (Ok resp) o) = Panic
  <-> Exists (fun d => len (Client.dev_ID d) < 8) (Client.dev_Data resp).
Proof.
  rewrite <- (Exists_iff _ _ _ (fun d _ => devices_row_panic_iff d)).
  rewrite <- mapM_panic_iff.
  unfold Cmd.devicesListCmd_RunE. rewrite not_json.
  destruct (Z.of_nat (List.length (Client.dev_Data resp)) =? 0) eqn:E0.
  - rewrite (length_zero_nil _ E0). simpl. split; discriminate.
  - unfold IO.bindIO at 1 2. unfold Output.Text at 1, IO.print at 1, IO.eval.
    destruct (mapM Cmd.devices_row (Client.dev_Data resp)) as [rows|] eqn:M;
      [|simpl; tauto].
    split; [|discriminate].
    unfold Output.Table, IO.bindIO, IO.eval.
    destruct (Table_done ["ID"; "NAME"; "DOMAIN"; "TYPE"] rows) as [t ->].
    unfold Output.Text, IO.print, IO.ret. cbv beta iota.
    destruct (_ <? _); simpl; discriminate.
Qed.

Lemma documents_list_panics (resp : Client.DocumentsResponse) (o : string) :
  Forall (fun d => int64_range (Client.doc_SizeBytes d)) (Client.doc_Data resp) ->
  snd (Cmd.documentsListCmd_RunE encodeJSON out (Ok resp) o) = Panic
  <-> Exists (fun d => len (Client.doc_ID d) < 8) (Client.doc_Data resp).
Proof.
  intros R.
  rewrite <- (Exists_iff (fun d => Cmd.documents_row d = Panic)).
  2:{ intros d Hd. apply documents_row_panic_iff.
      rewrite Forall_forall in R. now apply R. }
  rewrite <- mapM_panic_iff.
  unfold Cmd.documentsListCmd_RunE. rewrite not_json.
  destruct (Z.of_nat (List.length (Client.doc_Data resp)) =? 0) eqn:E0.
  - rewrite (length_zero_nil _ E0). simpl. split; discriminate.
  - unfold IO.bindIO at 1 2. unfold Output.Text at 1, IO.print at 1, IO.eval.
    destruct (mapM Cmd.documents_row (Client.doc_Data resp)) as [rows|] eqn:M;
      [|simpl; tauto].
    split; [|discriminate].
    unfold Output.Table, IO.bindIO, IO.eval.
    destruct (Table_done ["ID"; "FILENAME"; "TYPE"; "SIZE"] rows) as [t ->].
    unfold Output.Text, IO.print, IO.ret. cbv beta iota.
    destruct (_ <? _); simpl; discriminate.
Qed.

Lemma documents_get_panics (doc : Client.Document) (o : string) :
  int64_range (Client.doc_SizeBytes doc) ->
  snd (Cmd.documentsGetCmd_RunE encodeJSON out (Ok doc) o) = Panic
  <-> len (Client.doc_Checksum doc) < 16.
Proof.
  intros R. rewrite <- (slice_to_panic_iff _ 16) by lia.
  unfold Cmd.documentsGetCmd_RunE. rewrite not_json.
  unfold IO.bindIO, Output.Text, IO.print, IO.eval, IO.ret.
  destruct (FormatSize_done _ R) as [z ->].
  destruct (slice_to (Client.doc_Checksum doc) 16); simpl; [|tauto].
  split; discriminate.
Qed.

End Panics.

(** C9. Outside JSON mode the list and get commands slice ids and
    checksums unguarded: [search] and [devices list] panic exactly when a
    result has an id shorter than eight bytes, [documents list] likewise,
    and [documents get] exactly when the checksum is shorter than sixteen
    bytes; a panic, not a returned error. *)
Theorem rendering_panics_iff_short
        (encodeJSON : forall A : Type, A -> string * option string)
        (out : Output.Writer) (outputFormat : string) :
  Output.IsJSON out = false ->
  (forall (resp : Client.SearchResponse) (o : string),
      snd (Cmd.searchCmd_RunE encodeJSON out outputFormat (Ok resp) o) = Panic
      <-> Exists (fun r => len (Client.sr_DeviceID r) < 8) (Client.Results resp)) /\
  (forall (resp : Client.DevicesResponse) (o : string),
      snd (Cmd.devicesListCmd_RunE encodeJSON out (Ok resp) o) = Panic
      <-> Exists (fun d => len (Client.dev_ID d) < 8) (Client.dev_Data resp)) /\
  (forall (resp : Client.DocumentsResponse) (o : string),
      Forall (fun d => int64_range (Client.doc_SizeBytes d)) (Client.doc_Data resp) ->
      (snd (Cmd.documentsListCmd_RunE encodeJSON out (Ok resp) o) = Panic
       <-> Exists (fun d => len (Client.doc_ID d) < 8) (Client.doc_Data resp))) /\
  (forall (doc : Client.Document) (o : string),
      int64_range (Client.doc_SizeBytes doc) ->
      (snd (Cmd.documentsGetCmd_RunE encodeJSON out (Ok doc) o) = Panic
       <-> len (Client.doc_Checksum doc) < 16)).
Proof.
  intros HJ.
  split; [intros; now apply search_panics|].
  split; [intros; now apply devices_list_panics|].
  split; [intros; now apply documents_list_panics|].
  intros; now apply documents_get_panics.
Qed.

Lemma rendering_panics_iff_short_witness :
  let out := Output.New (fun s => s) "table" in
  let encodeJSON : forall A : Type, A -> string * option string :=
    fun _ _ => ("", None) in
  let device := Client.mkDevice "abc" "hardware" "dev-boards" "ESP32 Dev Board"
                                "hardware/esp32" "" [] "2025-12-01T00:00:00Z" in
  Output.IsJSON out = false /\
  snd (Cmd.devicesListCmd_RunE encodeJSON out
         (Ok (Client.mkDevicesResponse [device] 1 50 0)) "") = Panic.
Proof.
  intros out encodeJSON device.
  split; [reflexivity|].
  apply (proj1 (proj2 (rendering_panics_iff_short encodeJSON out "" eq_refl))).
  constructor. vm_compute. reflexivity.
Defined.

(* ================================================================== *)
(** * Further properties: the helpers of [output.go]                   *)
(* ================================================================== *)

(** What [Truncate] returns is never longer than a non-negative bound. *)
Lemma Truncate_length (s : string) (maxLen : Z) (r : string) :
  0 <= maxLen -> Output.Truncate s maxLen = Done r -> len r <= maxLen.
Proof.
  intros Hn. unfold Output.Truncate.
  destruct (Z.leb_spec (len s) maxLen) as [Hs|Hs].
  - intros E. injection E as <-. exact Hs.
  - destruct (Z.leb_spec maxLen 3).
    + rewrite slice_to_done by lia. intros E. injection E as <-.
      unfold len in *. rewrite length_substring; lia.
    + rewrite slice_to_done by lia. simpl. intros E. injection E as <-.
      unfold len in *. rewrite length_append, length_substring; simpl; lia.
Qed.

Lemma Truncate_negative (s : string) (maxLen : Z) :
  maxLen < 0 -> Output.Truncate s maxLen = Panic.
Proof.
  intros Hn. unfold Output.Truncate.
  assert (0 <= len s) by (unfold len; lia).
  destruct (Z.leb_spec (len s) maxLen); [lia|].
  destruct (Z.leb_spec maxLen 3); [|lia].
  apply slice_panic. lia.
Qed.

(** X1. [Truncate] with a negative bound panics on every string, the
    empty one included: no string is short enough to be returned as it
    is, and [s[:maxLen]] is out of range. For a bound that is not
    negative it returns. *)
Theorem Truncate_negative_bound_panics (s : string) (maxLen : Z) :
  maxLen < 0 <-> Output.Truncate s maxLen = Panic.
Proof.
  split; [apply Truncate_negative|].
  intros E. destruct (Z.lt_ge_cases maxLen 0) as [Hn|Hn]; [exact Hn|].
  destruct (Truncate_done s maxLen Hn) as [r Er]. congruence.
Qed.


(** X2. Truncating twice with the same bound is truncating once: a
    truncated string fits its bound, and a panic stays a panic. *)
Theorem Truncate_idempotent (s : string) (maxLen : Z) :
  (r <- Output.Truncate s maxLen ;; Output.Truncate r maxLen)
  = Output.Truncate s maxLen.
Proof.
  destruct (Z.lt_ge_cases maxLen 0) as [Hn|Hn].
  - rewrite Truncate_negative by exact Hn. reflexivity.
  - destruct (Truncate_done s maxLen) as [r E]; [lia|].
    rewrite E. simpl.
    assert (L : len r <= maxLen) by (apply (Truncate_length s); [lia | exact E]).
    unfold Output.Truncate.
    destruct (Z.leb_spec (len r) maxLen); [reflexivity | lia].
Qed.

(** [strings.ToLower] leaves the three format names as they are. *)
Lemma ToLower_format_names (u : string -> string) :
  Strings.ToLower u Output.FormatJSON = Output.FormatJSON /\
  Strings.ToLower u Output.FormatText = Output.FormatText /\
  Strings.ToLower u Output.FormatTable = Output.FormatTable.
Proof. repeat split. Qed.

(** X3. Whatever string [New] is given, the writer it returns holds one
    of the three format names; it is a JSON writer exactly when the
    string lower-cases to [json]; and building a writer from the format
    of a writer gives that writer back. *)
Theorem New_format_is_recognized (unicodeToLower : string -> string) (format : string) :
  let w := Output.New unicodeToLower format in
  (Output.Format_of w = Output.FormatTable \/
   Output.Format_of w = Output.FormatJSON \/
   Output.Format_of w = Output.FormatText) /\
  (Output.IsJSON w = true <-> Strings.ToLower unicodeToLower format = "json") /\
  (Output.Format_of w = Output.FormatText
   <-> Strings.ToLower unicodeToLower format = "text") /\
  Output.New unicodeToLower (Output.Format_of w) = w.
Proof.
  unfold Output.New, Output.Format_of, Output.IsJSON. cbn [Output.format].
  destruct (String.eqb_spec (Strings.ToLower unicodeToLower format) Output.FormatJSON)
    as [EJ|NJ].
  - rewrite EJ. cbn [orb]. repeat split; auto; try discriminate.
  - destruct (String.eqb_spec (Strings.ToLower unicodeToLower format) Output.FormatText)
      as [ET|NT].
    + rewrite ET. cbn [orb]. repeat split; auto; try discriminate.
    + cbn [orb]. repeat split; auto; try discriminate; try contradiction.
Qed.

Lemma lower_byte_ascii (c : ascii) :
  (code c <? 128) = true -> (code (Strings.lower_byte c) <? 128) = true.
Proof.
  unfold Strings.lower_byte. intros H.
  destruct ((65 <=? code c) && (code c <=? 90)) eqn:E; [|exact H].
  apply andb_true_iff in E. destruct E as [E1 E2].
  apply Z.leb_le in E1, E2. apply Z.ltb_lt in H.
  unfold code, byte_of. rewrite N_ascii_embedding.
  - apply Z.ltb_lt. unfold code in *. lia.
  - unfold code in *. lia.
Qed.

Lemma lower_byte_idempotent (c : ascii) :
  Strings.lower_byte (Strings.lower_byte c) = Strings.lower_byte c.
Proof.
  destruct c as [[] [] [] [] [] [] [] []]; reflexivity.
Qed.

Lemma ToLower_idempotent_ascii (u : string -> string) (s : string) :
  Strings.isASCII s = true ->
  Strings.ToLower u (Strings.ToLower u s) = Strings.ToLower u s.
Proof.
  intros H. unfold Strings.ToLower. rewrite H.
  assert (A : Strings.isASCII (Strings.map_bytes Strings.lower_byte s) = true).
  { unfold Strings.isASCII in *. induction s as [|c s IH]; [reflexivity|].
    simpl in *. apply andb_true_iff in H. destruct H as [Hc Hs].
    rewrite (lower_byte_ascii c Hc). simpl. apply IH. exact Hs. }
  rewrite A. clear. induction s as [|c s IH]; [reflexivity|].
  cbn [Strings.map_bytes]. now rewrite lower_byte_idempotent, IH.
Qed.

(** X4. [New] does not tell upper case from lower case in an ASCII
    format name: the name and its lower-case form give the same writer,
    so [JSON], [Json] and [json] all select JSON output. *)
Theorem New_ignores_ascii_case (unicodeToLower : string -> string) (format : string) :
  Strings.isASCII format = true ->
  Output.New unicodeToLower format
  = Output.New unicodeToLower (Strings.map_bytes Strings.lower_byte format) /\
  (Strings.map_bytes Strings.lower_byte format = "json" ->
   Output.IsJSON (Output.New unicodeToLower format) = true).
Proof.
  intros H.
  assert (E : Strings.ToLower unicodeToLower (Strings.map_bytes Strings.lower_byte format)
              = Strings.ToLower unicodeToLower format).
  { pose proof (ToLower_idempotent_ascii unicodeToLower format H) as I.
    unfold Strings.ToLower in I at 2. rewrite H in I. exact I. }
  split.
  - unfold Output.New. rewrite E. reflexivity.
  - intros L. unfold Output.New, Output.IsJSON, Strings.ToLower. rewrite H, L.
    reflexivity.
Qed.

Lemma New_ignores_ascii_case_witness :
  Strings.isASCII "JSON" = true /\
  Output.IsJSON (Output.New (fun s => s) "JSON") = true.
Proof.
  split; [reflexivity|].
  apply (proj2 (New_ignores_ascii_case (fun s => s) "JSON" eq_refl)). reflexivity.
Defined.

(** Two powers of 1024 that bracket the same number are the same. *)
Lemma unit_power_unique (x a b : Z) :
  0 <= a -> 0 <= b ->
  1024 ^ (a + 1) <= x < 1024 ^ (a + 2) ->
  1024 ^ (b + 1) <= x < 1024 ^ (b + 2) ->
  a = b.
Proof.
  intros Ha Hb Xa Xb.
  destruct (Z.lt_trichotomy a b) as [L|[E|L]]; [|exact E|].
  - assert (1024 ^ (a + 2) <= 1024 ^ (b + 1)) by (apply Z.pow_le_mono_r; lia). lia.
  - assert (1024 ^ (b + 2) <= 1024 ^ (a + 1)) by (apply Z.pow_le_mono_r; lia). lia.
Qed.

(** X5. [FormatSize] picks the unit before it rounds: a size less than a
    twentieth of a unit below the next power of 1024 is printed as
    [1024.0] of the smaller unit, not as [1.0] of the larger one (up to
    the terabyte, where the division is still exact). *)
Theorem FormatSize_prints_1024 (bytes k : Z) :
  0 <= k <= 3 ->
  bytes < 1024 ^ (k + 2) ->
  20 * (1024 ^ (k + 2) - bytes) <= 1024 ^ (k + 1) ->
  exists c : ascii,
    index "KMGTPE" k = Done c /\
    Output.FormatSize bytes = Done ("1024.0 " ++ String c "B").
Proof.
  intros Hk Hlt Hnear.
  assert (P1 : 1024 ^ (k + 2) = 1024 * 1024 ^ (k + 1)).
  { replace (k + 2) with (1 + (k + 1)) by lia. rewrite Z.pow_add_r by lia. reflexivity. }
  assert (P0 : 0 < 1024 ^ (k + 1)) by (apply Z.pow_pos_nonneg; lia).
  assert (P5 : 1024 ^ (k + 2) <= 1024 ^ 5) by (apply Z.pow_le_mono_r; lia).
  change (1024 ^ 5) with 1125899906842624 in P5.
  assert (Hb : 1024 ^ (k + 1) <= bytes < 1024 ^ (k + 2)) by lia.
  destruct (FormatSize_scaled bytes) as (k' & c & Hk' & Hb' & Hc & HF).
  { unfold int64_range. change (2 ^ 63) with 9223372036854775808. lia. }
  { assert (1024 ^ 1 <= 1024 ^ (k + 1)) by (apply Z.pow_le_mono_r; lia).
    change (1024 ^ 1) with 1024 in *. lia. }
  assert (k' = k) by (apply (unit_power_unique bytes); lia). subst k'.
  exists c. split; [exact Hc|].
  rewrite HF. rewrite FormatSize_number_exact.
    2: lia.
    2: { change (2 ^ 53) with 9007199254740992. lia. }
    cbv zeta.
    assert (T : F64.rne (bytes * 10) (1024 ^ (k + 1)) = 10240).
    { unfold F64.rne.
      set (d := 1024 ^ (k + 1)) in *.
      assert (Q : bytes * 10 / d = 10239).
      { symmetry. apply (Z.div_unique_pos _ _ _ (bytes * 10 - 10239 * d)); lia. }
      assert (M : (bytes * 10) mod d = bytes * 10 - 10239 * d).
      { rewrite Z.mod_eq by lia. rewrite Q. lia. }
      rewrite Q, M.
      destruct (Z.ltb_spec (2 * (bytes * 10 - 10239 * d)) d); [lia|].
      destruct (Z.ltb_spec d (2 * (bytes * 10 - 10239 * d))); reflexivity. }
    rewrite T. reflexivity.
Qed.

Lemma FormatSize_prints_1024_witness :
  0 <= 0 <= 3 /\
  1048575 < 1024 ^ (0 + 2) /\
  20 * (1024 ^ (0 + 2) - 1048575) <= 1024 ^ (0 + 1) /\
  Output.FormatSize 1048575 = Done "1024.0 KB".
Proof.
  assert (H1 : 0 <= 0 <= 3) by lia.
  assert (H2 : 1048575 < 1024 ^ (0 + 2)) by (vm_compute; reflexivity).
  assert (H3 : 20 * (1024 ^ (0 + 2) - 1048575) <= 1024 ^ (0 + 1))
    by (vm_compute; discriminate).
  split; [exact H1|]. split; [exact H2|]. split; [exact H3|].
  destruct (FormatSize_prints_1024 1048575 0 H1 H2 H3) as (c & Hc & E).
  vm_compute in Hc. injection Hc as <-. exact E.
Defined.

(* ================================================================== *)
(** * Further properties: the requests of [client.go]                  *)
(* ================================================================== *)

(** [ListDocuments] builds the path [Spec.documents_path] describes. *)
Lemma ListDocuments_path_spec (limit offset : Z) (deviceID : string) :
  Client.ListDocuments_path limit offset deviceID
  = Spec.documents_path limit offset deviceID.
Proof.
  unfold Spec.documents_path. rewrite !param_escaped.
  unfold Client.ListDocuments_path, Spec.param, Spec.path_with.
  generalize (itoa limit) (itoa offset). intros L O.
  destruct (0 <? limit), (0 <? offset), (String.eqb deviceID ""); reflexivity.
Qed.

(** The path [Search] passes to [get]. *)
Lemma Search_path_spec (query : string) (limit : Z) :
  (let params := URL.Set_ URL.empty "q" query in
   let params := if 0 <? limit then URL.Set_ params "limit" (itoa limit) else params in
   "/search?" ++ URL.Encode params)
  = Spec.search_path query limit.
Proof.
  unfold Spec.search_path. cbv zeta.
  destruct (Z.ltb_spec 0 limit) as [H|H]; [|reflexivity].
  rewrite <- (QueryEscape_itoa limit H) at 2. rewrite !append_assoc. reflexivity.
Qed.

Lemma append_inv_head (a b c : string) : a ++ b = a ++ c -> b = c.
Proof.
  induction a as [|x a IH]; simpl; [tauto|]. intros E. injection E as E. now apply IH.
Qed.

(** Every byte [url.QueryEscape] writes is a letter, a digit or one of
    [- _ . ~ % +], and the escaped text can be read back. *)
Lemma QueryEscape_bytes (s : string) :
  forallb Spec.query_byte (bytes (URL.QueryEscape s)) = true /\
  Spec.unescape (URL.QueryEscape s) = s.
Proof.
  induction s as [|c s [IH1 IH2]]; [split; reflexivity|].
  destruct c as [[] [] [] [] [] [] [] []];
    cbn [URL.QueryEscape]; cbv beta iota zeta;
    match goal with
    | |- context [if ?b then _ else _] =>
        let v := eval vm_compute in b in change b with v
    end; cbv beta iota;
    try match goal with
    | |- context [if ?b then _ else _] =>
        let v := eval vm_compute in b in change b with v
    end; cbv beta iota;
    (split;
     [ cbn [bytes forallb];
       repeat match goal with
       | |- context [Spec.query_byte ?c] =>
           let v := eval vm_compute in (Spec.query_byte c) in
           change (Spec.query_byte c) with v
       end; cbn [andb]; exact IH1
     | cbn [Spec.unescape];
       repeat match goal with
       | |- context [if ?b then _ else _] =>
           let v := eval vm_compute in b in change b with v; cbv beta iota
       end;
       rewrite IH2; vm_compute; reflexivity ]).
Qed.

Section Operations.

Variable parseURL : string -> option string.
Variable Do : HTTP.Request -> result HTTP.Response.
Variable decodeResult : forall A : Type, HTTP.Body -> result A.

(** What [get] sends, if it sends anything. *)
Lemma get_request (A : Type) (c : Client.Client) (path : string) :
  fst (Client.get parseURL Do decodeResult (A := A) c path) = [] \/
  fst (Client.get parseURL Do decodeResult (A := A) c path)
  = [HTTP.mkRequest "GET" (Client.baseURL c ++ "/api/" ++ Client.APIVersion ++ path)
                    [("X-Api-Key", [Client.apiKey c])]].
Proof.
  unfold Client.get, Client.NewRequest.
  destruct (parseURL _); simpl; [now left|]. right.
  destruct (Do _) as [resp|e]; simpl; [|reflexivity].
  destruct (negb _); simpl; [reflexivity|].
  destruct (decodeResult A _); reflexivity.
Qed.

Lemma get_url (A : Type) (c : Client.Client) (path : string) (r : HTTP.Request) :
  In r (fst (Client.get parseURL Do decodeResult (A := A) c path)) ->
  HTTP.Method r = "GET" /\
  HTTP.Url r = Client.baseURL c ++ "/api/" ++ Client.APIVersion ++ path.
Proof.
  destruct (get_request A c path) as [E|E]; rewrite E; simpl; [tauto|].
  intros [<-|[]]. split; reflexivity.
Qed.

Lemma get_tries_once (A : Type) (c : Client.Client) (path : string) :
  Spec.tries_once Do (Client.get parseURL Do decodeResult (A := A) c path).
Proof.
  unfold Spec.tries_once, Client.get, Client.NewRequest.
  destruct (parseURL _) as [e0|]; simpl.
  - split; [lia|]. split; [discriminate|]. intros _. now exists e0.
  - destruct (Do _) as [resp|e] eqn:ED; simpl.
    + destruct (negb _); simpl.
      * split; [lia|]. split; [|discriminate].
        intros r e E. injection E as <-. unfold Client.set_header. simpl.
        unfold Client.set_header in ED. simpl in ED. congruence.
      * destruct (decodeResult A _); simpl;
          (split; [lia|]; split; [|discriminate];
           intros r e E; injection E as <-; unfold Client.set_header; simpl;
           unfold Client.set_header in ED; simpl in ED; congruence).
    + split; [lia|]. split; [|discriminate].
      intros r e' E. injection E as <-. unfold Client.set_header. simpl.
      unfold Client.set_header in ED. simpl in ED. congruence.
Qed.

Lemma DownloadDocument_tries_once (c : Client.Client) (id : string) :
  Spec.tries_once Do (Client.DownloadDocument parseURL Do c id).
Proof.
  unfold Spec.tries_once, Client.DownloadDocument, Client.NewRequest.
  destruct (parseURL _) as [e0|]; simpl.
  - split; [lia|]. split; [discriminate|]. intros _. now exists e0.
  - destruct (Do _) as [resp|e] eqn:ED; simpl.
    + destruct (negb _); simpl;
        (split; [lia|]; split; [|discriminate];
         intros r e E; injection E as <-; unfold Client.set_header; simpl;
         unfold Client.set_header in ED; simpl in ED; congruence).
    + split; [lia|]. split; [|discriminate].
      intros r e' E. injection E as <-. unfold Client.set_header. simpl.
      unfold Client.set_header in ED. simpl in ED. congruence.
Qed.

End Operations.

(** X6. Every request [ListDocuments] sends is a GET of
    [/documents] with the parameters sorted by key
    ([device_id], [limit], [offset]); a limit or offset is left out
    exactly when it is not positive, the device identifier exactly when
    it is empty, and with nothing to send there is no question mark. *)
Theorem ListDocuments_query
        (parseURL : string -> option string)
        (Do : HTTP.Request -> result HTTP.Response)
        (decodeResult : forall A : Type, HTTP.Body -> result A)
        (c : Client.Client) (limit offset : Z) (deviceID : string)
        (r : HTTP.Request) :
  In r (fst (Client.ListDocuments parseURL Do decodeResult c limit offset deviceID)) ->
  HTTP.Method r = "GET" /\
  HTTP.Url r = Client.baseURL c ++ "/api/" ++ Client.APIVersion
               ++ Spec.documents_path limit offset deviceID /\
  (limit <= 0 -> offset <= 0 -> deviceID = "" ->
   HTTP.Url r = Client.baseURL c ++ "/api/" ++ Client.APIVersion ++ "/documents") /\
  Spec.documents_path 20 40 "abc12345" = "/documents?device_id=abc12345&limit=20&offset=40" /\
  Spec.documents_path 0 40 "" = "/documents?offset=40" /\
  Spec.documents_path (-5) 0 "" = "/documents".
Proof.
  intros H. unfold Client.ListDocuments in H. apply get_url in H.
  destruct H as [HM HU]. rewrite ListDocuments_path_spec in HU.
  split; [exact HM|]. split; [exact HU|]. split; [|repeat split].
  intros Hl Ho ->. rewrite HU. unfold Spec.documents_path, Spec.param.
  destruct (Z.ltb_spec 0 limit); [lia|]. destruct (Z.ltb_spec 0 offset); [lia|].
  reflexivity.
Qed.

Lemma ListDocuments_query_witness :
  let c := Client.New "http://localhost:8080" "k" in
  let r := HTTP.mkRequest "GET"
             "http://localhost:8080/api/2025.12/documents?device_id=abc12345&limit=20"
             [("X-Api-Key", ["k"])] in
  In r (fst (Client.ListDocuments (fun _ => None) (fun _ => Err "connection refused")
                                  (fun _ _ => Err "not decoded") c 20 0 "abc12345")) /\
  HTTP.Url r = Client.baseURL c ++ "/api/" ++ Client.APIVersion
               ++ Spec.documents_path 20 0 "abc12345".
Proof.
  intros c r.
  assert (H : In r (fst (Client.ListDocuments (fun _ => None)
                           (fun _ => Err "connection refused")
                           (fun _ _ => Err "not decoded") c 20 0 "abc12345")))
    by (left; reflexivity).
  split; [exact H|].
  exact (proj1 (proj2 (ListDocuments_query _ _ _ c 20 0 "abc12345" r H))).
Defined.

(** X7. Every request [Search] sends is a GET of [/search] whose query
    string is [q=] and the escaped query, preceded by [limit=N&] exactly
    when the limit is positive. The escaped query consists of letters,
    digits and [- _ . ~ % +] only, so that nothing in the user's text can
    end the parameter or begin another; an empty query is not refused
    but sent as [q=]. *)
Theorem Search_query
        (parseURL : string -> option string)
        (Do : HTTP.Request -> result HTTP.Response)
        (decodeResult : forall A : Type, HTTP.Body -> result A)
        (c : Client.Client) (query : string) (limit : Z) (r : HTTP.Request) :
  In r (fst (Client.Search parseURL Do decodeResult c query limit)) ->
  HTTP.Method r = "GET" /\
  HTTP.Url r = Client.baseURL c ++ "/api/" ++ Client.APIVersion
               ++ Spec.search_path query limit /\
  forallb Spec.query_byte (bytes (URL.QueryEscape query)) = true /\
  Spec.search_path "" 0 = "/search?q=" /\
  Spec.search_path "uart protocol" 5 = "/search?limit=5&q=uart+protocol" /\
  Spec.search_path "a&b=c#d" (-1) = "/search?q=a%26b%3Dc%23d".
Proof.
  intros H. unfold Client.Search in H. apply get_url in H.
  destruct H as [HM HU]. rewrite Search_path_spec in HU.
  split; [exact HM|]. split; [exact HU|].
  split; [apply QueryEscape_bytes|]. repeat split.
Qed.

Lemma Search_query_witness :
  let c := Client.New "http://localhost:8080" "k" in
  let r := HTTP.mkRequest "GET"
             "http://localhost:8080/api/2025.12/search?limit=5&q=uart+protocol"
             [("X-Api-Key", ["k"])] in
  In r (fst (Client.Search (fun _ => None) (fun _ => Err "connection refused")
                           (fun _ _ => Err "not decoded") c "uart protocol" 5)) /\
  HTTP.Url r = Client.baseURL c ++ "/api/" ++ Client.APIVersion
               ++ Spec.search_path "uart protocol" 5.
Proof.
  intros c r.
  assert (H : In r (fst (Client.Search (fun _ => None) (fun _ => Err "connection refused")
                           (fun _ _ => Err "not decoded") c "uart protocol" 5)))
    by (left; reflexivity).
  split; [exact H|].
  exact (proj1 (proj2 (Search_query _ _ _ c "uart protocol" 5 r H))).
Defined.

(** X8. Two searches with the same limit that send the same request
    asked for the same query: escaping loses nothing of the user's
    text. *)
Theorem Search_request_determines_query
        (parseURL : string -> option string)
        (Do : HTTP.Request -> result HTTP.Response)
        (decodeResult : forall A : Type, HTTP.Body -> result A)
        (c : Client.Client) (query1 query2 : string) (limit : Z) (r : HTTP.Request) :
  In r (fst (Client.Search parseURL Do decodeResult c query1 limit)) ->
  In r (fst (Client.Search parseURL Do decodeResult c query2 limit)) ->
  query1 = query2.
Proof.
  intros H1 H2. unfold Client.Search in H1, H2.
  apply get_url in H1. apply get_url in H2.
  destruct H1 as [_ U1]. destruct H2 as [_ U2].
  rewrite Search_path_spec in U1, U2. rewrite U1 in U2. clear U1.
  unfold Spec.search_path in U2.
  repeat (apply append_inv_head in U2).
  rewrite <- (proj2 (QueryEscape_bytes query1)), <- (proj2 (QueryEscape_bytes query2)).
  now rewrite U2.
Qed.

Lemma Search_request_determines_query_witness :
  let c := Client.New "http://localhost:8080" "k" in
  let r := HTTP.mkRequest "GET"
             "http://localhost:8080/api/2025.12/search?q=i2c+%26+spi"
             [("X-Api-Key", ["k"])] in
  let sent (query : string) :=
    fst (Client.Search (fun _ => None) (fun _ => Err "connection refused")
                       (fun _ _ => Err "not decoded") c query 0) in
  In r (sent "i2c & spi") /\ In r (sent "i2c & spi") /\ "i2c & spi" = "i2c & spi".
Proof.
  intros c r sent.
  assert (H : In r (sent "i2c & spi")) by (left; reflexivity).
  split; [exact H|]. split; [exact H|].
  exact (Search_request_determines_query _ _ _ c _ _ 0 r H H).
Defined.

(** X9. [get] takes every status other than 200 for a failure, the
    other 2xx codes among them: it never returns the decoded value, what
    it returns is an [API error] with that status, and with an empty body
    the message is empty. *)
Theorem get_accepts_only_200
        (parseURL : string -> option string)
        (Do : HTTP.Request -> result HTTP.Response)
        (decodeResult : forall A : Type, HTTP.Body -> result A)
        (A : Type) (c : Client.Client) (path : string) (resp : HTTP.Response) :
  (forall u, parseURL u = None) ->
  (forall r, Do r = Ok resp) ->
  HTTP.StatusCode resp <> 200 ->
  let returned := snd (Client.get parseURL Do decodeResult (A := A) c path) in
  (forall v : A, returned <> Done (Ok v)) /\
  (forall x, returned = Done x ->
             exists message, x = Err (Client.APIError (HTTP.StatusCode resp) message)) /\
  (HTTP.RespBody resp = [] ->
   returned = Done (Err (Client.APIError (HTTP.StatusCode resp) ""))).
Proof.
  intros HP HD HS. unfold Client.get, Client.NewRequest. rewrite HP, HD.
  unfold HTTP.StatusOK.
  destruct (Z.eqb_spec (HTTP.StatusCode resp) 200) as [|_]; [contradiction|].
  cbn [negb snd].
  split; [|split].
  - intros v. destruct (JSON.Decode _) as [d|]; cbn [bind]; [|discriminate].
    destruct (JSON.failed d); discriminate.
  - intros x. destruct (JSON.Decode _) as [d|]; cbn [bind]; [|discriminate].
    destruct (JSON.failed d); intros E; injection E as <-; eexists; reflexivity.
  - intros ->. reflexivity.
Qed.

Lemma get_accepts_only_200_witness :
  let resp := HTTP.mkResponse 204 [] [] in
  (forall u : string, (fun _ : string => @None string) u = None) /\
  (forall r, (fun _ : HTTP.Request => Ok resp) r = Ok resp) /\
  HTTP.StatusCode resp <> 200 /\
  snd (Client.get (fun _ => None) (fun _ => Ok resp) (fun _ _ => Err "not decoded")
                  (A := Client.Device) (Client.New "http://localhost:8080" "k")
                  "/devices/abc12345")
  = Done (Err "API error (204): ").
Proof.
  intros resp.
  assert (H1 : forall u : string, (fun _ : string => @None string) u = None)
    by reflexivity.
  assert (H2 : forall r, (fun _ : HTTP.Request => Ok resp) r = Ok resp) by reflexivity.
  assert (H3 : HTTP.StatusCode resp <> 200) by (simpl; lia).
  split; [exact H1|]. split; [exact H2|]. split; [exact H3|].
  exact (proj2 (proj2 (get_accepts_only_200 _ _ (fun _ _ => Err "not decoded")
                         Client.Device (Client.New "http://localhost:8080" "k")
                         "/devices/abc12345" resp H1 H2 H3)) eq_refl).
Defined.

(** X10. On a status other than 200 [DownloadDocument] reports the whole
    body, every block of it, as the message of the error: it reads the
    body with [io.ReadAll] before anything else touches it. [get], given
    the same response, reports only what its JSON decoder left unread
    when the body begins with a byte no JSON value begins with. *)
Theorem DownloadDocument_error_is_whole_body
        (parseURL : string -> option string)
        (Do : HTTP.Request -> result HTTP.Response)
        (decodeResult : forall A : Type, HTTP.Body -> result A)
        (c : Client.Client) (id : string) (resp : HTTP.Response) :
  (forall u, parseURL u = None) ->
  (forall r, Do r = Ok resp) ->
  HTTP.StatusCode resp <> 200 ->
  snd (Client.DownloadDocument parseURL Do c id)
  = Done (Err (Client.APIError (HTTP.StatusCode resp)
                               (String.concat "" (HTTP.RespBody resp)))) /\
  (forall (ch : ascii) (tail : string) (rest : HTTP.Body),
      HTTP.RespBody resp = String ch tail :: rest ->
      Spec.cannot_begin_value ch = true ->
      len (String ch tail) <= 512 ->
      snd (Client.GetDocument parseURL Do decodeResult c id)
      = Done (Err (Client.APIError (HTTP.StatusCode resp) (String.concat "" rest))) /\
      String.concat "" rest <> String.concat "" (HTTP.RespBody resp)).
Proof.
  intros HP HD HS. split.
  - unfold Client.DownloadDocument, Client.NewRequest. rewrite HP, HD.
    unfold HTTP.StatusOK.
    destruct (Z.eqb_spec (HTTP.StatusCode resp) 200) as [|_]; [contradiction|].
    reflexivity.
  - intros ch tail rest HB HC HL. unfold Client.GetDocument.
    exact (get_error_body_lost parseURL Do decodeResult Client.Document c
             ("/documents/" ++ id) resp ch tail rest HP HD HS HB HC HL).
Qed.

Lemma DownloadDocument_error_is_whole_body_witness :
  let resp := HTTP.mkResponse 404 [] ["not "; "found"] in
  (forall u : string, (fun _ : string => @None string) u = None) /\
  (forall r, (fun _ : HTTP.Request => Ok resp) r = Ok resp) /\
  HTTP.StatusCode resp <> 200 /\
  snd (Client.DownloadDocument (fun _ => None) (fun _ => Ok resp)
                               (Client.New "http://localhost:8080" "k") "d1")
  = Done (Err "API error (404): not found").
Proof.
  intros resp.
  assert (H1 : forall u : string, (fun _ : string => @None string) u = None)
    by reflexivity.
  assert (H2 : forall r, (fun _ : HTTP.Request => Ok resp) r = Ok resp) by reflexivity.
  assert (H3 : HTTP.StatusCode resp <> 200) by (simpl; lia).
  split; [exact H1|]. split; [exact H2|]. split; [exact H3|].
  exact (proj1 (DownloadDocument_error_is_whole_body _ _ (fun _ _ => Err "not decoded")
                  (Client.New "http://localhost:8080" "k") "d1" resp H1 H2 H3)).
Defined.

(** X11. No operation tries twice: each of the six hands the transport
    at most one request, returns an error of the transport on that
    request as [request failed: ...], and sends nothing only when the
    request could not be created. *)
Theorem operations_try_once
        (parseURL : string -> option string)
        (Do : HTTP.Request -> result HTTP.Response)
        (decodeResult : forall A : Type, HTTP.Body -> result A)
        (c : Client.Client) :
  (forall query limit,
      Spec.tries_once Do (Client.Search parseURL Do decodeResult c query limit)) /\
  (forall limit offset domain deviceType,
      Spec.tries_once Do (Client.ListDevices parseURL Do decodeResult c
                                             limit offset domain deviceType)) /\
  (forall id, Spec.tries_once Do (Client.GetDevice parseURL Do decodeResult c id)) /\
  (forall limit offset deviceID,
      Spec.tries_once Do (Client.ListDocuments parseURL Do decodeResult c
                                               limit offset deviceID)) /\
  (forall id, Spec.tries_once Do (Client.GetDocument parseURL Do decodeResult c id)) /\
  (forall id, Spec.tries_once Do (Client.DownloadDocument parseURL Do c id)).
Proof.
  split; [intros; apply get_tries_once|].
  split; [intros; apply get_tries_once|].
  split; [intros; apply get_tries_once|].
  split; [intros; apply get_tries_once|].
  split; [intros; apply get_tries_once|].
  intros. apply DownloadDocument_tries_once.
Qed.

(** X12. [GetDevice] and [GetDocument] put the identifier into the path
    as it is, neither checked nor escaped: the URL ends with the bytes of
    the identifier. An identifier that ends in [/download] therefore
    makes [GetDocument] send the very request [DownloadDocument] sends
    for the identifier without that ending. *)
Theorem identifiers_are_sent_verbatim
        (parseURL : string -> option string)
        (Do : HTTP.Request -> result HTTP.Response)
        (decodeResult : forall A : Type, HTTP.Body -> result A)
        (c : Client.Client) (id : string) :
  (forall r, In r (fst (Client.GetDevice parseURL Do decodeResult c id)) ->
             HTTP.Url r = Client.baseURL c ++ "/api/" ++ Client.APIVersion
                          ++ "/devices/" ++ id) /\
  (forall r, In r (fst (Client.GetDocument parseURL Do decodeResult c id)) ->
             HTTP.Url r = Client.baseURL c ++ "/api/" ++ Client.APIVersion
                          ++ "/documents/" ++ id) /\
  fst (Client.GetDocument parseURL Do decodeResult c (id ++ "/download"))
  = fst (Client.DownloadDocument parseURL Do c id).
Proof.
  split; [|split].
  - intros r H. unfold Client.GetDevice in H. now apply get_url in H.
  - intros r H. unfold Client.GetDocument in H. now apply get_url in H.
  - unfold Client.GetDocument, Client.DownloadDocument, Client.get, Client.NewRequest.
    destruct (parseURL _); [reflexivity|].
    destruct (Do _) as [resp|e]; [|reflexivity].
    destruct (negb _); [reflexivity|].
    cbn [fst]. destruct (decodeResult _ _); reflexivity.
Qed.

(* ================================================================== *)
(** * Further properties: the layout of [Table]                        *)
(* ================================================================== *)

Lemma append_empty_r (s : string) : s ++ "" = s.
Proof. induction s as [|c s IH]; simpl; [reflexivity | now rewrite IH]. Qed.

Lemma RuneCount_from_nonneg (p : list ascii) :
  forall skip, 0 <= Utf8.RuneCount_from skip p.
Proof.
  induction p as [|c p IH]; intros skip; [simpl; lia|].
  cbn [Utf8.RuneCount_from]. destruct skip as [|k]; [|apply IH].
  specialize (IH (snd (Utf8.DecodeRune (c :: p)) - 1)%nat). lia.
Qed.

Lemma RuneCount_nonneg (s : string) : 0 <= Utf8.RuneCount s.
Proof. apply RuneCount_from_nonneg. Qed.

(** Text without tabs and line ends only grows the segment being read. *)
Lemma Write_bytes_text (s : string) :
  Spec.cell_text s = true ->
  forall (b : Tabwriter.Writer) (seg : string) (rest : list ascii),
    Tabwriter.inEscape b = false ->
    Tabwriter.Write_bytes b seg (bytes s ++ rest)%list
    = Tabwriter.Write_bytes b (seg ++ s) rest.
Proof.
  induction s as [|c s IH]; intros H b seg rest Hb.
  - simpl. now rewrite append_empty_r.
  - unfold Spec.cell_text in H. cbn [bytes forallb] in H.
    apply andb_true_iff in H. destruct H as [Hc Hs].
    unfold Spec.cell_byte in Hc. apply negb_true_iff in Hc.
    apply orb_false_iff in Hc. destruct Hc as [Hsep Hesc].
    cbn [bytes app Tabwriter.Write_bytes]. rewrite Hb, Hsep, Hesc. cbn [negb].
    rewrite (IH Hs b _ rest Hb). rewrite append_assoc. reflexivity.
Qed.

Lemma Write_bytes_tab (ls : list (list Tabwriter.cell)) (w seg : string)
      (rest : list ascii) :
  Tabwriter.Write_bytes (Spec.idle ls w) seg (byte_of 9 :: rest)
  = Tabwriter.Write_bytes
      (Spec.idle (Tabwriter.add_to_last ls
                    (Tabwriter.mkCell seg (Utf8.RuneCount seg) true)) w) "" rest.
Proof. reflexivity. Qed.

Lemma flush_idle (ls : list (list Tabwriter.cell)) (w : string) :
  Tabwriter.flush (Spec.idle ls w)
  = (text <- Tabwriter.format (Tabwriter.max_cells ls) "" [] (Tabwriter.mark_last ls) ;;
     Done (Spec.idle [[]] (w ++ text))).
Proof. reflexivity. Qed.

Lemma Write_bytes_newline (ls : list (list Tabwriter.cell)) (w seg : string) :
  Tabwriter.Write_bytes (Spec.idle ls w) seg [byte_of 10]
  = let ls' := Tabwriter.add_to_last ls
                 (Tabwriter.mkCell seg (Utf8.RuneCount seg) false) in
    if Z.of_nat (List.length (last ls' [])) =? 1
    then Tabwriter.flush (Spec.idle (ls' ++ [[]]) w)
    else Done (Spec.idle (ls' ++ [[]]) w).
Proof.
  cbn [Tabwriter.Write_bytes]. cbv zeta.
  change (negb (Tabwriter.inEscape (Spec.idle ls w))) with true. cbv iota.
  change (code (byte_of 10) =? 9) with false.
  change (code (byte_of 10) =? 11) with false.
  change (code (byte_of 10) =? 10) with true.
  change (code (byte_of 10) =? 12) with false.
  cbn [orb]. cbv iota.
  unfold Tabwriter.terminateCell. cbv beta iota zeta.
  change (Tabwriter.lines (Tabwriter.updateWidth (Tabwriter.append (Spec.idle ls w) seg)))
    with ls.
  change (Tabwriter.ctext (Tabwriter.updateWidth (Tabwriter.append (Spec.idle ls w) seg)))
    with seg.
  change (Tabwriter.cwidth (Tabwriter.updateWidth (Tabwriter.append (Spec.idle ls w) seg)))
    with (Utf8.RuneCount seg).
  destruct (Z.of_nat _ =? 1).
  - rewrite flush_idle.
    change (Tabwriter.flush _)
      with (text <- Tabwriter.format
                      (Tabwriter.max_cells
                         (Tabwriter.add_to_last ls
                            (Tabwriter.mkCell seg (Utf8.RuneCount seg) false) ++ [[]]))
                      "" []
                      (Tabwriter.mark_last
                         (Tabwriter.add_to_last ls
                            (Tabwriter.mkCell seg (Utf8.RuneCount seg) false) ++ [[]])) ;;
            Done (Spec.idle [[]] (w ++ text))).
    destruct (Tabwriter.format _ _ _ _); reflexivity.
  - reflexivity.
Qed.

Lemma add_to_last_snoc (ls : list (list Tabwriter.cell)) (cur : list Tabwriter.cell)
      (c : Tabwriter.cell) :
  Tabwriter.add_to_last (ls ++ [cur]) c = (ls ++ [cur ++ [c]])%list.
Proof.
  induction ls as [|l ls IH]; [reflexivity|].
  cbn [app].
  destruct (ls ++ [cur])%list as [|l0 l1] eqn:E; [now destruct ls|].
  change (Tabwriter.add_to_last (l :: l0 :: l1) c)
    with (l :: Tabwriter.add_to_last (l0 :: l1) c).
  rewrite IH. reflexivity.
Qed.

Lemma length_cells_of (row : list string) :
  List.length (Spec.cells_of row) = Nat.max 1 (List.length row).
Proof.
  induction row as [|c [|d r] IH]; [reflexivity | reflexivity |].
  change (Spec.cells_of (c :: d :: r))
    with (Tabwriter.mkCell c (Utf8.RuneCount c) true :: Spec.cells_of (d :: r)).
  cbn [List.length] in *. lia.
Qed.

(** Writing one line of cells: the cells join the line being collected;
    a line of one cell is flushed at once. *)
Lemma Write_line (row : list string) :
  Forall (fun c => Spec.cell_text c = true) row ->
  forall (ls : list (list Tabwriter.cell)) (cur : list Tabwriter.cell) (w : string),
    Tabwriter.Fprintln (Spec.idle (ls ++ [cur])%list w) (Join row (String (byte_of 9) ""))
    = if Z.of_nat (List.length (cur ++ Spec.cells_of row)%list) =? 1
      then Tabwriter.flush (Spec.idle (ls ++ [cur ++ Spec.cells_of row] ++ [[]])%list w)
      else Done (Spec.idle (ls ++ [cur ++ Spec.cells_of row] ++ [[]])%list w).
Proof.
  unfold Tabwriter.Fprintln, Tabwriter.Write.
  induction row as [|c [|d r] IH]; intros H ls cur w.
  - cbn [Join append bytes]. rewrite Write_bytes_newline. cbv zeta.
    rewrite add_to_last_snoc, last_last. cbn [Spec.cells_of].
    change (Utf8.RuneCount "") with 0. rewrite <- !app_assoc. reflexivity.
  - cbn [Join]. rewrite bytes_app.
    rewrite Write_bytes_text; [|now inversion H | reflexivity].
    cbn [append bytes]. rewrite Write_bytes_newline. cbv zeta.
    rewrite add_to_last_snoc, last_last. cbn [Spec.cells_of].
    rewrite <- !app_assoc. reflexivity.
  - change (Join (c :: d :: r) (String (byte_of 9) ""))
      with (c ++ String (byte_of 9) "" ++ Join (d :: r) (String (byte_of 9) "")).
    rewrite append_assoc, bytes_app.
    rewrite Write_bytes_text; [|now inversion H | reflexivity].
    cbn [append bytes]. rewrite Write_bytes_tab, add_to_last_snoc.
    rewrite (IH ltac:(now inversion H) ls
                (cur ++ [Tabwriter.mkCell c (Utf8.RuneCount c) true])%list w).
    change (Spec.cells_of (c :: d :: r))
      with (Tabwriter.mkCell c (Utf8.RuneCount c) true :: Spec.cells_of (d :: r)).
    rewrite <- !app_assoc. reflexivity.
Qed.

(** Rows of two cells or more gather in the buffer. *)
Lemma Write_rows (rows : list (list string)) :
  Forall (fun row => (2 <= List.length row)%nat /\
                     Forall (fun c => Spec.cell_text c = true) row) rows ->
  forall (ls : list (list Tabwriter.cell)) (w : string),
    fold_left
      (fun (t : outcome Tabwriter.Writer) (row : list string) =>
         t' <- t ;; Tabwriter.Fprintln t' (Join row (String (byte_of 9) "")))
      rows (Done (Spec.idle (ls ++ [[]])%list w))
    = Done (Spec.idle (ls ++ map Spec.cells_of rows ++ [[]])%list w).
Proof.
  induction rows as [|row rows IH]; intros H ls w; [reflexivity|].
  inversion H as [|? ? [Hlen Hrow] Hrest]; subst.
  cbn [fold_left bind]. rewrite (Write_line row Hrow ls [] w).
  cbn [app]. rewrite length_cells_of.
  destruct (Z.eqb_spec (Z.of_nat (Nat.max 1 (List.length row))) 1) as [E|_]; [lia|].
  change (ls ++ Spec.cells_of row :: [[]])%list
    with (ls ++ [Spec.cells_of row] ++ [[]])%list.
  rewrite app_assoc. rewrite (IH Hrest). cbn [map]. rewrite <- app_assoc. reflexivity.
Qed.

(** The column blocks of lines that all have the column, followed by
    lines that do not. *)
Lemma blocks_from_column (column : nat) (ls : list Tabwriter.bufline) :
  (forall l, In l ls -> Tabwriter.has_column column l = true) ->
  forall (acc rest : list Tabwriter.bufline),
    (forall l, In l rest -> Tabwriter.has_column column l = false) ->
    Tabwriter.blocks_from column true acc (ls ++ rest)
    = (true, rev acc ++ ls)%list
      :: match rest with [] => [] | _ => [(false, rest)] end.
Proof.
  induction ls as [|l ls IH]; intros H acc rest Hrest.
  - cbn [app]. rewrite app_nil_r. destruct rest as [|r rest]; [reflexivity|].
    cbn [Tabwriter.blocks_from]. rewrite (Hrest r (or_introl eq_refl)). cbn [Bool.eqb].
    rewrite blocks_from_no_column; [reflexivity|].
    intros l Hl. apply Hrest. now right.
  - cbn [app Tabwriter.blocks_from]. rewrite (H l (or_introl eq_refl)). cbn [Bool.eqb].
    rewrite IH; [|intros x Hx; apply H; now right | exact Hrest].
    cbn [rev]. rewrite <- app_assoc. reflexivity.
Qed.

Lemma blocks_column_then_rest (column : nat) (l : Tabwriter.bufline)
      (ls rest : list Tabwriter.bufline) :
  (forall x, In x (l :: ls) -> Tabwriter.has_column column x = true) ->
  (forall x, In x rest -> Tabwriter.has_column column x = false) ->
  Tabwriter.blocks column ((l :: ls) ++ rest)
  = (true, l :: ls) :: match rest with [] => [] | _ => [(false, rest)] end.
Proof.
  intros H Hrest. unfold Tabwriter.blocks.
  cbn [app Tabwriter.blocks_from]. rewrite (H l (or_introl eq_refl)). cbn [Bool.eqb].
  rewrite blocks_from_column; [|intros x Hx; apply H; now right | exact Hrest].
  destruct rest; reflexivity.
Qed.

(** Formatting lines that all have [m] cells: the columns still to come
    get the widths of their blocks, then the lines are written. *)
Lemma format_uniform (tail : string) (m : nat) (l : Tabwriter.bufline)
      (ls : list Tabwriter.bufline) :
  (forall x, In x (l :: ls) -> List.length (snd x) = m) ->
  forall (d : nat) (widths : list Z),
    (m - 1 <= List.length widths + d)%nat ->
    (List.length widths <= m - 1)%nat ->
    Tabwriter.format d tail widths (l :: ls)
    = Tabwriter.writeLines tail
        (widths ++ map (fun j => Tabwriter.block_width j (l :: ls))
                       (seq (List.length widths) (m - 1 - List.length widths)))%list
        (l :: ls).
Proof.
  intros Hm. induction d as [|d IH]; intros widths Hd Hw.
  - replace (m - 1 - List.length widths)%nat with 0%nat by lia.
    cbn [seq map]. rewrite app_nil_r. reflexivity.
  - destruct (Nat.eq_dec (List.length widths) (m - 1)) as [E|NE].
    + replace (m - 1 - List.length widths)%nat with 0%nat by lia.
      cbn [seq map]. rewrite app_nil_r.
      cbn [Tabwriter.format]. unfold Tabwriter.blocks.
      rewrite blocks_from_no_column.
      2:{ intros x Hx. unfold Tabwriter.has_column. apply Z.ltb_ge.
          rewrite (Hm x Hx). lia. }
      cbn [rev app filter snd List.length Nat.eqb negb mapM fst].
      destruct (Tabwriter.writeLines tail widths (l :: ls)); reflexivity.
    + cbn [Tabwriter.format].
      assert (B : Tabwriter.blocks (List.length widths) (l :: ls) = [(true, l :: ls)]).
      { pose proof (blocks_column_then_rest (List.length widths) l ls []) as B.
        rewrite app_nil_r in B. apply B.
        - intros x Hx. unfold Tabwriter.has_column. apply Z.ltb_lt.
          rewrite (Hm x Hx). lia.
        - intros x []. }
      rewrite B. cbn [mapM fst snd].
      rewrite IH; [|rewrite length_app; simpl; lia | rewrite length_app; simpl; lia].
      rewrite length_app. cbn [List.length].
      replace (m - 1 - List.length widths)%nat
        with (S (m - 1 - (List.length widths + 1)))%nat by lia.
      cbn [seq map]. rewrite <- app_assoc. cbn [app].
      replace (S (List.length widths)) with (List.length widths + 1)%nat by lia.
      destruct (Tabwriter.writeLines _ _ _); reflexivity.
Qed.

(** A block of lines with two cells or more, followed by lines with at
    most one cell: the block is formatted for itself. *)
Lemma format_block_then_rest (tail : string) (d : nat) (l : Tabwriter.bufline)
      (ls : list Tabwriter.bufline) (r : Tabwriter.bufline)
      (rest : list Tabwriter.bufline) :
  (forall x, In x (l :: ls) -> (2 <= List.length (snd x))%nat) ->
  (forall x, In x (r :: rest) -> (List.length (snd x) <= 1)%nat) ->
  Tabwriter.format (S d) tail [] ((l :: ls) ++ r :: rest)
  = (x <- Tabwriter.format d tail [Tabwriter.block_width 0 (l :: ls)] (l :: ls) ;;
     y <- Tabwriter.writeLines tail [] (r :: rest) ;;
     Done (x ++ y)).
Proof.
  intros H Hrest. cbn [Tabwriter.format List.length].
  rewrite (blocks_column_then_rest 0 l ls (r :: rest)).
  2:{ intros x Hx. unfold Tabwriter.has_column. apply Z.ltb_lt.
      specialize (H x Hx). lia. }
  2:{ intros x Hx. unfold Tabwriter.has_column. apply Z.ltb_ge.
      specialize (Hrest x Hx). lia. }
  cbn [mapM fst snd app].
  destruct (Tabwriter.format d tail _ (l :: ls)) as [x|]; [|reflexivity].
  cbn [bind].
  destruct (Tabwriter.writeLines tail [] (r :: rest)) as [y|]; reflexivity.
Qed.

Lemma nth_cells_of (row : list string) :
  forall j, Tabwriter.width (nth j (Spec.cells_of row) (Tabwriter.mkCell "" 0 false))
            = Utf8.RuneCount (nth j row "").
Proof.
  induction row as [|c [|d r] IH]; intros j.
  - destruct j as [|[|j]]; reflexivity.
  - destruct j as [|[|j]]; reflexivity.
  - change (Spec.cells_of (c :: d :: r))
      with (Tabwriter.mkCell c (Utf8.RuneCount c) true :: Spec.cells_of (d :: r)).
    destruct j as [|j]; [reflexivity|]. cbn [nth]. apply IH.
Qed.

(** The width the tab writer gives a column of a block is the width
    [Spec.column_width] gives it. *)
Lemma block_width_rows (rows : list (list string)) (j : nat) :
  Tabwriter.block_width j (map (fun row => (false, Spec.cells_of row)) rows)
  = Spec.column_width rows j.
Proof.
  unfold Tabwriter.block_width, Spec.column_width, Tabwriter.minwidth, Tabwriter.padding.
  assert (G : forall init,
             fold_left
               (fun w (l : Tabwriter.bufline) =>
                  Z.max w (Tabwriter.width
                             (nth j (snd l) (Tabwriter.mkCell "" 0 false)) + 2))
               (map (fun row => (false, Spec.cells_of row)) rows) init
             = fold_left (fun w row => Z.max w (Utf8.RuneCount (nth j row "") + 2))
                         rows init).
  { induction rows as [|row rows IH]; intros init; [reflexivity|].
    cbn [map fold_left]. cbv beta. cbn [snd]. rewrite nth_cells_of. apply IH. }
  apply G.
Qed.

Lemma column_width_ge (rows : list (list string)) (j : nat) (row : list string) :
  In row rows -> Utf8.RuneCount (nth j row "") + 2 <= Spec.column_width rows j.
Proof.
  unfold Spec.column_width. generalize 0. revert row.
  induction rows as [|r rows IH]; intros row init H; [destruct H|].
  cbn [fold_left]. destruct H as [->|H].
  - assert (G : forall l a, a <= fold_left
                  (fun w row => Z.max w (Utf8.RuneCount (nth j row "") + 2)) l a).
    { clear. induction l as [|x l IH]; intros a; cbn [fold_left]; [lia|].
      specialize (IH (Z.max a (Utf8.RuneCount (nth j x "") + 2))). lia. }
    specialize (G rows (Z.max init (Utf8.RuneCount (nth j row "") + 2))). lia.
  - now apply IH.
Qed.

(** The cells of a row, written under the widths of its columns. *)
Lemma writeCells_row (rows : list (list string)) (row : list string) :
  forall j : nat,
    (forall i, (i < List.length row)%nat ->
               Utf8.RuneCount (nth i row "") <= Spec.column_width rows (j + i)) ->
    Tabwriter.writeCells (map (Spec.column_width rows) (seq j (List.length row - 1)))
                         (Spec.cells_of row)
    = Done (Spec.aligned_row rows j row).
Proof.
  induction row as [|c [|d r] IH]; intros j H.
  - reflexivity.
  - cbn. now rewrite append_empty_r.
  - change (Spec.cells_of (c :: d :: r))
      with (Tabwriter.mkCell c (Utf8.RuneCount c) true :: Spec.cells_of (d :: r)).
    replace (List.length (c :: d :: r) - 1)%nat with (S (List.length (d :: r) - 1))
      by (simpl; lia).
    cbn [seq map Tabwriter.writeCells tl Tabwriter.width Tabwriter.text].
    unfold Tabwriter.writePadding.
    pose proof (H 0%nat ltac:(simpl; lia)) as H0. rewrite Nat.add_0_r in H0.
    cbn [nth] in H0.
    destruct (Z.ltb_spec (Spec.column_width rows j - Utf8.RuneCount c) 0); [lia|].
    cbn [bind]. rewrite IH.
    + cbn [bind].
      change (Spec.aligned_row rows j (c :: d :: r))
        with (Spec.padded c (Spec.column_width rows j)
              ++ Spec.aligned_row rows (S j) (d :: r)).
      unfold Spec.padded, Tabwriter.padchar. now rewrite append_assoc.
    + intros i Hi. specialize (H (S i) ltac:(simpl in *; lia)).
      cbn [nth] in H. replace (S j + i)%nat with (j + S i)%nat by lia. exact H.
Qed.

(** The lines of a table, written under the widths of its columns. *)
Lemma writeLines_rows (tail : string) (rows0 : list (list string)) (m : nat)
      (rows : list (list string)) :
  (forall row, In row rows -> In row rows0 /\ List.length row = m) ->
  Tabwriter.writeLines tail (map (Spec.column_width rows0) (seq 0 (m - 1)))
                       (map (fun row => (false, Spec.cells_of row)) rows)
  = Done (String.concat "" (map (fun row => Spec.aligned_row rows0 0 row ++ nl) rows)).
Proof.
  induction rows as [|row rows IH]; intros H; [reflexivity|].
  cbn [map Tabwriter.writeLines].
  destruct (H row (or_introl eq_refl)) as [Hin Hlen].
  rewrite <- Hlen at 1. rewrite writeCells_row.
  2:{ intros i _. pose proof (column_width_ge rows0 i row Hin). simpl. lia. }
  cbn [bind]. rewrite IH by (intros x Hx; apply H; now right).
  cbn [bind]. f_equal.
  destruct rows as [|row' rows]; cbn [map String.concat].
  - unfold nl. reflexivity.
  - unfold nl. rewrite !append_assoc. reflexivity.
Qed.

Lemma mark_last_app (ls : list (list Tabwriter.cell)) (l : list Tabwriter.cell)
      (rest : list (list Tabwriter.cell)) :
  Tabwriter.mark_last (ls ++ l :: rest)
  = (map (fun x => (false, x)) ls ++ Tabwriter.mark_last (l :: rest))%list.
Proof.
  induction ls as [|a ls IH]; [reflexivity|].
  cbn [app map].
  destruct (ls ++ l :: rest)%list as [|l0 l1] eqn:E; [now destruct ls|].
  change (Tabwriter.mark_last (a :: l0 :: l1))
    with ((false, a) :: Tabwriter.mark_last (l0 :: l1)).
  rewrite IH. reflexivity.
Qed.

(** Flushing a buffer that holds the rows of a table, all of the same
    number of cells, two or more, and after them lines of one cell at
    most: the rows come out aligned, the other lines as they are. *)
Lemma flush_block (rows0 : list (list string)) (m : nat) (c : list Tabwriter.cell)
      (restcells : list (list Tabwriter.cell)) (w : string) :
  rows0 <> [] -> (2 <= m)%nat ->
  (forall row, In row rows0 -> List.length row = m) ->
  (forall l, In l (c :: restcells) -> (List.length l <= 1)%nat) ->
  Tabwriter.flush (Spec.idle (map Spec.cells_of rows0 ++ c :: restcells)%list w)
  = (y <- Tabwriter.writeLines "" [] (Tabwriter.mark_last (c :: restcells)) ;;
     Done (Spec.idle [[]]
             (w ++ String.concat "" (map (fun row => Spec.aligned_row rows0 0 row ++ nl)
                                         rows0) ++ y))).
Proof.
  intros Hne Hm Hrows Hrest. rewrite flush_idle.
  destruct rows0 as [|row0 rows']; [contradiction|].
  assert (D : (m <= Tabwriter.max_cells
                      (map Spec.cells_of (row0 :: rows') ++ c :: restcells))%nat).
  { unfold Tabwriter.max_cells.
    pose proof (max_cells_ge (map Spec.cells_of (row0 :: rows') ++ c :: restcells)%list
                  0%nat (Spec.cells_of row0) (or_introl eq_refl)) as G.
    rewrite length_cells_of, (Hrows row0 (or_introl eq_refl)) in G. lia. }
  destruct (Tabwriter.max_cells _) as [|d]; [lia|].
  rewrite mark_last_app, map_map.
  destruct (Tabwriter.mark_last (c :: restcells)) as [|r rest] eqn:M.
  { destruct restcells; discriminate. }
  assert (Hr : forall x, In x (r :: rest) -> (List.length (snd x) <= 1)%nat).
  { intros x Hx. rewrite <- M in Hx. apply Hrest. now apply mark_last_lines. }
  set (block := map (fun row => (false, Spec.cells_of row)) (row0 :: rows')).
  assert (Hb : forall x, In x block -> List.length (snd x) = m).
  { intros x Hx. unfold block in Hx. apply in_map_iff in Hx.
    destruct Hx as (row & <- & Hin). cbn [snd].
    rewrite length_cells_of, (Hrows row Hin). lia. }
  change block with ((false, Spec.cells_of row0)
                     :: map (fun row => (false, Spec.cells_of row)) rows') in *.
  rewrite format_block_then_rest; [|intros x Hx; rewrite (Hb x Hx); lia | exact Hr].
  rewrite (format_uniform "" m _ _ Hb); [|simpl; lia | simpl; lia].
  cbn [List.length].
  replace (m - 1 - 1)%nat with (m - 2)%nat by lia.
  change ([Tabwriter.block_width 0
             ((false, Spec.cells_of row0)
              :: map (fun row => (false, Spec.cells_of row)) rows')]
          ++ map (fun j => Tabwriter.block_width j
                             ((false, Spec.cells_of row0)
                              :: map (fun row => (false, Spec.cells_of row)) rows'))
                 (seq 1 (m - 2)))%list
    with (map (fun j => Tabwriter.block_width j
                          (map (fun row => (false, Spec.cells_of row)) (row0 :: rows')))
              (seq 0 (S (m - 2)))).
  replace (S (m - 2)) with (m - 1)%nat by lia.
  rewrite (map_ext _ (Spec.column_width (row0 :: rows'))
                   (fun j => block_width_rows (row0 :: rows') j)).
  change ((false, Spec.cells_of row0)
          :: map (fun row => (false, Spec.cells_of row)) rows')
    with (map (fun row => (false, Spec.cells_of row)) (row0 :: rows')).
  rewrite (writeLines_rows "" (row0 :: rows') m (row0 :: rows'));
    [|intros row Hin; split; [exact Hin | now apply Hrows]].
  cbn [bind].
  destruct (Tabwriter.writeLines "" [] (r :: rest)); reflexivity.
Qed.

Lemma column_width_single (hs : list string) (j : nat) :
  Spec.column_width [hs] j = Utf8.RuneCount (nth j hs "") + 2.
Proof.
  unfold Spec.column_width. cbn [fold_left].
  pose proof (RuneCount_nonneg (nth j hs "")). lia.
Qed.

(** A row alone in its table has its cells two blanks apart. *)
Lemma aligned_row_single (hs : list string) :
  forall suf pre : list string,
    hs = (pre ++ suf)%list ->
    Spec.aligned_row [hs] (List.length pre) suf = Join suf "  ".
Proof.
  induction suf as [|c [|d r] IH]; intros pre E; [reflexivity | reflexivity |].
  change (Spec.aligned_row [hs] (List.length pre) (c :: d :: r))
    with (Spec.padded c (Spec.column_width [hs] (List.length pre))
          ++ Spec.aligned_row [hs] (S (List.length pre)) (d :: r)).
  change (Join (c :: d :: r) "  ") with (c ++ "  " ++ Join (d :: r) "  ").
  rewrite column_width_single. rewrite E at 1. rewrite nth_middle.
  unfold Spec.padded.
  replace (Utf8.RuneCount c + 2 - Utf8.RuneCount c) with 2 by lia.
  change (repeat_nat " " (Z.to_nat 2)) with "  ".
  rewrite append_assoc. f_equal. f_equal.
  replace (S (List.length pre)) with (List.length (pre ++ [c])%list)
    by (rewrite length_app; simpl; lia).
  apply IH. rewrite <- app_assoc. exact E.
Qed.

Lemma cell_text_dashes (n : nat) : Spec.cell_text (repeat_nat "-" n) = true.
Proof. induction n as [|n IH]; [reflexivity|]. exact IH. Qed.

(** The two lines [Table] begins with: the rule, a line of one cell,
    makes the writer flush, and the headers, alone in their block, come
    out two blanks apart. *)
(** Runs the tab writer on lines that are given cell by cell. *)
Ltac run_format :=
  match goal with
  | |- context [Tabwriter.format ?a ?b ?c ?d] =>
      let v := eval cbn in (Tabwriter.format a b c d) in
      change (Tabwriter.format a b c d) with v
  | |- context [Tabwriter.writeLines ?b ?c ?d] =>
      let v := eval cbn in (Tabwriter.writeLines b c d) in
      change (Tabwriter.writeLines b c d) with v
  end.

Lemma Table_head (headers : list string) (rule : string) :
  Forall (fun h => Spec.cell_text h = true) headers ->
  Spec.cell_text rule = true ->
  (tw <- Tabwriter.Fprintln Tabwriter.NewWriter (Join headers (String (byte_of 9) "")) ;;
   Tabwriter.Fprintln tw rule)
  = Done (Spec.idle [[]] (Join headers "  " ++ nl ++ rule ++ nl)).
Proof.
  intros H Hrule.
  assert (R : forall ls w,
             Tabwriter.Fprintln (Spec.idle (ls ++ [[]])%list w) rule
             = Tabwriter.flush
                 (Spec.idle (ls ++ [[Tabwriter.mkCell rule (Utf8.RuneCount rule) false]]
                                ++ [[]])%list w)).
  { intros ls w. change rule with (Join [rule] (String (byte_of 9) "")) at 1.
    rewrite (Write_line [rule] (Forall_cons _ Hrule (Forall_nil _)) ls [] w).
    reflexivity. }
  change Tabwriter.NewWriter with (Spec.idle ([] ++ [[]]) "").
  rewrite (Write_line headers H [] [] "").
  destruct headers as [|h [|h2 hs]].
  - cbn [app Spec.cells_of List.length]. cbn [Z.of_nat Z.eqb Pos.of_succ_nat Pos.eqb].
    rewrite flush_idle. cbn [bind].
    run_format.
    cbn [bind]. rewrite (R [] _). rewrite flush_idle.
    run_format.
    cbn [bind]. now rewrite ?append_assoc, ?append_empty_r.
  - cbn [app Spec.cells_of List.length]. cbn [Z.of_nat Z.eqb Pos.of_succ_nat Pos.eqb].
    rewrite flush_idle.
    run_format.
    cbn [bind]. rewrite (R [] _). rewrite flush_idle.
    run_format.
    cbn [bind Join]. now rewrite ?append_assoc, ?append_empty_r.
  - cbn [app]. rewrite length_cells_of.
    destruct (Z.eqb_spec (Z.of_nat (Nat.max 1 (List.length (h :: h2 :: hs)))) 1) as [E|_];
      [simpl in E; lia|].
    cbn [bind].
    change (Spec.idle [Spec.cells_of (h :: h2 :: hs); []] "")
      with (Spec.idle ([Spec.cells_of (h :: h2 :: hs)] ++ [[]]) "").
    rewrite (R [Spec.cells_of (h :: h2 :: hs)] "").
    change ([Spec.cells_of (h :: h2 :: hs)]
            ++ [[Tabwriter.mkCell rule (Utf8.RuneCount rule) false]] ++ [[]])%list
      with (map Spec.cells_of [h :: h2 :: hs]
            ++ [Tabwriter.mkCell rule (Utf8.RuneCount rule) false] :: [[]])%list.
    rewrite (flush_block [h :: h2 :: hs] (List.length (h :: h2 :: hs))).
    + run_format.
      cbn [bind map String.concat].
      pose proof (aligned_row_single (h :: h2 :: hs) (h :: h2 :: hs) [] eq_refl) as A.
      cbn [List.length] in A. rewrite A.
      now rewrite ?append_assoc, ?append_empty_r.
    + discriminate.
    + simpl. lia.
    + intros row [<-|[]]. reflexivity.
    + intros l [<-|[<-|[]]]; simpl; lia.
Qed.

Lemma RuneCount_ascii (s : string) :
  Strings.isASCII s = true -> Utf8.RuneCount s = len s.
Proof.
  unfold Strings.isASCII, Utf8.RuneCount, len.
  induction s as [|c s IH]; intros H; [reflexivity|].
  cbn [bytes forallb] in H. apply andb_true_iff in H. destruct H as [Hc Hs].
  cbn [bytes Utf8.RuneCount_from Utf8.DecodeRune]. rewrite Hc. cbn [snd Nat.sub].
  rewrite (IH Hs). cbn [String.length]. lia.
Qed.

Lemma length_repeat_blank (n : nat) : String.length (repeat_nat " " n) = n.
Proof. induction n as [|n IH]; [reflexivity|]. simpl. now rewrite IH. Qed.

(** The text [Table] writes for plain cells in rows of equal length. *)
Lemma Table_layout_plain (headers : list string) (rows : list (list string)) (m : nat) :
  Forall (fun h => Spec.cell_text h = true) headers ->
  (2 <= m)%nat ->
  Forall (fun row => List.length row = m /\
                     Forall (fun c => Spec.cell_text c = true) row) rows ->
  Output.Table_text headers rows = Done (Spec.table_text headers rows).
Proof.
  intros Hh Hm Hrows. unfold Output.Table_text.
  pose proof (Table_head headers (repeat_nat "-" (String.length (Join headers "  ")))
                Hh (cell_text_dashes _)) as T.
  destruct (Tabwriter.Fprintln Tabwriter.NewWriter _) as [tw|]; [|discriminate T].
  cbn [bind] in T |- *. rewrite T. cbn [bind].
  change (Spec.idle [[]]) with (Spec.idle ([] ++ [[]])).
  rewrite Write_rows.
  2:{ eapply Forall_impl; [|exact Hrows]. intros row [E F]. split; [lia | exact F]. }
  cbn [bind app]. unfold Spec.table_text.
  destruct rows as [|row rows].
  - cbn [map app String.concat]. rewrite flush_idle.
    run_format.
    cbn [bind Tabwriter.written Spec.idle]. now rewrite ?append_assoc, ?append_empty_r.
  - rewrite (flush_block (row :: rows) m [] [] _ ltac:(discriminate) Hm).
    + run_format.
      cbn [bind Tabwriter.written Spec.idle].
      now rewrite ?append_assoc, ?append_empty_r.
    + intros r Hr. rewrite Forall_forall in Hrows. now apply Hrows.
    + intros l [<-|[]]. simpl. lia.
Qed.

(** X13. A table of plain cells. When no header and no cell holds a tab,
    a line end or an escape byte, and every row has the same number of
    cells, two or more, [Table] writes: the headers two blanks apart
    (whatever the rows are, so the headers do not stand above the
    columns), a rule of as many dashes as that line has bytes, and the
    rows, every cell but the last filled with blanks up to the widest
    cell of its column, counted in runes, plus two. A cell of ASCII text
    then takes as many bytes as its column is wide, so that the columns
    of the rows line up. *)
Theorem Table_layout (headers : list string) (rows : list (list string)) (m : nat) :
  Forall (fun h => Spec.cell_text h = true) headers ->
  (2 <= m)%nat ->
  Forall (fun row => List.length row = m /\
                     Forall (fun c => Spec.cell_text c = true) row) rows ->
  Output.Table_text headers rows = Done (Spec.table_text headers rows) /\
  (forall (row : list string) (j : nat),
      In row rows -> Strings.isASCII (nth j row "") = true ->
      len (Spec.padded (nth j row "") (Spec.column_width rows j))
      = Spec.column_width rows j).
Proof.
  intros Hh Hm Hrows. split; [now apply (Table_layout_plain headers rows m)|].
  intros row j Hin Ha. unfold Spec.padded, len.
  rewrite length_append, length_repeat_blank.
  pose proof (column_width_ge rows j row Hin) as G.
  rewrite (RuneCount_ascii _ Ha) in *. unfold len in *. lia.
Qed.

Lemma Table_layout_witness :
  let headers := ["ID"; "NAME"] in
  let rows := [["abc123ef"; "ESP32"]; ["0f"; "Pi"]] in
  Forall (fun h => Spec.cell_text h = true) headers /\
  (2 <= 2)%nat /\
  Forall (fun row => List.length row = 2%nat /\
                     Forall (fun c => Spec.cell_text c = true) row) rows /\
  Output.Table_text headers rows
  = Done ("ID  NAME" ++ nl ++
          "--------" ++ nl ++
          "abc123ef  ESP32" ++ nl ++
          "0f        Pi" ++ nl).
Proof.
  intros headers rows.
  assert (H1 : Forall (fun h => Spec.cell_text h = true) headers)
    by (repeat constructor).
  assert (H2 : (2 <= 2)%nat) by lia.
  assert (H3 : Forall (fun row => List.length row = 2%nat /\
                                  Forall (fun c => Spec.cell_text c = true) row) rows)
    by (repeat constructor).
  split; [exact H1|]. split; [exact H2|]. split; [exact H3|].
  exact (proj1 (Table_layout headers rows 2 H1 H2 H3)).
Defined.

(** X27. [Table] never panics, whatever bytes the headers and the cells
    hold (tabs, line ends, escape bytes, bytes that are no UTF-8) and
    however many cells the rows have: the padding the tab writer
    computes is never negative. It only adds to what was written before;
    with no headers and no rows it writes two empty lines. *)
Theorem Table_never_panics (w : Output.Writer) (headers : list string)
        (rows : list (list string)) (o : string) :
  (exists text : string, Output.Table w headers rows o = (o ++ text, Done tt)) /\
  Output.Table w [] [] o = (o ++ nl ++ nl, Done tt).
Proof.
  split; [|reflexivity].
  unfold Output.Table, IO.bindIO, IO.eval, IO.print.
  destruct (Table_done headers rows) as [text ->]. now exists text.
Qed.

(* ================================================================== *)
(** * Further properties: what the commands print                      *)
(* ================================================================== *)

Lemma cell_text_app (a b : string) :
  Spec.cell_text (a ++ b) = Spec.cell_text a && Spec.cell_text b.
Proof.
  unfold Spec.cell_text. rewrite bytes_app. apply forallb_app.
Qed.

Lemma cell_text_substring (s : string) :
  Spec.cell_text s = true -> forall n m, Spec.cell_text (substring n m s) = true.
Proof.
  unfold Spec.cell_text.
  induction s as [|c s IH]; intros H n m; [destruct n, m; reflexivity|].
  cbn [bytes forallb] in H. apply andb_true_iff in H. destruct H as [Hc Hs].
  destruct n as [|n]; [destruct m as [|m]; [reflexivity|] |].
  - cbn [substring bytes forallb]. rewrite Hc. now apply IH.
  - cbn [substring]. now apply IH.
Qed.

Lemma cell_text_truncated (s : string) (n : nat) :
  Spec.cell_text s = true -> Spec.cell_text (Spec.truncated s n) = true.
Proof.
  intros H. unfold Spec.truncated. destruct (_ <=? _)%nat; [exact H|].
  rewrite cell_text_app, cell_text_substring by exact H. reflexivity.
Qed.

Lemma cell_text_digits (d : Decimal.uint) :
  Spec.cell_text (NilEmpty.string_of_uint d) = true.
Proof.
  induction d; [reflexivity | ..]; cbn [NilEmpty.string_of_uint];
    unfold Spec.cell_text in *; cbn [bytes forallb]; rewrite IHd; reflexivity.
Qed.

Lemma cell_text_itoa (n : Z) : Spec.cell_text (itoa n) = true.
Proof.
  unfold itoa, NilZero.string_of_int, NilZero.string_of_uint.
  destruct (Z.to_int n) as [d|d].
  - destruct d; try reflexivity; apply cell_text_digits.
  - unfold Spec.cell_text. cbn [bytes forallb].
    change (Spec.cell_byte "-") with true. cbn [andb].
    destruct d; try reflexivity; apply cell_text_digits.
Qed.

Lemma cell_text_repeat (c : string) (n : nat) :
  Spec.cell_text c = true -> Spec.cell_text (repeat_nat c n) = true.
Proof.
  intros H. induction n as [|n IH]; [reflexivity|].
  cbn [repeat_nat]. now rewrite cell_text_app, H, IH.
Qed.

Lemma cell_text_format_f (prec : nat) (x : F64.float64) :
  Spec.cell_text (F64.format_f prec x) = true.
Proof.
  destruct x as [s m e|s|]; [|destruct s; reflexivity | reflexivity].
  unfold F64.format_f, F64.pad_digits.
  rewrite !cell_text_app, cell_text_itoa.
  destruct s, prec; cbn [andb]; try reflexivity;
    rewrite !cell_text_app, cell_text_itoa, cell_text_repeat by reflexivity;
    reflexivity.
Qed.

Lemma cell_text_FormatSize (bytes : Z) (s : string) :
  Output.FormatSize bytes = Done s -> Spec.cell_text s = true.
Proof.
  unfold Output.FormatSize.
  destruct (bytes <? Output.unit).
  - intros E. injection E as <-. now rewrite cell_text_app, cell_text_itoa.
  - destruct (Output.FormatSize_loop _ _ _ _) as [[d e]|]; [|discriminate].
    unfold index.
    destruct ((0 <=? e) && (e <? len "KMGTPE")) eqn:B; [|discriminate].
    destruct (String.get (Z.to_nat e) "KMGTPE") as [c|] eqn:G; [|discriminate].
    cbn [bind]. intros E. injection E as <-.
    rewrite !cell_text_app, cell_text_format_f. cbn [andb].
    apply andb_true_iff in B. destruct B as [B0 B1].
    apply Z.leb_le in B0. apply Z.ltb_lt in B1. change (len "KMGTPE") with 6 in B1.
    assert (C : (Z.to_nat e = 0 \/ Z.to_nat e = 1 \/ Z.to_nat e = 2 \/ Z.to_nat e = 3
                 \/ Z.to_nat e = 4 \/ Z.to_nat e = 5)%nat) by lia.
    destruct C as [C|[C|[C|[C|[C|C]]]]]; rewrite C in G; injection G as <-; reflexivity.
Qed.

(** [Truncate] as a function, for the bounds the commands use. *)
Lemma Truncate_truncated (s : string) (n : nat) :
  (3 < n)%nat -> Output.Truncate s (Z.of_nat n) = Done (Spec.truncated s n).
Proof.
  intros H. unfold Output.Truncate, Spec.truncated, len.
  destruct (Nat.leb_spec (String.length s) n).
  - destruct (Z.leb_spec (Z.of_nat (String.length s)) (Z.of_nat n)); [reflexivity | lia].
  - destruct (Z.leb_spec (Z.of_nat (String.length s)) (Z.of_nat n)); [lia|].
    destruct (Z.leb_spec (Z.of_nat n) 3); [lia|].
    rewrite slice_to_done by (unfold len; lia). cbn [bind].
    replace (Z.to_nat (Z.of_nat n - 3)) with (n - 3)%nat by lia. reflexivity.
Qed.

Lemma concat_cons (x : string) (xs : list string) :
  String.concat "" (x :: xs) = x ++ String.concat "" xs.
Proof. destruct xs; cbn [String.concat]; [now rewrite append_empty_r | reflexivity]. Qed.

Lemma mapM_map {A B : Type} (f : A -> outcome B) (g : A -> B) (l : list A) :
  (forall a, In a l -> f a = Done (g a)) -> mapM f l = Done (map g l).
Proof.
  induction l as [|a l IH]; intros H; [reflexivity|].
  cbn [mapM map]. rewrite (H a (or_introl eq_refl)). cbn [bind].
  rewrite IH by (intros x Hx; apply H; now right). reflexivity.
Qed.

Lemma search_row_cells (r : Client.SearchResult) :
  8 <= len (Client.sr_DeviceID r) -> Cmd.search_row r = Done (Spec.search_cells r).
Proof.
  intros H. unfold Cmd.search_row. rewrite slice_to_done by lia. cbn [bind].
  rewrite (Truncate_truncated _ 40) by lia. reflexivity.
Qed.

Lemma devices_row_cells (d : Client.Device) :
  8 <= len (Client.dev_ID d) -> Cmd.devices_row d = Done (Spec.device_cells d).
Proof.
  intros H. unfold Cmd.devices_row. rewrite slice_to_done by lia. cbn [bind].
  rewrite (Truncate_truncated _ 45) by lia. reflexivity.
Qed.

Lemma documents_row_cells (d : Client.Document) :
  8 <= len (Client.doc_ID d) -> int64_range (Client.doc_SizeBytes d) ->
  Cmd.documents_row d = Done (Spec.document_cells d).
Proof.
  intros H R. unfold Cmd.documents_row. rewrite slice_to_done by lia. cbn [bind].
  rewrite (Truncate_truncated _ 45) by lia. cbn [bind].
  unfold Spec.document_cells, Spec.size_text.
  destruct (FormatSize_done _ R) as [s ->]. reflexivity.
Qed.

Lemma length_nonzero {A : Type} (l : list A) :
  l <> [] -> (Z.of_nat (List.length l) =? 0) = false.
Proof. destruct l; [contradiction | reflexivity]. Qed.

(** X14. What [devices list] prints outside JSON mode. An empty page
    gives [No devices found.] and nothing else, whatever the total is.
    A page of devices with plain fields and identifiers of eight bytes
    or more gives the count line, the table of the identifiers cut to
    eight bytes, the names cut to 45, the domains and the types, and,
    exactly when the total exceeds the number of devices shown, the hint
    with the offset of the next page. *)
Theorem devices_list_output
        (encodeJSON : forall A : Type, A -> string * option string)
        (out : Output.Writer) (resp : Client.DevicesResponse) (o : string) :
  Output.IsJSON out = false ->
  let data := Client.dev_Data resp in
  let n := Z.of_nat (List.length data) in
  (data = [] ->
   Cmd.devicesListCmd_RunE encodeJSON out (Ok resp) o
   = (o ++ "No devices found." ++ nl, Done None)) /\
  (data <> [] -> Forall Spec.plain_device data ->
   Cmd.devicesListCmd_RunE encodeJSON out (Ok resp) o
   = (o ++ "Showing " ++ itoa n ++ " of " ++ itoa (Client.dev_Total resp)
        ++ " devices:" ++ nl ++ nl
        ++ Spec.table_text ["ID"; "NAME"; "DOMAIN"; "TYPE"] (map Spec.device_cells data)
        ++ Spec.more_text n (Client.dev_Total resp) (Client.dev_Offset resp),
      Done None)).
Proof.
  intros HJ data n. unfold Cmd.devicesListCmd_RunE. rewrite HJ. fold data. fold n.
  split.
  - intros E. unfold n. rewrite E. reflexivity.
  - intros Hne Hplain. unfold n at 1. rewrite (length_nonzero data Hne).
    unfold IO.bindIO, Output.Text, IO.print, IO.eval, Output.Table, IO.ret.
    rewrite (mapM_map Cmd.devices_row Spec.device_cells).
    2:{ intros d Hd. rewrite Forall_forall in Hplain.
        apply devices_row_cells. apply (Hplain d Hd). }
    unfold IO.bindIO, IO.eval, IO.print.
    assert (R : Forall (fun row => List.length row = 4%nat /\
                                   Forall (fun c => Spec.cell_text c = true) row)
                       (map Spec.device_cells data)).
    { apply Forall_forall. intros row Hrow. apply in_map_iff in Hrow.
      destruct Hrow as (d & <- & Hd). rewrite Forall_forall in Hplain.
      destruct (Hplain d Hd) as (_ & P1 & P2 & P3 & P4).
      split; [reflexivity|].
      repeat constructor; try assumption.
      - now apply cell_text_substring.
      - now apply cell_text_truncated. }
    rewrite (Table_layout_plain ["ID"; "NAME"; "DOMAIN"; "TYPE"]
               (map Spec.device_cells data) 4 ltac:(repeat constructor)
               ltac:(clear; lia) R).
    unfold Spec.more_text. destruct (n <? Client.dev_Total resp).
    + f_equal. now rewrite !append_assoc.
    + f_equal. now rewrite !append_assoc, append_empty_r.
Qed.

Lemma devices_list_output_witness :
  let out := Output.New (fun s => s) "table" in
  let encodeJSON : forall A : Type, A -> string * option string :=
    fun _ _ => ("", None) in
  let d1 := Client.mkDevice "abc123ef4567" "hardware" "dev-boards" "ESP32 Dev Board"
                            "hardware/esp32" "" [] "2025-12-01T00:00:00Z" in
  let d2 := Client.mkDevice "0f0f0f0f0f0f" "software" "sdk" "IDF"
                            "software/idf" "" [] "2025-12-01T00:00:00Z" in
  let resp := Client.mkDevicesResponse [d1; d2] 5 2 2 in
  Output.IsJSON out = false /\
  Client.dev_Data resp <> [] /\
  Forall Spec.plain_device (Client.dev_Data resp) /\
  Cmd.devicesListCmd_RunE encodeJSON out (Ok resp) ""
  = ("Showing 2 of 5 devices:" ++ nl ++ nl ++
     "ID  NAME  DOMAIN  TYPE" ++ nl ++
     "----------------------" ++ nl ++
     "abc123ef  ESP32 Dev Board  hardware  dev-boards" ++ nl ++
     "0f0f0f0f  IDF              software  sdk" ++ nl ++ nl ++
     "Use --offset 4 to see more results." ++ nl,
     Done None).
Proof.
  intros out encodeJSON d1 d2 resp.
  assert (H1 : Output.IsJSON out = false) by reflexivity.
  assert (H2 : Client.dev_Data resp <> []) by discriminate.
  assert (H3 : Forall Spec.plain_device (Client.dev_Data resp)).
  { repeat constructor; simpl; unfold len; simpl; lia. }
  split; [exact H1|]. split; [exact H2|]. split; [exact H3|].
  exact (proj2 (devices_list_output encodeJSON out resp "" H1) H2 H3).
Defined.

(** X15. What [documents list] prints outside JSON mode: as for the
    devices, with the file names cut to 45 bytes, the MIME types and the
    sizes as [FormatSize] writes them. *)
Theorem documents_list_output
        (encodeJSON : forall A : Type, A -> string * option string)
        (out : Output.Writer) (resp : Client.DocumentsResponse) (o : string) :
  Output.IsJSON out = false ->
  let data := Client.doc_Data resp in
  let n := Z.of_nat (List.length data) in
  (data = [] ->
   Cmd.documentsListCmd_RunE encodeJSON out (Ok resp) o
   = (o ++ "No documents found." ++ nl, Done None)) /\
  (data <> [] -> Forall Spec.plain_document data ->
   Cmd.documentsListCmd_RunE encodeJSON out (Ok resp) o
   = (o ++ "Showing " ++ itoa n ++ " of " ++ itoa (Client.doc_Total resp)
        ++ " documents:" ++ nl ++ nl
        ++ Spec.table_text ["ID"; "FILENAME"; "TYPE"; "SIZE"]
                           (map Spec.document_cells data)
        ++ Spec.more_text n (Client.doc_Total resp) (Client.doc_Offset resp),
      Done None)).
Proof.
  intros HJ data n. unfold Cmd.documentsListCmd_RunE. rewrite HJ. fold data. fold n.
  split.
  - intros E. unfold n. rewrite E. reflexivity.
  - intros Hne Hplain. unfold n at 1. rewrite (length_nonzero data Hne).
    unfold IO.bindIO, Output.Text, IO.print, IO.eval, Output.Table, IO.ret.
    rewrite (mapM_map Cmd.documents_row Spec.document_cells).
    2:{ intros d Hd. rewrite Forall_forall in Hplain.
        apply documents_row_cells; apply (Hplain d Hd). }
    unfold IO.bindIO, IO.eval, IO.print.
    assert (R : Forall (fun row => List.length row = 4%nat /\
                                   Forall (fun c => Spec.cell_text c = true) row)
                       (map Spec.document_cells data)).
    { apply Forall_forall. intros row Hrow. apply in_map_iff in Hrow.
      destruct Hrow as (d & <- & Hd). rewrite Forall_forall in Hplain.
      destruct (Hplain d Hd) as (_ & PR & P1 & P2 & P3).
      split; [reflexivity|].
      repeat constructor; try assumption.
      - now apply cell_text_substring.
      - now apply cell_text_truncated.
      - unfold Spec.size_text. destruct (FormatSize_done _ PR) as [s E]. rewrite E.
        exact (cell_text_FormatSize _ _ E). }
    rewrite (Table_layout_plain ["ID"; "FILENAME"; "TYPE"; "SIZE"]
               (map Spec.document_cells data) 4 ltac:(repeat constructor)
               ltac:(clear; lia) R).
    unfold Spec.more_text. destruct (n <? Client.doc_Total resp).
    + f_equal. now rewrite !append_assoc.
    + f_equal. now rewrite !append_assoc, append_empty_r.
Qed.

Lemma documents_list_output_witness :
  let out := Output.New (fun s => s) "text" in
  let encodeJSON : forall A : Type, A -> string * option string :=
    fun _ _ => ("", None) in
  let d1 := Client.mkDocument "abc123ef4567" "0f0f0f0f0f0f" "hardware/esp32/ds.pdf"
                              "esp32-datasheet.pdf" "application/pdf" 1536
                              "9f86d081884c7d65" "2025-12-01T00:00:00Z" in
  let d2 := Client.mkDocument "11112222aaaa" "0f0f0f0f0f0f" "hardware/esp32/pin.png"
                              "pinout.png" "image/png" 512
                              "e3b0c44298fc1c14" "2025-12-01T00:00:00Z" in
  let resp := Client.mkDocumentsResponse [d1; d2] 2 50 0 in
  Output.IsJSON out = false /\
  Client.doc_Data resp <> [] /\
  Forall Spec.plain_document (Client.doc_Data resp) /\
  Cmd.documentsListCmd_RunE encodeJSON out (Ok resp) ""
  = ("Showing 2 of 2 documents:" ++ nl ++ nl ++
     "ID  FILENAME  TYPE  SIZE" ++ nl ++
     "------------------------" ++ nl ++
     "abc123ef  esp32-datasheet.pdf  application/pdf  1.5 KB" ++ nl ++
     "11112222  pinout.png           image/png        512 B" ++ nl,
     Done None).
Proof.
  intros out encodeJSON d1 d2 resp.
  assert (H1 : Output.IsJSON out = false) by reflexivity.
  assert (H2 : Client.doc_Data resp <> []) by discriminate.
  assert (H3 : Forall Spec.plain_document (Client.doc_Data resp)).
  { repeat constructor; simpl; unfold len; simpl; try lia; vm_compute; congruence. }
  split; [exact H1|]. split; [exact H2|]. split; [exact H3|].
  exact (proj2 (documents_list_output encodeJSON out resp "" H1) H2 H3).
Defined.

(** The snippets the loop of [searchCmd] prints. *)
Lemma forM_snippets (out : Output.Writer) (l : list Client.SearchResult) :
  Forall (fun r => 8 <= len (Client.sr_DeviceID r)) l ->
  forall o, IO.forM_ (Cmd.search_snippet out) l o
            = (o ++ String.concat "" (map Spec.snippet_text l), Done tt).
Proof.
  induction 1 as [|r l Hr Hl IH]; intros o.
  - cbn [IO.forM_ map String.concat]. unfold IO.ret. now rewrite append_empty_r.
  - cbn [IO.forM_ map]. rewrite concat_cons. unfold IO.bindIO at 1.
    assert (S : Cmd.search_snippet out r o = (o ++ Spec.snippet_text r, Done tt)).
    { unfold Cmd.search_snippet, Spec.snippet_text.
      destruct (String.eqb (Client.sr_Snippet r) ""); cbn [negb].
      - unfold IO.ret. now rewrite append_empty_r.
      - unfold IO.bindIO, IO.eval, Output.Text, IO.print.
        rewrite slice_to_done by lia.
        rewrite (Truncate_truncated _ 200) by lia.
        change (Z.to_nat 8) with 8%nat. f_equal. now rewrite !append_assoc. }
    rewrite S, IH. f_equal. now rewrite !append_assoc.
Qed.

(** X16. What [search] prints outside JSON mode for results with plain
    fields: the count line with the query between double quotes, the
    table of the identifiers cut to eight bytes, the names cut to 40,
    the domains, the types and the scores with two decimals, and then,
    unless the [--output] flag is the very string [table], the snippets
    of the first three results, those that are empty left out, each cut
    to 200 bytes. The flag decides, not the writer: with no flag given
    the snippets follow the table. *)
Theorem search_output
        (encodeJSON : forall A : Type, A -> string * option string)
        (out : Output.Writer) (outputFormat : string)
        (resp : Client.SearchResponse) (o : string) :
  Output.IsJSON out = false ->
  let results := Client.Results resp in
  (results = [] ->
   Cmd.searchCmd_RunE encodeJSON out outputFormat (Ok resp) o
   = (o ++ "No results found." ++ nl, Done None)) /\
  (results <> [] -> Forall Spec.plain_result results ->
   Cmd.searchCmd_RunE encodeJSON out outputFormat (Ok resp) o
   = (o ++ "Found " ++ itoa (Client.sr_Total resp) ++ " results for "
        ++ dquote ++ Client.Query resp ++ dquote ++ ":" ++ nl ++ nl
        ++ Spec.table_text ["ID"; "NAME"; "DOMAIN"; "TYPE"; "SCORE"]
                           (map Spec.search_cells results)
        ++ (if String.eqb outputFormat "table" then ""
            else nl ++ "--- Snippets ---" ++ nl ++ Spec.snippets_text results),
      Done None)).
Proof.
  intros HJ results. unfold Cmd.searchCmd_RunE. rewrite HJ. fold results.
  split.
  - intros E. rewrite E. reflexivity.
  - intros Hne Hplain. rewrite (length_nonzero results Hne).
    assert (Hpos : (0 <? Z.of_nat (List.length results)) = true).
    { destruct results; [contradiction | reflexivity]. }
    rewrite Hpos. cbn [andb].
    assert (Hid : Forall (fun r => 8 <= len (Client.sr_DeviceID r)) results).
    { eapply Forall_impl; [|exact Hplain]. intros r Hr. apply Hr. }
    unfold IO.bindIO, Output.Text, IO.print, IO.eval, Output.Table, IO.ret.
    rewrite (mapM_map Cmd.search_row Spec.search_cells).
    2:{ intros r Hr. rewrite Forall_forall in Hid.
        apply search_row_cells. apply (Hid r Hr). }
    unfold IO.bindIO, IO.eval, IO.print.
    assert (R : Forall (fun row => List.length row = 5%nat /\
                                   Forall (fun c => Spec.cell_text c = true) row)
                       (map Spec.search_cells results)).
    { apply Forall_forall. intros row Hrow. apply in_map_iff in Hrow.
      destruct Hrow as (r & <- & Hr). rewrite Forall_forall in Hplain.
      destruct (Hplain r Hr) as (_ & P1 & P2 & P3 & P4).
      split; [reflexivity|].
      repeat constructor; try assumption.
      - now apply cell_text_substring.
      - now apply cell_text_truncated.
      - apply cell_text_format_f. }
    rewrite (Table_layout_plain ["ID"; "NAME"; "DOMAIN"; "TYPE"; "SCORE"]
               (map Spec.search_cells results) 5 ltac:(repeat constructor)
               ltac:(clear; lia) R).
    destruct (String.eqb outputFormat "table"); cbn [negb].
    + f_equal. now rewrite !append_assoc, append_empty_r.
    + unfold Output.Println, IO.print.
      rewrite forM_snippets by (apply Forall_firstn; exact Hid).
      unfold Spec.snippets_text. f_equal. now rewrite !append_assoc.
Qed.

Lemma search_output_witness :
  let out := Output.New (fun s => s) "" in
  let encodeJSON : forall A : Type, A -> string * option string :=
    fun _ _ => ("", None) in
  let r1 := Client.mkSearchResult "abc123ef4567" "ESP32 Dev Board" "hardware"
              "dev-boards" "hardware/esp32" (F64.of_decimal false 92 2)
              "Dual-core MCU with Wi-Fi" in
  let r2 := Client.mkSearchResult "0f0f0f0f0f0f" "IDF" "software"
              "sdk" "software/idf" (F64.of_decimal false 5 1) "" in
  let resp := Client.mkSearchResponse [r1; r2] 2 "esp32" in
  Output.IsJSON out = false /\
  Client.Results resp <> [] /\
  Forall Spec.plain_result (Client.Results resp) /\
  Cmd.searchCmd_RunE encodeJSON out "" (Ok resp) ""
  = ("Found 2 results for " ++ dquote ++ "esp32" ++ dquote ++ ":" ++ nl ++ nl ++
     "ID  NAME  DOMAIN  TYPE  SCORE" ++ nl ++
     "-----------------------------" ++ nl ++
     "abc123ef  ESP32 Dev Board  hardware  dev-boards  0.92" ++ nl ++
     "0f0f0f0f  IDF              software  sdk         0.50" ++ nl ++ nl ++
     "--- Snippets ---" ++ nl ++ nl ++
     "[abc123ef] ESP32 Dev Board" ++ nl ++
     "  Dual-core MCU with Wi-Fi" ++ nl,
     Done None).
Proof.
  intros out encodeJSON r1 r2 resp.
  assert (H1 : Output.IsJSON out = false) by reflexivity.
  assert (H2 : Client.Results resp <> []) by discriminate.
  assert (H3 : Forall Spec.plain_result (Client.Results resp)).
  { repeat constructor; simpl; unfold len; simpl; lia. }
  split; [exact H1|]. split; [exact H2|]. split; [exact H3|].
  exact (proj2 (search_output encodeJSON out "" resp "" H1) H2 H3).
Defined.

(** The commands ask their writer one thing only: whether it is a JSON
    writer. *)
Lemma commands_ask_IsJSON
      (encodeJSON : forall A : Type, A -> string * option string)
      (w1 w2 : Output.Writer) (outputFormat : string) :
  Output.IsJSON w1 = Output.IsJSON w2 ->
  (forall api o, Cmd.searchCmd_RunE encodeJSON w1 outputFormat api o
                 = Cmd.searchCmd_RunE encodeJSON w2 outputFormat api o) /\
  (forall api o, Cmd.devicesListCmd_RunE encodeJSON w1 api o
                 = Cmd.devicesListCmd_RunE encodeJSON w2 api o) /\
  (forall api o, Cmd.devicesGetCmd_RunE encodeJSON w1 api o
                 = Cmd.devicesGetCmd_RunE encodeJSON w2 api o) /\
  (forall api o, Cmd.documentsListCmd_RunE encodeJSON w1 api o
                 = Cmd.documentsListCmd_RunE encodeJSON w2 api o) /\
  (forall api o, Cmd.documentsGetCmd_RunE encodeJSON w1 api o
                 = Cmd.documentsGetCmd_RunE encodeJSON w2 api o).
Proof.
  intros E.
  split; [|split; [|split; [|split]]]; intros [resp|e] o; try reflexivity.
  - unfold Cmd.searchCmd_RunE. rewrite E.
    unfold Output.JSON, Output.Text, Output.Table, Output.Println, Cmd.search_snippet,
      Output.Text.
    reflexivity.
  - unfold Cmd.devicesListCmd_RunE. rewrite E.
    unfold Output.JSON, Output.Text, Output.Table, Output.Println. reflexivity.
  - unfold Cmd.devicesGetCmd_RunE. rewrite E.
    unfold Output.JSON, Output.Text. reflexivity.
  - unfold Cmd.documentsListCmd_RunE. rewrite E.
    unfold Output.JSON, Output.Text, Output.Table, Output.Println. reflexivity.
  - unfold Cmd.documentsGetCmd_RunE. rewrite E.
    unfold Output.JSON, Output.Text. reflexivity.
Qed.

(** X17. The format [text] prints what the format [table] prints: the
    two writers differ, but the commands ask a writer only whether it is
    a JSON writer, and [Table], [Text] and [Println] do not look at the
    format. *)
Theorem text_format_renders_as_table
        (encodeJSON : forall A : Type, A -> string * option string)
        (unicodeToLower : string -> string) (outputFormat : string) :
  let text := Output.New unicodeToLower "text" in
  let table := Output.New unicodeToLower "table" in
  text <> table /\
  (forall api o, Cmd.searchCmd_RunE encodeJSON text outputFormat api o
                 = Cmd.searchCmd_RunE encodeJSON table outputFormat api o) /\
  (forall api o, Cmd.devicesListCmd_RunE encodeJSON text api o
                 = Cmd.devicesListCmd_RunE encodeJSON table api o) /\
  (forall api o, Cmd.devicesGetCmd_RunE encodeJSON text api o
                 = Cmd.devicesGetCmd_RunE encodeJSON table api o) /\
  (forall api o, Cmd.documentsListCmd_RunE encodeJSON text api o
                 = Cmd.documentsListCmd_RunE encodeJSON table api o) /\
  (forall api o, Cmd.documentsGetCmd_RunE encodeJSON text api o
                 = Cmd.documentsGetCmd_RunE encodeJSON table api o).
Proof.
  intros text table.
  split; [discriminate|].
  apply commands_ask_IsJSON. reflexivity.
Qed.

(** X18. In JSON mode every command writes what the encoder writes for
    the response as a whole and returns the encoder's error; no
    identifier or checksum is cut, so the short ones that stop the other
    modes with a panic are printed like any other. *)
Theorem json_mode_output
        (encodeJSON : forall A : Type, A -> string * option string)
        (unicodeToLower : string -> string) (outputFormat : string) (o : string) :
  let out := Output.New unicodeToLower "json" in
  (forall resp, Cmd.searchCmd_RunE encodeJSON out outputFormat (Ok resp) o
                = (o ++ fst (encodeJSON _ resp), Done (snd (encodeJSON _ resp)))) /\
  (forall resp, Cmd.devicesListCmd_RunE encodeJSON out (Ok resp) o
                = (o ++ fst (encodeJSON _ resp), Done (snd (encodeJSON _ resp)))) /\
  (forall resp, Cmd.devicesGetCmd_RunE encodeJSON out (Ok resp) o
                = (o ++ fst (encodeJSON _ resp), Done (snd (encodeJSON _ resp)))) /\
  (forall resp, Cmd.documentsListCmd_RunE encodeJSON out (Ok resp) o
                = (o ++ fst (encodeJSON _ resp), Done (snd (encodeJSON _ resp)))) /\
  (forall resp, Cmd.documentsGetCmd_RunE encodeJSON out (Ok resp) o
                = (o ++ fst (encodeJSON _ resp), Done (snd (encodeJSON _ resp)))).
Proof.
  intros out.
  assert (J : Output.IsJSON out = true) by reflexivity.
  split; [|split; [|split; [|split]]]; intros resp.
  - unfold Cmd.searchCmd_RunE. rewrite J. reflexivity.
  - unfold Cmd.devicesListCmd_RunE. rewrite J. reflexivity.
  - unfold Cmd.devicesGetCmd_RunE. rewrite J. reflexivity.
  - unfold Cmd.documentsListCmd_RunE. rewrite J. reflexivity.
  - unfold Cmd.documentsGetCmd_RunE. rewrite J. reflexivity.
Qed.

(** X19. [devices get] never panics, whatever the device and the mode:
    it prints the fields whole, the identifier included. Outside JSON
    mode it prints six lines and, exactly when the content is not empty,
    the content under its heading. *)
Theorem devices_get_output
        (encodeJSON : forall A : Type, A -> string * option string)
        (out : Output.Writer) (o : string) :
  (forall api, snd (Cmd.devicesGetCmd_RunE encodeJSON out api o) <> Panic) /\
  (Output.IsJSON out = false ->
   forall d : Client.Device,
     Cmd.devicesGetCmd_RunE encodeJSON out (Ok d) o
     = (o ++ "Device: " ++ Client.dev_Name d ++ nl
          ++ "  ID:        " ++ Client.dev_ID d ++ nl
          ++ "  Domain:    " ++ Client.dev_Domain d ++ nl
          ++ "  Type:      " ++ Client.dev_Type d ++ nl
          ++ "  Path:      " ++ Client.dev_Path d ++ nl
          ++ "  Indexed:   " ++ Client.dev_IndexedAt d ++ nl
          ++ (if String.eqb (Client.dev_Content d) "" then ""
              else nl ++ "--- Content ---" ++ nl ++ Client.dev_Content d ++ nl),
        Done None)).
Proof.
  split.
  - intros [d|e]; unfold Cmd.devicesGetCmd_RunE; [|discriminate].
    destruct (Output.IsJSON out); [discriminate|].
    unfold IO.bindIO, Output.Text, IO.print, IO.ret.
    destruct (negb _); discriminate.
  - intros HJ d. unfold Cmd.devicesGetCmd_RunE. rewrite HJ.
    unfold IO.bindIO, Output.Text, IO.print, IO.ret.
    destruct (String.eqb (Client.dev_Content d) ""); cbn [negb]; f_equal;
      now rewrite !append_assoc, ?append_empty_r.
Qed.

Lemma devices_get_output_witness :
  let out := Output.New (fun s => s) "table" in
  let encodeJSON : forall A : Type, A -> string * option string :=
    fun _ _ => ("", None) in
  let d := Client.mkDevice "abc" "hardware" "dev-boards" "ESP32"
                           "hardware/esp32" "Pinout" [] "2025-12-01" in
  Output.IsJSON out = false /\
  Cmd.devicesGetCmd_RunE encodeJSON out (Ok d) ""
  = ("Device: ESP32" ++ nl ++
     "  ID:        abc" ++ nl ++
     "  Domain:    hardware" ++ nl ++
     "  Type:      dev-boards" ++ nl ++
     "  Path:      hardware/esp32" ++ nl ++
     "  Indexed:   2025-12-01" ++ nl ++ nl ++
     "--- Content ---" ++ nl ++ "Pinout" ++ nl,
     Done None).
Proof.
  intros out encodeJSON d.
  assert (H1 : Output.IsJSON out = false) by reflexivity.
  split; [exact H1|].
  exact (proj2 (devices_get_output encodeJSON out "") H1 d).
Defined.

(* ================================================================== *)
(** * Further properties: configuration and start-up ([root.go])       *)
(* ================================================================== *)

(** X20. Flags go before the configuration. For a command other than
    [version] and [help], with a configuration that loads: the URL, the
    key and the format are each the flag when the flag is set and the
    configured value when it is not; when the key so found is not empty
    the client and the writer are built from these values and no error
    is returned; when it is empty the error asks for the key and neither
    a client nor a writer is built. *)
Theorem flags_override_configuration
        (unicodeToLower : string -> string) (c : Config.Config)
        (name : string) (g : Cmd.globals) :
  name <> "version" -> name <> "help" ->
  let url := Spec.override (Cmd.apiURL g) (Config.APIBaseURL c) in
  let key := Spec.override (Cmd.apiKey g) (Config.APIKey c) in
  let format := Spec.override (Cmd.outputFormat g) (Config.OutputFormat c) in
  let after := fst (Cmd.PersistentPreRunE unicodeToLower (Ok c) name g) in
  let error := snd (Cmd.PersistentPreRunE unicodeToLower (Ok c) name g) in
  Cmd.cfg after = Some (Config.mkConfig url key format) /\
  (key <> "" ->
   error = None /\
   Cmd.apiClient after = Some (Client.New url key) /\
   Cmd.out after = Some (Output.New unicodeToLower format)) /\
  (key = "" ->
   error = Some "API key required: set MANUALS_API_KEY or add api_key to config file" /\
   Cmd.apiClient after = Cmd.apiClient g /\
   Cmd.out after = Cmd.out g).
Proof.
  intros Hv Hh url key format after error.
  unfold after, error, url, key, format, Cmd.PersistentPreRunE.
  apply String.eqb_neq in Hv. apply String.eqb_neq in Hh. rewrite Hv, Hh. cbn [orb].
  unfold Spec.override, Config.Validate.
  destruct c as [cu ck cf]. cbn [Config.APIBaseURL Config.APIKey Config.OutputFormat].
  destruct (String.eqb (Cmd.apiURL g) "") eqn:EU;
    destruct (String.eqb (Cmd.apiKey g) "") eqn:EK;
    destruct (String.eqb (Cmd.outputFormat g) "") eqn:EF;
    cbn [negb Config.APIBaseURL Config.APIKey Config.OutputFormat];
    rewrite ?EK;
    try (destruct (String.eqb ck "") eqn:EC);
    cbn [fst snd Cmd.cfg Cmd.apiClient Cmd.out];
    (split; [reflexivity|]);
    (split; intros Q;
     [ try (apply String.eqb_neq in Q; congruence); repeat split
     | try (apply String.eqb_eq in Q; congruence); repeat split ]).
Qed.

Lemma flags_override_configuration_witness :
  let c := Config.mkConfig "http://localhost:8080" "from-file" "table" in
  let g := Cmd.mkGlobals "dev" "unknown" "unknown" "" "" "from-flag" "JSON"
                         None None None in
  "search" <> "version" /\ "search" <> "help" /\
  snd (Cmd.PersistentPreRunE (fun s => s) (Ok c) "search" g) = None /\
  Cmd.apiClient (fst (Cmd.PersistentPreRunE (fun s => s) (Ok c) "search" g))
  = Some (Client.New "http://localhost:8080" "from-flag") /\
  Cmd.out (fst (Cmd.PersistentPreRunE (fun s => s) (Ok c) "search" g))
  = Some (Output.New (fun s => s) "json").
Proof.
  intros c g.
  assert (H1 : "search" <> "version") by discriminate.
  assert (H2 : "search" <> "help") by discriminate.
  split; [exact H1|]. split; [exact H2|].
  destruct (proj1 (proj2 (flags_override_configuration (fun s => s) c "search" g H1 H2))
              ltac:(discriminate)) as (E1 & E2 & E3).
  split; [exact E1|]. split; [exact E2 | exact E3].
Defined.

(** X21. [version] and [help] start without configuration: the package
    variables stay as they are and no error is returned, whether the
    configuration loads or not and whether there is a key or not, and
    [version] then prints the three values [SetVersionInfo] stored. For
    any other command a configuration that does not load is the error
    returned, and neither a client nor a writer is built. *)
Theorem version_and_help_need_no_configuration
        (unicodeToLower : string -> string) (Load : result Config.Config)
        (name : string) (g : Cmd.globals) :
  (name = "version" \/ name = "help" ->
   Cmd.PersistentPreRunE unicodeToLower Load name g = (g, None)) /\
  (forall v commit build o,
      Cmd.versionCmd_Run
        (fst (Cmd.PersistentPreRunE unicodeToLower Load "version"
                (Cmd.SetVersionInfo v commit build g))) o
      = (o ++ "manuals version " ++ v ++ nl
           ++ "  commit: " ++ commit ++ nl
           ++ "  built:  " ++ build ++ nl,
         Done tt)) /\
  (name <> "version" -> name <> "help" ->
   forall e, Load = Err e ->
             snd (Cmd.PersistentPreRunE unicodeToLower Load name g) = Some e /\
             Cmd.cfg (fst (Cmd.PersistentPreRunE unicodeToLower Load name g)) = None /\
             Cmd.apiClient (fst (Cmd.PersistentPreRunE unicodeToLower Load name g))
             = Cmd.apiClient g /\
             Cmd.out (fst (Cmd.PersistentPreRunE unicodeToLower Load name g))
             = Cmd.out g).
Proof.
  unfold Cmd.PersistentPreRunE. split; [|split].
  - intros [->| ->]; reflexivity.
  - intros v commit build o. cbn [String.eqb Ascii.eqb Bool.eqb orb fst].
    unfold Cmd.versionCmd_Run, IO.bindIO, IO.print. cbn [Cmd.SetVersionInfo Cmd.version
      Cmd.gitCommit Cmd.buildTime].
    f_equal. now rewrite !append_assoc.
  - intros Hv Hh e ->.
    apply String.eqb_neq in Hv. apply String.eqb_neq in Hh. rewrite Hv, Hh.
    repeat split.
Qed.

Section KeyOnEveryRequest.

Variable parseURL : string -> option string.
Variable Do : HTTP.Request -> result HTTP.Response.
Variable decodeResult : forall A : Type, HTTP.Body -> result A.

Lemma get_request_key (A : Type) (c : Client.Client) (path : string) (r : HTTP.Request) :
  In r (fst (Client.get parseURL Do decodeResult (A := A) c path)) ->
  HTTP.Header_Get (HTTP.ReqHeader r) "X-API-Key" = Client.apiKey c.
Proof.
  destruct (get_request parseURL Do decodeResult A c path) as [E|E];
    rewrite E; simpl; [tauto|].
  intros [<-|[]]. reflexivity.
Qed.

Lemma DownloadDocument_request_key (c : Client.Client) (id : string) (r : HTTP.Request) :
  In r (fst (Client.DownloadDocument parseURL Do c id)) ->
  HTTP.Header_Get (HTTP.ReqHeader r) "X-API-Key" = Client.apiKey c.
Proof.
  intros H. apply DownloadDocument_sends in H. rewrite H. reflexivity.
Qed.

End KeyOnEveryRequest.

(** X22. After a start that returned no error, for a command other than
    [version] and [help], there is a client, its key is not empty, and
    every request any of its six operations sends carries this key in
    [X-API-Key]: no request leaves without a key. *)
Theorem started_client_sends_a_key
        (unicodeToLower : string -> string) (Load : result Config.Config)
        (name : string) (g : Cmd.globals)
        (parseURL : string -> option string)
        (Do : HTTP.Request -> result HTTP.Response)
        (decodeResult : forall A : Type, HTTP.Body -> result A) :
  name <> "version" -> name <> "help" ->
  snd (Cmd.PersistentPreRunE unicodeToLower Load name g) = None ->
  exists c : Client.Client,
    Cmd.apiClient (fst (Cmd.PersistentPreRunE unicodeToLower Load name g)) = Some c /\
    Client.apiKey c <> "" /\
    forall r : HTTP.Request,
      (exists query limit,
          In r (fst (Client.Search parseURL Do decodeResult c query limit))) \/
      (exists limit offset domain deviceType,
          In r (fst (Client.ListDevices parseURL Do decodeResult c
                                        limit offset domain deviceType))) \/
      (exists id, In r (fst (Client.GetDevice parseURL Do decodeResult c id))) \/
      (exists limit offset deviceID,
          In r (fst (Client.ListDocuments parseURL Do decodeResult c
                                          limit offset deviceID))) \/
      (exists id, In r (fst (Client.GetDocument parseURL Do decodeResult c id))) \/
      (exists id, In r (fst (Client.DownloadDocument parseURL Do c id))) ->
      HTTP.Header_Get (HTTP.ReqHeader r) "X-API-Key" = Client.apiKey c /\
      HTTP.Header_Get (HTTP.ReqHeader r) "X-API-Key" <> "".
Proof.
  intros Hv Hh. unfold Cmd.PersistentPreRunE.
  apply String.eqb_neq in Hv. apply String.eqb_neq in Hh. rewrite Hv, Hh. cbn [orb].
  destruct Load as [c0|e]; [|discriminate].
  unfold Config.Validate.
  match goal with
  | |- context [String.eqb (Config.APIKey ?c) ""] =>
      set (c1 := c); destruct (String.eqb_spec (Config.APIKey c1) "") as [K|K]
  end; [discriminate|].
  intros _. cbn [fst Cmd.apiClient].
  exists (Client.New (Config.APIBaseURL c1) (Config.APIKey c1)).
  split; [reflexivity|]. split; [exact K|].
  intros r H.
  assert (E : HTTP.Header_Get (HTTP.ReqHeader r) "X-API-Key"
              = Client.apiKey (Client.New (Config.APIBaseURL c1) (Config.APIKey c1))).
  { destruct H as [(q & l & H)|[(l & o & d & t & H)|[(i & H)|[(l & o & d & H)
                  |[(i & H)|(i & H)]]]]].
    - now apply get_request_key in H.
    - now apply get_request_key in H.
    - now apply get_request_key in H.
    - now apply get_request_key in H.
    - now apply get_request_key in H.
    - now apply DownloadDocument_request_key in H. }
  split; [exact E|]. rewrite E. exact K.
Qed.

Lemma started_client_sends_a_key_witness :
  let Load := Ok (Config.mkConfig "http://localhost:8080" "secret" "table") in
  let g := Cmd.mkGlobals "dev" "unknown" "unknown" "" "" "" "" None None None in
  let started := Cmd.PersistentPreRunE (fun s => s) Load "devices" g in
  "devices" <> "version" /\ "devices" <> "help" /\ snd started = None /\
  exists c, Cmd.apiClient (fst started) = Some c /\ Client.apiKey c <> "".
Proof.
  intros Load g started.
  assert (H1 : "devices" <> "version") by discriminate.
  assert (H2 : "devices" <> "help") by discriminate.
  assert (H3 : snd started = None) by reflexivity.
  split; [exact H1|]. split; [exact H2|]. split; [exact H3|].
  destruct (started_client_sends_a_key (fun s => s) Load "devices" g
              (fun _ => None) (fun _ => Err "connection refused")
              (fun _ _ => Err "not decoded") H1 H2 H3) as (c & E & K & _).
  exists c. split; [exact E | exact K].
Defined.

(* ================================================================== *)
(** * Further properties: [documents download]                         *)
(* ================================================================== *)

Lemma wrap64_range (z : Z) : int64_range (wrap64 z).
Proof.
  unfold wrap64, int64_range.
  pose proof (Z.mod_pos_bound (z + 2 ^ 63) (2 ^ 64) ltac:(lia)).
  change (2 ^ 64) with (2 * 2 ^ 63) in *. lia.
Qed.

Lemma wrap64_add_l (a b : Z) : wrap64 (wrap64 a + b) = wrap64 (a + b).
Proof.
  unfold wrap64. f_equal.
  replace ((a + 2 ^ 63) mod 2 ^ 64 - 2 ^ 63 + b + 2 ^ 63)
    with ((a + 2 ^ 63) mod 2 ^ 64 + b) by lia.
  rewrite Zplus_mod_idemp_l. f_equal. lia.
Qed.

(** A read takes something off the stream, or reports its end. *)
Lemma Read_size (src : HTTP.Body) (max : Z) (data : string) (eof : bool)
      (rest : HTTP.Body) :
  0 < max ->
  HTTP.Read src max = (data, eof, rest) ->
  len data <= max /\
  ((eof = true /\ data = "" /\ src = []) \/
   (eof = false /\ (Spec.stream_size rest < Spec.stream_size src)%nat /\
    data ++ HTTP.ReadAll rest = HTTP.ReadAll src)).
Proof.
  intros Hmax. destruct src as [|blk r]; cbn [HTTP.Read].
  - intros E. injection E as <- <- <-. split; [unfold len; simpl; lia|]. now left.
  - destruct (Z.leb_spec (len blk) max) as [L|L]; intros E; injection E as <- <- <-.
    + split; [exact L|]. right. split; [reflexivity|]. split.
      * unfold Spec.stream_size. cbn [fold_right]. lia.
      * unfold HTTP.ReadAll. now rewrite concat_cons.
    + unfold len in *.
      assert (S1 : String.length (substring 0 (Z.to_nat max) blk) = Z.to_nat max)
        by (apply length_substring; lia).
      split; [lia|]. right. split; [reflexivity|]. split.
      * unfold Spec.stream_size. cbn [fold_right].
        rewrite length_substring by lia. lia.
      * unfold HTTP.ReadAll. rewrite !concat_cons, <- append_assoc.
        rewrite <- substring_split by lia. reflexivity.
Qed.

Section DownloadFacts.

Variable file_Write : string -> Z -> string -> Z * option string.

(** [io.Copy] comes to an end on every body. *)
Lemma Copy_total (fuel : nat) :
  forall (src : HTTP.Body) (name : string) (written : Z),
    (Spec.stream_size src < fuel)%nat ->
    int64_range written ->
    exists writes n e,
      Cmd.Copy file_Write fuel name written src = Some (writes, n, e) /\
      int64_range n /\
      Forall (fun ev => Spec.is_write name ev = true) writes.
Proof.
  induction fuel as [|f IH]; intros src name written Hs Hr; [lia|].
  cbn [Cmd.Copy].
  destruct (HTTP.Read src Cmd.copyBufferSize) as [[data eof] rest] eqn:R.
  apply Read_size in R; [|reflexivity]. destruct R as [_ R].
  assert (W : Spec.is_write name (Cmd.Write name data) = true)
    by (cbn; apply String.eqb_refl).
  assert (Next : forall w, int64_range w -> eof = false ->
                   exists writes n e,
                     Cmd.Copy file_Write f name w rest = Some (writes, n, e) /\
                     int64_range n /\
                     Forall (fun ev => Spec.is_write name ev = true) writes).
  { intros w Hw Ef. destruct R as [(E & _)|(_ & Hlt & _)]; [congruence|].
    apply IH; [lia | exact Hw]. }
  destruct (0 <? len data).
  - destruct (file_Write name written data) as [nw ew].
    destruct ((nw <? 0) || (len data <? nw)).
    + eexists _, _, _. split; [reflexivity|]. split; [apply wrap64_range|].
      now constructor.
    + destruct ew as [e|].
      * eexists _, _, _. split; [reflexivity|]. split; [apply wrap64_range|].
        now constructor.
      * destruct (negb (len data =? nw)).
        -- eexists _, _, _. split; [reflexivity|]. split; [apply wrap64_range|].
           now constructor.
        -- destruct eof.
           ++ eexists _, _, _. split; [reflexivity|]. split; [apply wrap64_range|].
              now constructor.
           ++ destruct (Next (wrap64 (written + nw)) (wrap64_range _) eq_refl)
                as (ws & n & e & E & Hn & Hw).
              rewrite E. eexists _, _, _. split; [reflexivity|].
              split; [exact Hn|]. now constructor.
  - destruct eof.
    + eexists _, _, _. split; [reflexivity|]. split; [exact Hr|]. constructor.
    + apply Next; [exact Hr | reflexivity].
Qed.

(** On a file that takes every write whole, [io.Copy] writes the body,
    all of it and in order, and returns its length. *)
Lemma Copy_healthy (fuel : nat) :
  (forall name offset data, file_Write name offset data = (len data, None)) ->
  forall (src : HTTP.Body) (name : string) (written : Z),
    (Spec.stream_size src < fuel)%nat ->
    int64_range written ->
    exists writes,
      Cmd.Copy file_Write fuel name written src
      = Some (writes, wrap64 (written + len (HTTP.ReadAll src)), None) /\
      Spec.written_data writes = HTTP.ReadAll src.
Proof.
  intros Hw. induction fuel as [|f IH]; intros src name written Hs Hr; [lia|].
  cbn [Cmd.Copy].
  destruct (HTTP.Read src Cmd.copyBufferSize) as [[data eof] rest] eqn:R.
  apply Read_size in R; [|reflexivity]. destruct R as [_ R].
  rewrite Hw. cbv beta iota zeta.
  assert (L0 : 0 <= len data) by (unfold len; lia).
  destruct (Z.ltb_spec (len data) 0) as [|_]; [lia|].
  rewrite Z.ltb_irrefl. cbn [orb]. cbv beta iota zeta.
  rewrite Z.eqb_refl. cbn [negb]. cbv beta iota zeta.
  destruct R as [(-> & -> & ->)|(-> & Hlt & E)].
  - cbn. exists []. split; [|reflexivity].
    rewrite Z.add_0_r, wrap64_id by exact Hr. reflexivity.
  - destruct (IH rest name (wrap64 (written + len data)) ltac:(lia) (wrap64_range _))
      as (ws & EC & ED).
    assert (LE : len (HTTP.ReadAll src) = len data + len (HTTP.ReadAll rest)).
    { rewrite <- E. unfold len. rewrite length_append. lia. }
    destruct (Z.ltb_spec 0 (len data)) as [Hpos|Hz].
    + rewrite EC. exists (Cmd.Write name data :: ws). split.
      * rewrite wrap64_add_l, LE, Z.add_assoc. reflexivity.
      * cbn [Spec.written_data]. now rewrite ED.
    + assert (D : data = "").
      { destruct data; [reflexivity|]. unfold len in Hz. simpl in Hz. lia. }
      subst data. cbn [append] in E.
      destruct (IH rest name written ltac:(lia) Hr) as (ws' & EC' & ED').
      rewrite EC'. exists ws'. split; [|now rewrite ED', E].
      rewrite LE. reflexivity.
Qed.

End DownloadFacts.

(** The path and the calls of [os.Stat] with which the command begins. *)
Lemma save_path (os_Stat : string -> result bool)
      (filepath_Join : string -> string -> string) (docsOutput filename : string) :
  (if String.eqb docsOutput "" then ([], filename)
   else ([Cmd.Stat docsOutput],
         match os_Stat docsOutput with
         | Ok true => filepath_Join docsOutput filename
         | _ => docsOutput
         end))
  = (Spec.stat_calls docsOutput,
     Spec.output_path os_Stat filepath_Join docsOutput filename).
Proof.
  unfold Spec.stat_calls, Spec.output_path.
  destruct (String.eqb docsOutput ""); reflexivity.
Qed.

(** X23. [documents download] closes what it opened, on every way out
    and in the reverse order of opening. When the file cannot be created
    only the body is closed; once it is created, the file is written to,
    then closed, then the body is closed, whether the copy fails or not;
    the message goes out before the file is closed. It never panics. *)
Theorem download_closes_what_it_opened
        (os_Stat : string -> result bool) (os_Create : string -> option string)
        (file_Write : string -> Z -> string -> Z * option string)
        (filepath_Join : string -> string -> string)
        (out : Output.Writer) (docsOutput : string)
        (doc : Client.Document) (body : HTTP.Body) :
  let path := Spec.output_path os_Stat filepath_Join docsOutput (Client.doc_Filename doc) in
  let run := Cmd.documentsDownloadCmd_save os_Stat os_Create file_Write filepath_Join
                                           out docsOutput doc body in
  snd run <> Panic /\
  (forall e, os_Create path = Some e ->
             run = ((Spec.stat_calls docsOutput ++ [Cmd.Create path; Cmd.CloseBody])%list,
                    Done (Some ("failed to create output file: " ++ e)))) /\
  (os_Create path = None ->
   exists (writes message : list Cmd.effect),
     fst run = (Spec.stat_calls docsOutput ++ Cmd.Create path :: writes ++ message
                ++ [Cmd.CloseFile path; Cmd.CloseBody])%list /\
     Forall (fun ev => Spec.is_write path ev = true) writes /\
     ((exists e, message = [] /\ snd run = Done (Some ("failed to write file: " ++ e))) \/
      (exists n size,
          Output.FormatSize n = Done size /\
          message = [Cmd.Printed ("Downloaded " ++ Client.doc_Filename doc ++ " (" ++ size
                                  ++ ") to " ++ path ++ nl)] /\
          snd run = Done None))).
Proof.
  intros path run. unfold run, Cmd.documentsDownloadCmd_save.
  rewrite save_path. fold path.
  destruct (Copy_total file_Write (Cmd.Copy_fuel body) body path 0)
    as (writes0 & n0 & e0 & EC0 & Hn0 & Hw0).
  { unfold Cmd.Copy_fuel, Spec.stream_size. lia. }
  { unfold int64_range. change (2 ^ 63) with 9223372036854775808. lia. }
  split; [|split].
  - destruct (os_Create path); [discriminate|]. rewrite EC0.
    destruct e0; [discriminate|].
    destruct (FormatSize_done n0 Hn0) as [size ES]. rewrite ES. discriminate.
  - intros e E. rewrite E. reflexivity.
  - intros E. rewrite E.
    destruct (Copy_total file_Write (Cmd.Copy_fuel body) body path 0)
      as (writes & n & e & EC & Hn & Hw).
    { unfold Cmd.Copy_fuel, Spec.stream_size. lia. }
    { unfold int64_range. change (2 ^ 63) with 9223372036854775808. lia. }
    rewrite EC. destruct e as [e|].
    + exists writes, []. cbn [fst snd app]. split; [reflexivity|].
      split; [exact Hw|]. left. now exists e.
    + destruct (FormatSize_done n Hn) as [size ES]. rewrite ES.
      exists writes, [Cmd.Printed ("Downloaded " ++ Client.doc_Filename doc ++ " (" ++ size
                                   ++ ") to " ++ path ++ nl)].
      cbn [fst snd]. split; [reflexivity|]. split; [exact Hw|].
      right. exists n, size. repeat split. exact ES.
Qed.

Lemma download_closes_what_it_opened_witness :
  let doc := Client.mkDocument "abc123ef4567" "0f0f0f0f0f0f" "hardware/esp32/ds.pdf"
                               "ds.pdf" "application/pdf" 4 "9f86d081884c7d65"
                               "2025-12-01T00:00:00Z" in
  (fun _ : string => Some "permission denied") "ds.pdf" = Some "permission denied" /\
  Cmd.documentsDownloadCmd_save (fun _ => Err "no such file")
                                (fun _ => Some "permission denied")
                                (fun _ _ data => (len data, None)) (fun d n => d ++ "/" ++ n)
                                (Output.New (fun s => s) "table") "" doc ["%PDF"]
  = ([Cmd.Create "ds.pdf"; Cmd.CloseBody],
     Done (Some "failed to create output file: permission denied")).
Proof.
  intros doc.
  assert (H : (fun _ : string => Some "permission denied") "ds.pdf"
              = Some "permission denied") by reflexivity.
  split; [exact H|].
  exact (proj1 (proj2 (download_closes_what_it_opened
                         (fun _ => Err "no such file") (fun _ => Some "permission denied")
                         (fun _ _ data => (len data, None)) (fun d n => d ++ "/" ++ n)
                         (Output.New (fun s => s) "table") "" doc ["%PDF"]))
               "permission denied" H).
Defined.

(** X24. A download that meets no error writes the body to the file,
    every byte in order, and reports its length. With a file that can be
    created and takes every write whole: the bytes handed to [Write] are
    the body; the message names the file name of the document, the size
    [FormatSize] makes of the number of bytes, and the path; the path is
    the file name the service gave for the document, as it is, when
    [--output] is not set, the value of [--output] when that is no
    directory, and otherwise the two joined. *)
Theorem download_saves_the_body
        (os_Stat : string -> result bool) (os_Create : string -> option string)
        (file_Write : string -> Z -> string -> Z * option string)
        (filepath_Join : string -> string -> string)
        (out : Output.Writer) (docsOutput : string)
        (doc : Client.Document) (body : HTTP.Body) :
  let path := Spec.output_path os_Stat filepath_Join docsOutput (Client.doc_Filename doc) in
  (forall name offset data, file_Write name offset data = (len data, None)) ->
  os_Create path = None ->
  exists (writes : list Cmd.effect) (size : string),
    Cmd.documentsDownloadCmd_save os_Stat os_Create file_Write filepath_Join
                                  out docsOutput doc body
    = ((Spec.stat_calls docsOutput ++ Cmd.Create path :: writes
        ++ [Cmd.Printed ("Downloaded " ++ Client.doc_Filename doc ++ " (" ++ size
                         ++ ") to " ++ path ++ nl);
            Cmd.CloseFile path; Cmd.CloseBody])%list,
       Done None) /\
    Spec.written_data writes = String.concat "" body /\
    Output.FormatSize (wrap64 (len (String.concat "" body))) = Done size /\
    (docsOutput = "" -> path = Client.doc_Filename doc) /\
    (docsOutput <> "" -> os_Stat docsOutput <> Ok true -> path = docsOutput) /\
    (docsOutput <> "" -> os_Stat docsOutput = Ok true ->
     path = filepath_Join docsOutput (Client.doc_Filename doc)).
Proof.
  intros path Hw Hc. unfold Cmd.documentsDownloadCmd_save.
  rewrite save_path. fold path. rewrite Hc.
  destruct (Copy_healthy file_Write (Cmd.Copy_fuel body) Hw body path 0)
    as (writes & EC & ED).
  { unfold Cmd.Copy_fuel, Spec.stream_size. lia. }
  { unfold int64_range. change (2 ^ 63) with 9223372036854775808. lia. }
  rewrite EC. cbn [Z.add].
  destruct (FormatSize_done (wrap64 (len (HTTP.ReadAll body))) (wrap64_range _))
    as [size ES].
  rewrite ES. exists writes, size.
  split; [reflexivity|]. split; [exact ED|]. split; [exact ES|].
  unfold path, Spec.output_path.
  split; [intros ->; reflexivity|]. split.
  - intros Hne Hs. apply String.eqb_neq in Hne. rewrite Hne.
    destruct (os_Stat docsOutput) as [[|]|]; [contradiction | reflexivity | reflexivity].
  - intros Hne Hs. apply String.eqb_neq in Hne. rewrite Hne, Hs. reflexivity.
Qed.

Lemma download_saves_the_body_witness :
  let doc := Client.mkDocument "abc123ef4567" "0f0f0f0f0f0f" "hardware/esp32/ds.pdf"
                               "../ds.pdf" "application/pdf" 0 "9f86d081884c7d65"
                               "2025-12-01T00:00:00Z" in
  (forall name offset data,
      (fun (_ : string) (_ : Z) (data : string) => (len data, @None string))
        name offset data = (len data, None)) /\
  (fun _ : string => @None string) "../ds.pdf" = None /\
  exists (writes : list Cmd.effect) (size : string),
    Cmd.documentsDownloadCmd_save (fun _ => Err "no such file") (fun _ => None)
                                  (fun _ _ data => (len data, None))
                                  (fun d n => d ++ "/" ++ n)
                                  (Output.New (fun s => s) "table") "" doc ["%PDF-"; "1.7"]
    = (Cmd.Create "../ds.pdf" :: writes
       ++ [Cmd.Printed ("Downloaded ../ds.pdf (" ++ size ++ ") to ../ds.pdf" ++ nl);
           Cmd.CloseFile "../ds.pdf"; Cmd.CloseBody],
       Done None) /\
    Spec.written_data writes = "%PDF-1.7" /\
    Output.FormatSize 8 = Done size.
Proof.
  intros doc.
  assert (H1 : forall name offset data,
             (fun (_ : string) (_ : Z) (data : string) => (len data, @None string))
               name offset data = (len data, None)) by reflexivity.
  assert (H2 : (fun _ : string => @None string) "../ds.pdf" = None) by reflexivity.
  split; [exact H1|]. split; [exact H2|].
  destruct (download_saves_the_body
              (fun _ => Err "no such file") (fun _ => None)
              (fun _ _ data => (len data, None)) (fun d n => d ++ "/" ++ n)
              (Output.New (fun s => s) "table") "" doc ["%PDF-"; "1.7"] H1 H2)
    as (writes & size & E & ED & ES & _).
  exists writes, size. split; [exact E|]. split; [exact ED | exact ES].
Defined.

(** [documents download] never panics once it has the body. *)
Lemma save_returns
      (os_Stat : string -> result bool) (os_Create : string -> option string)
      (file_Write : string -> Z -> string -> Z * option string)
      (filepath_Join : string -> string -> string)
      (out : Output.Writer) (docsOutput : string)
      (doc : Client.Document) (body : HTTP.Body) :
  snd (Cmd.documentsDownloadCmd_save os_Stat os_Create file_Write filepath_Join
                                     out docsOutput doc body) <> Panic.
Proof.
  unfold Cmd.documentsDownloadCmd_save. rewrite save_path.
  destruct (os_Create _); [discriminate|].
  match goal with
  | |- context [Cmd.Copy file_Write ?f ?p 0 body] =>
      destruct (Copy_total file_Write f body p 0) as (ws & n & e & EC & Hn & _);
        [unfold Cmd.Copy_fuel, Spec.stream_size; lia
        |unfold int64_range; change (2 ^ 63) with 9223372036854775808; lia|]
  end.
  rewrite EC. destruct e; [discriminate|].
  destruct (FormatSize_done n Hn) as [size ES]. rewrite ES. discriminate.
Qed.

(** What the command does when [DownloadDocument] has returned. *)
Lemma download_after
      (os_Stat : string -> result bool) (os_Create : string -> option string)
      (file_Write : string -> Z -> string -> Z * option string)
      (filepath_Join : string -> string -> string)
      (out : Output.Writer) (docsOutput : string) (doc : Client.Document)
      (sent : list HTTP.Request) (body : HTTP.Body) (cd : string) :
  let save := Cmd.documentsDownloadCmd_save os_Stat os_Create file_Write filepath_Join
                out docsOutput doc body in
  let run :=
    match (filename <- Client.DownloadDocument_filename cd ;;
           Done (Ok (body, filename))) with
    | Done (Ok (body, _)) =>
        let '(effects, r0) :=
          Cmd.documentsDownloadCmd_save os_Stat os_Create file_Write
                                        filepath_Join out docsOutput doc body in
        ((map Cmd.Sent sent ++ effects)%list, r0)
    | Done (Err e) =>
        (map Cmd.Sent sent, Done (Some ("failed to download document: " ++ e)))
    | Panic => (map Cmd.Sent sent, Panic)
    end in
  (len cd = 22 -> run = (map Cmd.Sent sent, Panic)) /\
  (len cd <> 22 -> run = ((map Cmd.Sent sent ++ fst save)%list, snd save)).
Proof.
  intros save run. unfold run.
  pose proof (DownloadDocument_filename_cases cd) as (C1 & C2 & C3).
  split; intros L.
  - rewrite (C2 L). reflexivity.
  - assert (E : exists name, Client.DownloadDocument_filename cd = Done name).
    { destruct (Z.le_gt_cases (len cd) 21) as [L1|L1]; [rewrite (C1 L1); eauto|].
      rewrite (proj2 (proj2 (DownloadDocument_filename_cases cd))) by lia. eauto. }
    destruct E as [name ->]. cbn [bind]. fold save.
    destruct save as [effects r0]. reflexivity.
Qed.

(** X25. The download itself, the document being known. A status other
    than 200 ends the command with the whole body in the error, before
    any file is looked at or created. On a 200 the file name the header
    [Content-Disposition] suggests is never used: whatever the header
    says, the file is saved as without it; but a header value of exactly
    22 bytes makes the command panic, with no file opened and the body
    left unclosed, and nothing else makes it panic. *)
Theorem download_ignores_the_suggested_name
        (parseURL : string -> option string)
        (Do : HTTP.Request -> result HTTP.Response)
        (os_Stat : string -> result bool) (os_Create : string -> option string)
        (file_Write : string -> Z -> string -> Z * option string)
        (filepath_Join : string -> string -> string)
        (apiClient : Client.Client) (out : Output.Writer) (docsOutput : string)
        (doc : Client.Document) (id : string) (resp : HTTP.Response) :
  let req := HTTP.mkRequest "GET"
               (Client.baseURL apiClient ++ "/api/" ++ Client.APIVersion
                ++ "/documents/" ++ id ++ "/download")
               [("X-Api-Key", [Client.apiKey apiClient])] in
  let cd := HTTP.Header_Get (HTTP.RespHeader resp) "Content-Disposition" in
  let run := Cmd.documentsDownloadCmd_download parseURL Do os_Stat os_Create file_Write
               filepath_Join apiClient out docsOutput doc id in
  let save := Cmd.documentsDownloadCmd_save os_Stat os_Create file_Write filepath_Join
                out docsOutput doc (HTTP.RespBody resp) in
  parseURL (HTTP.Url req) = None ->
  Do req = Ok resp ->
  (HTTP.StatusCode resp <> 200 ->
   run = ([Cmd.Sent req],
          Done (Some ("failed to download document: "
                      ++ Client.APIError (HTTP.StatusCode resp)
                                         (String.concat "" (HTTP.RespBody resp)))))) /\
  (HTTP.StatusCode resp = 200 ->
   (len cd = 22 -> run = ([Cmd.Sent req], Panic)) /\
   (len cd <> 22 -> run = (Cmd.Sent req :: fst save, snd save)) /\
   (snd run = Panic <-> len cd = 22)).
Proof.
  intros req cd run save HP HD.
  unfold run, Cmd.documentsDownloadCmd_download, Client.DownloadDocument,
    Client.NewRequest.
  unfold req in HP. cbn [HTTP.Url] in HP. rewrite HP.
  change (Client.set_header _ _ _) with req. rewrite HD.
  unfold HTTP.StatusOK. split.
  - intros HS. destruct (Z.eqb_spec (HTTP.StatusCode resp) 200) as [|_]; [contradiction|].
    reflexivity.
  - intros HS. rewrite HS. cbn [Z.eqb Pos.eqb negb]. fold cd. cbv beta iota zeta.
    pose proof (download_after os_Stat os_Create file_Write filepath_Join out docsOutput
                  doc [req] (HTTP.RespBody resp) cd) as [A B].
    pose proof (save_returns os_Stat os_Create file_Write filepath_Join out docsOutput
                  doc (HTTP.RespBody resp)) as NP.
    fold save in NP, B.
    split; [exact A|]. split; [exact B|]. split.
    + intros P. destruct (Z.eq_dec (len cd) 22) as [L|L]; [exact L|].
      rewrite (B L) in P. cbn [snd] in P. contradiction.
    + intros L. rewrite (A L). reflexivity.
Qed.

Lemma download_ignores_the_suggested_name_witness :
  let apiClient := Client.New "http://localhost:8080" "k" in
  let doc := Client.mkDocument "abc123ef4567" "0f0f0f0f0f0f" "hardware/esp32/ds.pdf"
                               "ds.pdf" "application/pdf" 4 "9f86d081884c7d65"
                               "2025-12-01T00:00:00Z" in
  let resp := HTTP.mkResponse 200
                [("Content-Disposition", ["attachment; filename=a"])] ["%PDF"] in
  let req := HTTP.mkRequest "GET"
               "http://localhost:8080/api/2025.12/documents/abc123ef4567/download"
               [("X-Api-Key", ["k"])] in
  (fun _ : string => @None string) (HTTP.Url req) = None /\
  (fun _ : HTTP.Request => Ok resp) req = Ok resp /\
  HTTP.StatusCode resp = 200 /\
  len (HTTP.Header_Get (HTTP.RespHeader resp) "Content-Disposition") = 22 /\
  Cmd.documentsDownloadCmd_download (fun _ => None) (fun _ => Ok resp)
    (fun _ => Err "no such file") (fun _ => None) (fun _ _ data => (len data, None))
    (fun d n => d ++ "/" ++ n) apiClient (Output.New (fun s => s) "table") ""
    doc "abc123ef4567"
  = ([Cmd.Sent req], Panic).
Proof.
  intros apiClient doc resp req.
  assert (H1 : (fun _ : string => @None string) (HTTP.Url req) = None) by reflexivity.
  assert (H2 : (fun _ : HTTP.Request => Ok resp) req = Ok resp) by reflexivity.
  assert (H3 : HTTP.StatusCode resp = 200) by reflexivity.
  assert (H4 : len (HTTP.Header_Get (HTTP.RespHeader resp) "Content-Disposition") = 22)
    by reflexivity.
  split; [exact H1|]. split; [exact H2|]. split; [exact H3|]. split; [exact H4|].
  exact (proj1 (proj2 (download_ignores_the_suggested_name
                         (fun _ => None) (fun _ => Ok resp)
                         (fun _ => Err "no such file") (fun _ => None)
                         (fun _ _ data => (len data, None))
                         (fun d n => d ++ "/" ++ n) apiClient
                         (Output.New (fun s => s) "table") ""
                         doc "abc123ef4567" resp H1 H2) H3) H4).
Defined.

(** X26. The download begins with [GetDocument]: when that fails, its
    error is returned as [failed to get document info: ...], no download
    request is sent and no file is looked at or created; when it
    succeeds, the command goes on with the download. *)
Theorem download_asks_for_the_document_first
        (parseURL : string -> option string)
        (Do : HTTP.Request -> result HTTP.Response)
        (decodeResult : forall A : Type, HTTP.Body -> result A)
        (os_Stat : string -> result bool) (os_Create : string -> option string)
        (file_Write : string -> Z -> string -> Z * option string)
        (filepath_Join : string -> string -> string)
        (apiClient : Client.Client) (out : Output.Writer) (docsOutput : string)
        (id : string) :
  let asked := Client.GetDocument parseURL Do decodeResult apiClient id in
  let run := Cmd.documentsDownloadCmd_RunE parseURL Do decodeResult os_Stat os_Create
               file_Write filepath_Join apiClient out docsOutput id in
  (forall e, snd asked = Done (Err e) ->
             run = (map Cmd.Sent (fst asked),
                    Done (Some ("failed to get document info: " ++ e))) /\
             (List.length (fst run) <= 1)%nat /\
             forallb Spec.is_request (fst run) = true) /\
  (forall doc, snd asked = Done (Ok doc) ->
               let download :=
                 Cmd.documentsDownloadCmd_download parseURL Do os_Stat os_Create
                   file_Write filepath_Join apiClient out docsOutput doc id in
               run = ((map Cmd.Sent (fst asked) ++ fst download)%list, snd download)).
Proof.
  intros asked run. unfold run, Cmd.documentsDownloadCmd_RunE. fold asked.
  pose proof (get_tries_once parseURL Do decodeResult Client.Document apiClient
                ("/documents/" ++ id)) as (T & _).
  change (Client.get parseURL Do decodeResult apiClient ("/documents/" ++ id))
    with asked in T.
  destruct asked as [sent r]. cbn [fst snd] in *. split.
  - intros e ->. split; [reflexivity|]. cbn [fst]. split.
    + now rewrite length_map.
    + clear. induction sent as [|x l IH]; [reflexivity | exact IH].
  - intros doc ->. cbv zeta. destruct (Cmd.documentsDownloadCmd_download _ _ _ _ _ _ _ _ _ _ _).
    reflexivity.
Qed.

Lemma download_asks_for_the_document_first_witness :
  let apiClient := Client.New "http://localhost:8080" "k" in
  let req := HTTP.mkRequest "GET"
               "http://localhost:8080/api/2025.12/documents/abc123ef4567"
               [("X-Api-Key", ["k"])] in
  Cmd.documentsDownloadCmd_RunE (fun _ => None) (fun _ => Err "connection refused")
    (fun _ _ => Err "not decoded")
    (fun _ => Err "no such file") (fun _ => None) (fun _ _ data => (len data, None))
    (fun d n => d ++ "/" ++ n) apiClient (Output.New (fun s => s) "table") ""
    "abc123ef4567"
  = ([Cmd.Sent req],
     Done (Some "failed to get document info: request failed: connection refused")).
Proof.
  intros apiClient req.
  exact (proj1 (proj1 (download_asks_for_the_document_first
                         (fun _ => None) (fun _ => Err "connection refused")
                         (fun _ _ => Err "not decoded")
                         (fun _ => Err "no such file") (fun _ => None)
                         (fun _ _ data => (len data, None))
                         (fun d n => d ++ "/" ++ n) apiClient
                         (Output.New (fun s => s) "table") "" "abc123ef4567")
                      "request failed: connection refused" eq_refl)).
Defined.

(** X28. What [documents get] prints outside JSON mode, for a document
    whose checksum has 16 bytes or more and whose size is an [int64]:
    eight lines, the identifiers, the path and the type in full, the
    size as [FormatSize] writes it, and the first 16 bytes of the
    checksum followed by three dots, which are added even when the
    checksum has exactly 16 bytes and nothing is left out. *)
Theorem documents_get_output
        (encodeJSON : forall A : Type, A -> string * option string)
        (out : Output.Writer) (d : Client.Document) (o : string) :
  Output.IsJSON out = false ->
  16 <= len (Client.doc_Checksum d) ->
  int64_range (Client.doc_SizeBytes d) ->
  Cmd.documentsGetCmd_RunE encodeJSON out (Ok d) o
  = (o ++ "Document: " ++ Client.doc_Filename d ++ nl
       ++ "  ID:        " ++ Client.doc_ID d ++ nl
       ++ "  Device:    " ++ Client.doc_DeviceID d ++ nl
       ++ "  Path:      " ++ Client.doc_Path d ++ nl
       ++ "  Type:      " ++ Client.doc_MimeType d ++ nl
       ++ "  Size:      " ++ Spec.size_text (Client.doc_SizeBytes d) ++ nl
       ++ "  Checksum:  " ++ substring 0 16 (Client.doc_Checksum d) ++ "..." ++ nl
       ++ "  Indexed:   " ++ Client.doc_IndexedAt d ++ nl,
     Done None) /\
  (len (Client.doc_Checksum d) = 16 ->
   substring 0 16 (Client.doc_Checksum d) = Client.doc_Checksum d).
Proof.
  intros HJ HC HR. split.
  - unfold Cmd.documentsGetCmd_RunE. rewrite HJ.
    unfold IO.bindIO, Output.Text, IO.print, IO.eval, IO.ret, Spec.size_text.
    destruct (FormatSize_done _ HR) as [size ->].
    rewrite slice_to_done by lia. change (Z.to_nat 16) with 16%nat.
    f_equal. now rewrite !append_assoc.
  - intros E. unfold len in E.
    replace 16%nat with (String.length (Client.doc_Checksum d)) by lia.
    apply substring_full.
Qed.

Lemma documents_get_output_witness :
  let out := Output.New (fun s => s) "table" in
  let encodeJSON : forall A : Type, A -> string * option string :=
    fun _ _ => ("", None) in
  let d := Client.mkDocument "abc123ef4567" "0f0f0f0f0f0f" "hardware/esp32/ds.pdf"
                             "ds.pdf" "application/pdf" 1536 "9f86d081884c7d65"
                             "2025-12-01" in
  Output.IsJSON out = false /\
  16 <= len (Client.doc_Checksum d) /\
  int64_range (Client.doc_SizeBytes d) /\
  Cmd.documentsGetCmd_RunE encodeJSON out (Ok d) ""
  = ("Document: ds.pdf" ++ nl ++
     "  ID:        abc123ef4567" ++ nl ++
     "  Device:    0f0f0f0f0f0f" ++ nl ++
     "  Path:      hardware/esp32/ds.pdf" ++ nl ++
     "  Type:      application/pdf" ++ nl ++
     "  Size:      1.5 KB" ++ nl ++
     "  Checksum:  9f86d081884c7d65..." ++ nl ++
     "  Indexed:   2025-12-01" ++ nl,
     Done None).
Proof.
  intros out encodeJSON d.
  assert (H1 : Output.IsJSON out = false) by reflexivity.
  assert (H2 : 16 <= len (Client.doc_Checksum d)) by (vm_compute; discriminate).
  assert (H3 : int64_range (Client.doc_SizeBytes d))
    by (split; vm_compute; [discriminate | reflexivity]).
  split; [exact H1|]. split; [exact H2|]. split; [exact H3|].
  exact (proj1 (documents_get_output encodeJSON out d "" H1 H2 H3)).
Defined.
